(** * PPO agent: a shallow embedding of [src/agents/PPOAgent.py]

    The development follows the source file top to bottom: scalars and
    tensors, the collaborators the agent owns (normalizer, rollout buffer,
    networks, optimizers, schedulers), then [act], [update],
    [_perform_update], [update_networks], [save] and [load].  Python
    exceptions are the [Raise] branch of [result]; the mutable agent object
    is threaded explicitly through every method. *)

From Stdlib Require Import ZArith List Reals Lra Lia String.
From stdpp Require Import gmap strings list.
From stdpp Require Import pretty.

Open Scope Z_scope.

(** ** Scalars

    Python floats and 0-dimensional tensors.  The operations are kept
    uninterpreted: no algebraic law is assumed anywhere below, so what is
    proved holds for IEEE arithmetic as well as for the reals. *)

Class Scalar (F : Type) : Type := {
  f_of_Z : Z -> F;
  f_add : F -> F -> F;
  f_sub : F -> F -> F;
  f_mul : F -> F -> F;
  f_div : F -> F -> F;
  f_neg : F -> F;
  f_exp : F -> F;
  f_sqrt : F -> F;
  f_min : F -> F -> F;
  f_max : F -> F -> F
}.

Section Tensors.
Context {F : Type} `{Scalar F}.

(** The float [0.0], and the int [0] once it meets a float. *)
Definition f_zero : F := f_of_Z 0.
Definition f_one : F := f_of_Z 1.

(** A decimal literal [n/d]: [0.5] is [f_dec 1 2]. *)
Definition f_dec (n d : Z) : F := f_div (f_of_Z n) (f_of_Z d).

(** [x.pow(2)] *)
Definition f_sq (x : F) : F := f_mul x x.

(** [torch.clamp(x, lo, hi)] is [min(max(x, lo), hi)]. *)
Definition f_clamp (x lo hi : F) : F := f_min (f_max x lo) hi.

(** One-dimensional tensors are lists; elementwise binary operations pair
    the operands position by position. *)
Definition t_sub (a b : list F) : list F := zip_with f_sub a b.
Definition t_add (a b : list F) : list F := zip_with f_add a b.
Definition t_mul (a b : list F) : list F := zip_with f_mul a b.
Definition t_min (a b : list F) : list F := zip_with f_min a b.
Definition t_max (a b : list F) : list F := zip_with f_max a b.
Definition t_exp (a : list F) : list F := map f_exp a.
Definition t_pow2 (a : list F) : list F := map f_sq a.
Definition t_clamp (a : list F) (lo hi : F) : list F :=
  map (fun x => f_clamp x lo hi) a.

Definition t_sum (a : list F) : F := fold_left f_add a f_zero.

(** [a.mean()] *)
Definition t_mean (a : list F) : F :=
  f_div (t_sum a) (f_of_Z (Z.of_nat (length a))).

(** [a.std()]: torch's default is the unbiased estimator. *)
Definition t_std (a : list F) : F :=
  let m := t_mean a in
  f_sqrt (f_div (t_sum (map (fun x => f_sq (f_sub x m)) a))
                (f_of_Z (Z.of_nat (length a) - 1))).

(** [t[batch_indices]]: the indices always come from
    [torch.randperm(len(t))], [d] only makes the function total. *)
Definition gather {A : Type} (d : A) (t : list A) (idx : list nat) : list A :=
  map (fun i => nth i t d) idx.

(** [t[start:end]] *)
Definition slice {A : Type} (t : list A) (start stop : nat) : list A :=
  take (stop - start) (drop start t).
End Tensors.

(** ** Data model *)

(** An action is a Python number or an array ([isinstance(action, (int,
    float))] tells them apart). *)
Inductive action (F : Type) : Type :=
| ActScalar (x : F)
| ActArray (xs : list F).
Arguments ActScalar {F} x.
Arguments ActArray {F} xs.

Record transition (F : Type) : Type := Transition {
  tr_state : list F;
  tr_action : action F;
  tr_reward : F;
  tr_value : F;
  tr_log_prob : F;
  tr_done : bool
}.
Arguments Transition {F}.
Arguments tr_state {F}.
Arguments tr_action {F}.
Arguments tr_reward {F}.
Arguments tr_value {F}.
Arguments tr_log_prob {F}.
Arguments tr_done {F}.

(** Modelled from the spec: the state of [RunningNormalizer]
    ([src/agents/utils/state_normalizer.py] is not among the sources), which
    "owns {count, mean, variance} per state dimension". *)
Record RunningNormalizer (F : Type) : Type := Normalizer {
  rn_count : Z;
  rn_mean : list F;
  rn_var : list F
}.
Arguments Normalizer {F}.
Arguments rn_count {F}.
Arguments rn_mean {F}.
Arguments rn_var {F}.

(** Modelled from the spec: [PPOBuffer] ([src/buffers/ppo_buffer.py] is not
    among the sources), "an ordered sequence of Transition up to
    capacity". *)
Record PPOBuffer (F : Type) : Type := Buffer {
  buf_size : nat;
  buf_data : list (transition F)
}.
Arguments Buffer {F}.
Arguments buf_size {F}.
Arguments buf_data {F}.

(** What [buffer.get()] hands to the update, column by column. *)
Record buffer_data (F : Type) : Type := BufferData {
  d_states : list (list F);
  d_actions : list (action F);
  d_values : list F;
  d_log_probs : list F;
  d_normalized_rewards : list F;
  d_dones : list bool
}.
Arguments BufferData {F}.
Arguments d_states {F}.
Arguments d_actions {F}.
Arguments d_values {F}.
Arguments d_log_probs {F}.
Arguments d_normalized_rewards {F}.
Arguments d_dones {F}.

(** Everything one pass through the minibatch body of [_perform_update]
    computes before the optimizers run; the field names are the local
    variables of the source. *)
Record minibatch (F : Type) : Type := Minibatch {
  mb_states : list (list F);
  mb_actions : list (action F);
  mb_old_values : list F;
  mb_old_log_probs : list F;
  mb_rewards : list F;
  mb_dones : list bool;
  mb_values : list F;
  mb_log_probs : list F;
  mb_entropy : F;
  mb_final_value : F;
  mb_next_values : list F;
  mb_advantages : list F;
  mb_returns : list F;
  mb_policy_loss : F;
  mb_value_loss : F;
  mb_loss : F
}.
Arguments Minibatch {F}.
Arguments mb_states {F}.
Arguments mb_actions {F}.
Arguments mb_old_values {F}.
Arguments mb_old_log_probs {F}.
Arguments mb_rewards {F}.
Arguments mb_dones {F}.
Arguments mb_values {F}.
Arguments mb_log_probs {F}.
Arguments mb_entropy {F}.
Arguments mb_final_value {F}.
Arguments mb_next_values {F}.
Arguments mb_advantages {F}.
Arguments mb_returns {F}.
Arguments mb_policy_loss {F}.
Arguments mb_value_loss {F}.
Arguments mb_loss {F}.

(** [torch.optim.Adam]: the learning rate of its single parameter group and
    the number of [step()] calls; the moment estimates live with the
    parameters they belong to. *)
Record optimizer (F : Type) : Type := Optimizer {
  opt_lr : F;
  opt_steps : nat
}.
Arguments Optimizer {F}.
Arguments opt_lr {F}.
Arguments opt_steps {F}.

(** [StepLR]: only the epoch counter. *)
Record scheduler : Type := Scheduler { last_epoch : Z }.

(** The hyper-parameters read from the configuration in [__init__]. *)
Record config (F : Type) : Type := Config {
  gamma : F;
  clip_range : F;
  ent_coef : F;
  vf_coef : F;
  max_grad_norm : F;
  num_epochs : Z;
  batch_size : Z
}.
Arguments Config {F}.
Arguments gamma {F}.
Arguments clip_range {F}.
Arguments ent_coef {F}.
Arguments vf_coef {F}.
Arguments max_grad_norm {F}.
Arguments num_epochs {F}.
Arguments batch_size {F}.

(** ** Collaborators outside the sources

    The networks, the random generator, the normalizer's two operations, the
    buffer's reward normalisation and the effect of one
    backward/clip/optimizer-step round on the parameters are interfaces: the
    agent only calls them. *)
Class Collaborators (F : Type) : Type := {
  ActorP : Type;
  CriticP : Type;
  Dist : Type;
  Rng : Type;
  (** [ActorNetwork.get_distribution], row by row *)
  get_distribution : ActorP -> list F -> Dist;
  dist_log_prob : Dist -> action F -> F;
  dist_entropy : Dist -> F;
  dist_sample : Dist -> Rng -> action F * Rng;
  (** [CriticNetwork.forward], row by row *)
  critic_forward : CriticP -> list F -> F;
  (** [torch.randperm] *)
  randperm : Rng -> nat -> list nat * Rng;
  (** [RunningNormalizer.update] and [RunningNormalizer.normalize] *)
  normalizer_update : RunningNormalizer F -> list (list F) -> RunningNormalizer F;
  normalizer_normalize : RunningNormalizer F -> list F -> list F;
  (** the buffer's ['normalized_rewards'] column *)
  normalize_rewards : list F -> list F;
  (** [zero_grad], [loss.backward()], the two [clip_grad_norm_] calls and the
      two optimizer steps, as far as the parameters are concerned *)
  backward_step : F -> F -> F -> ActorP -> CriticP -> minibatch F -> ActorP * CriticP
}.

(** ** Results *)

Inductive exn : Type :=
| ValueError
| BufferFullError.

Inductive result (A : Type) : Type :=
| Ok (a : A)
| Raise (e : exn).
Arguments Ok {A} a.
Arguments Raise {A} e.

(** The values found in a metrics dictionary. *)
Inductive value (F : Type) : Type :=
| VFloat (x : F)
| VInt (z : Z)
| VStr (s : string).
Arguments VFloat {F} x.
Arguments VInt {F} z.
Arguments VStr {F} s.

Section Agent.
Context {F : Type} `{Scalar F} `{Collaborators F}.

(** ** RolloutBuffer *)

Definition buffer_len (b : PPOBuffer F) : nat := length (buf_data b).

(** Modelled from the spec: [PPOBuffer.store], which "appends; fails with
    BufferFullError if capacity exceeded". *)
Definition buffer_store (b : PPOBuffer F) (t : transition F) : result (PPOBuffer F) :=
  if (buffer_len b <? buf_size b)%nat
  then Ok (Buffer (buf_size b) (buf_data b ++ [t]))
  else Raise BufferFullError.

(** Modelled from the spec: [PPOBuffer.get], which "returns all stored
    transitions as column-oriented arrays in original temporal order. Does
    not clear."  The source also reads a ['normalized_rewards'] column. *)
Definition buffer_get (b : PPOBuffer F) : buffer_data F :=
  BufferData (map tr_state (buf_data b))
             (map tr_action (buf_data b))
             (map tr_value (buf_data b))
             (map tr_log_prob (buf_data b))
             (normalize_rewards (map tr_reward (buf_data b)))
             (map tr_done (buf_data b)).

(** Modelled from the spec: [PPOBuffer.clear], which "resets size to 0,
    cursor to 0". *)
Definition buffer_clear (b : PPOBuffer F) : PPOBuffer F := Buffer (buf_size b) [].

(** Modelled from the spec: one round of the backward recursion of
    [PPOBuffer.compute_gae],
<<
      next_v = next_value if t == T-1 else values[t+1]
      mask = 0 if dones[t] else 1
      delta = rewards[t] + gamma * next_v * mask - values[t]
      gae = delta + gamma * lambda * mask * gae
      advantages[t] = gae
      returns[t] = gae + values[t]
>> *)
Definition gae_step (rewards values : list F) (dones : list bool)
    (next_value gamma lam : F) (T : nat)
    (st : F * list F * list F) (t : nat) : F * list F * list F :=
  let '(gae, advantages, returns) := st in
  let next_v := if (t =? T - 1)%nat then next_value else nth (t + 1) values f_zero in
  let mask := if nth t dones false then f_zero else f_one in
  let delta := f_sub (f_add (nth t rewards f_zero) (f_mul (f_mul gamma next_v) mask))
                     (nth t values f_zero) in
  let gae := f_add delta (f_mul (f_mul (f_mul gamma lam) mask) gae) in
  (gae, <[t := gae]> advantages, <[t := f_add gae (nth t values f_zero)]> returns).

(** Modelled from the spec: [PPOBuffer.compute_gae], "gae = 0; for t from
    T-1 downto 0: ...". *)
Definition compute_gae_lambda (rewards values : list F) (dones : list bool)
    (next_value gamma lam : F) : list F * list F :=
  let T := length rewards in
  let '(_, advantages, returns) :=
    fold_left (gae_step rewards values dones next_value gamma lam T)
              (rev (seq 0 T))
              (f_zero, replicate T f_zero, replicate T f_zero) in
  (advantages, returns).

(** The agent passes no [lambda]: "lambda defaults to 1.0 if not otherwise
    configured". *)
Definition compute_gae (rewards values : list F) (dones : list bool)
    (next_value gamma : F) : list F * list F :=
  compute_gae_lambda rewards values dones next_value gamma f_one.

(** ** Schedulers

    [StepLR(optimizer, step_size=100, gamma=0.7).step()]: the epoch counter
    advances, and every hundredth epoch the learning rate is multiplied by
    0.7. *)
Definition scheduler_step (s : scheduler) (o : optimizer F) : scheduler * optimizer F :=
  let e := last_epoch s + 1 in
  (Scheduler e,
   if (e mod 100 =? 0)
   then Optimizer (f_mul (opt_lr o) (f_dec 7 10)) (opt_steps o)
   else o).

(** ** The agent *)

Record agent : Type := Agent {
  cfg : config F;
  state_normalizer : RunningNormalizer F;
  actor : ActorP;
  critic : CriticP;
  actor_optimizer : optimizer F;
  critic_optimizer : optimizer F;
  actor_scheduler : scheduler;
  critic_scheduler : scheduler;
  buffer : PPOBuffer F;
  rng : Rng
}.

(** [self.minimum_required_samples = int(self.batch_size * 2)], set once in
    [__init__] and never assigned again. *)
Definition minimum_required_samples (ag : agent) : Z := batch_size (cfg ag) * 2.

Definition set_state_normalizer (ag : agent) (n : RunningNormalizer F) : agent :=
  Agent (cfg ag) n (actor ag) (critic ag) (actor_optimizer ag) (critic_optimizer ag)
        (actor_scheduler ag) (critic_scheduler ag) (buffer ag) (rng ag).

Definition set_buffer (ag : agent) (b : PPOBuffer F) : agent :=
  Agent (cfg ag) (state_normalizer ag) (actor ag) (critic ag) (actor_optimizer ag)
        (critic_optimizer ag) (actor_scheduler ag) (critic_scheduler ag) b (rng ag).

Definition set_rng (ag : agent) (r : Rng) : agent :=
  Agent (cfg ag) (state_normalizer ag) (actor ag) (critic ag) (actor_optimizer ag)
        (critic_optimizer ag) (actor_scheduler ag) (critic_scheduler ag) (buffer ag) r.

(** Modelled from the spec: [ActorNetwork.get_action_and_log_prob]
    ([src/networks/ppo_networks.py] is not among the sources), the network
    contract's "policy.act(normalized_state) -> (action, log_prob)": an
    action is drawn from the policy's distribution at the state and returned
    with its own log-probability. *)
Definition get_action_and_log_prob (a : ActorP) (r : Rng) (normalized_state : list F)
    : action F * F * Rng :=
  let distribution := get_distribution a normalized_state in
  let '(sampled, r') := dist_sample distribution r in
  (sampled, dist_log_prob distribution sampled, r').

(** [PPOAgent.act]: the selected action and the agent afterwards. *)
Definition act (ag : agent) (state : list F) : action F * agent :=
  let state_tensor := state in
  let normalized_state := normalizer_normalize (state_normalizer ag) state_tensor in
  let '(action, _, r') := get_action_and_log_prob (actor ag) (rng ag) normalized_state in
  (action, set_rng ag r').

(** A metrics dictionary; [None] is Python's [None]. *)
Definition dict_of (items : list (string * value F)) : gmap string (value F) :=
  list_to_map items.

Definition pyret : Type := option (gmap string (value F)).

(** [PPOAgent.update_networks], first branch: the dictionary returned when
    the buffer is too short. *)
Definition insufficient_data_metrics (available : nat) : gmap string (value F) :=
  dict_of [("policy_loss", VFloat f_zero);
           ("value_loss", VFloat f_zero);
           ("entropy", VFloat f_zero);
           ("skipped_reason", VStr "insufficient_data");
           ("available_samples", VInt (Z.of_nat available))].

(** ** [_perform_update] *)

(** The running sums kept across minibatches. *)
Record totals : Type := Totals {
  total_policy_loss : F;
  total_value_loss : F;
  total_entropy : F;
  update_count : Z;
  total_value_mean : F;
  total_value_std : F;
  total_advantage_mean : F;
  total_advantage_std : F
}.

Definition totals_init : totals :=
  Totals f_zero f_zero f_zero 0 f_zero f_zero f_zero f_zero.

(** [range(0, stop, step)] for a non-zero step, as a list. *)
Definition range_list (stop step : Z) : list Z :=
  if step <? 0 then []
  else map (fun k => Z.of_nat k * step) (seq 0 (Z.to_nat ((stop + step - 1) / step))).

(** [range(0, stop, step)]: a zero step raises [ValueError]. *)
Definition py_range (stop step : Z) : result (list Z) :=
  if step =? 0 then Raise ValueError else Ok (range_list stop step).

(** [end - start < current_batch_size * 0.8], an int compared with a float.
    Python compares the two exactly, and the double product [bs * 0.8] is
    the integer [4*bs/5] whenever that is an integer (the relative error of
    the literal, [2^-54], stays below half a unit in the last place), so the
    test is the integer one. *)
Definition too_small (n current_batch_size : Z) : bool :=
  5 * n <? 4 * current_batch_size.

(** The forward part of the minibatch body: lines "Get batch data" to
    "Calculate total loss".  Every tensor of the minibatch is taken
    one-dimensional, one entry per sampled transition (the networks'
    output shapes are theirs to fix). *)
Definition minibatch_forward (ag : agent) (data : buffer_data F)
    (normalized_states : list (list F)) (final_state : list F)
    (batch_indices : list nat) : minibatch F :=
  let states := gather [] normalized_states batch_indices in
  let actions := gather (ActArray []) (d_actions data) batch_indices in
  let old_values := gather f_zero (d_values data) batch_indices in
  let old_log_probs := gather f_zero (d_log_probs data) batch_indices in
  let rewards := gather f_zero (d_normalized_rewards data) batch_indices in
  let dones := gather false (d_dones data) batch_indices in
  let action_distribution :=
    map (get_distribution (actor ag)) (gather [] normalized_states batch_indices) in
  let values :=
    map (critic_forward (critic ag)) (gather [] normalized_states batch_indices) in
  let log_probs := zip_with dist_log_prob action_distribution actions in
  let entropy := t_mean (map dist_entropy action_distribution) in
  let final_state_tensor := final_state in
  let normalized_final_state :=
    normalizer_normalize (state_normalizer ag) final_state_tensor in
  let final_value := critic_forward (critic ag) normalized_final_state in
  let next_values := replicate (length values) f_zero in
  let next_values := drop 1 values ++ drop (length values - 1) next_values in
  let next_values := <[(length values - 1)%nat := final_value]> next_values in
  let '(advantages, returns) :=
    compute_gae rewards values dones final_value (gamma (cfg ag)) in
  let ratio := t_exp (t_sub log_probs old_log_probs) in
  let policy_loss_1 := t_mul ratio advantages in
  let policy_loss_2 :=
    t_mul (t_clamp ratio (f_sub f_one (clip_range (cfg ag)))
                         (f_add f_one (clip_range (cfg ag)))) advantages in
  let policy_loss := f_neg (t_mean (t_min policy_loss_1 policy_loss_2)) in
  let value_pred_clipped :=
    t_add old_values
          (t_clamp (t_sub values old_values)
                   (f_neg (clip_range (cfg ag))) (clip_range (cfg ag))) in
  let value_losses := t_pow2 (t_sub values returns) in
  let value_losses_clipped := t_pow2 (t_sub value_pred_clipped returns) in
  let value_loss :=
    f_mul (f_dec 1 2) (t_mean (t_max value_losses value_losses_clipped)) in
  let loss :=
    f_sub (f_add policy_loss (f_mul (vf_coef (cfg ag)) value_loss))
          (f_mul (ent_coef (cfg ag)) entropy) in
  Minibatch states actions old_values old_log_probs rewards dones
            values log_probs entropy final_value next_values
            advantages returns policy_loss value_loss loss.

(** "Optimize": both optimizers take one step, the schedulers are not
    touched. *)
Definition optimize (ag : agent) (mb : minibatch F) : agent :=
  let '(a, c) :=
    backward_step (max_grad_norm (cfg ag)) (opt_lr (actor_optimizer ag))
                  (opt_lr (critic_optimizer ag)) (actor ag) (critic ag) mb in
  Agent (cfg ag) (state_normalizer ag) a c
        (Optimizer (opt_lr (actor_optimizer ag)) (S (opt_steps (actor_optimizer ag))))
        (Optimizer (opt_lr (critic_optimizer ag)) (S (opt_steps (critic_optimizer ag))))
        (actor_scheduler ag) (critic_scheduler ag) (buffer ag) (rng ag).

Definition accumulate (tot : totals) (mb : minibatch F) : totals :=
  Totals (f_add (total_policy_loss tot) (mb_policy_loss mb))
         (f_add (total_value_loss tot) (mb_value_loss mb))
         (f_add (total_entropy tot) (mb_entropy mb))
         (update_count tot + 1)
         (f_add (total_value_mean tot) (t_mean (mb_values mb)))
         (f_add (total_value_std tot) (t_std (mb_values mb)))
         (f_add (total_advantage_mean tot) (t_mean (mb_advantages mb)))
         (f_add (total_advantage_std tot) (t_std (mb_advantages mb))).

(** The body of [for start in range(0, len(self.buffer), current_batch_size)]. *)
Definition minibatch_body (data : buffer_data F) (normalized_states : list (list F))
    (final_state : list F) (current_batch_size : Z) (indices : list nat)
    (st : agent * totals) (start : Z) : agent * totals :=
  let '(ag, tot) := st in
  let len := Z.of_nat (buffer_len (buffer ag)) in
  let end_ := Z.min (start + current_batch_size) len in
  if too_small (end_ - start) current_batch_size then st
  else
    let batch_indices := slice indices (Z.to_nat start) (Z.to_nat end_) in
    let mb := minibatch_forward ag data normalized_states final_state batch_indices in
    (optimize ag mb, accumulate tot mb).

Definition zero_metrics (ag : agent) (current_batch_size : Z) : gmap string (value F) :=
  dict_of [("policy_loss", VFloat f_zero);
           ("value_loss", VFloat f_zero);
           ("entropy", VFloat f_zero);
           ("batch_size_used", VInt current_batch_size);
           ("updates_performed", VInt 0);
           ("value_mean", VFloat f_zero);
           ("value_std", VFloat f_zero);
           ("advantage_mean", VFloat f_zero);
           ("advantage_std", VFloat f_zero);
           ("learning_rate", VFloat (opt_lr (actor_optimizer ag)))].

Definition averaged_metrics (ag : agent) (tot : totals) (current_batch_size : Z)
    : gmap string (value F) :=
  let n := f_of_Z (update_count tot) in
  dict_of [("policy_loss", VFloat (f_div (total_policy_loss tot) n));
           ("value_loss", VFloat (f_div (total_value_loss tot) n));
           ("entropy", VFloat (f_div (total_entropy tot) n));
           ("batch_size_used", VInt current_batch_size);
           ("updates_performed", VInt (update_count tot));
           ("value_mean", VFloat (f_div (total_value_mean tot) n));
           ("value_std", VFloat (f_div (total_value_std tot) n));
           ("advantage_mean", VFloat (f_div (total_value_mean tot) n));
           ("advantage_std", VFloat (f_div (total_advantage_std tot) n));
           ("learning_rate", VFloat (opt_lr (actor_optimizer ag)))].

(** A loop body either falls through to the next round or leaves the
    function with [return]. *)
Inductive flow (S R : Type) : Type :=
| Continue (s : S)
| Return (r : R).
Arguments Continue {S R} s.
Arguments Return {S R} r.

Fixpoint for_each {A S R : Type} (body : S -> A -> result (flow S R))
    (xs : list A) (s : S) : result (flow S R) :=
  match xs with
  | [] => Ok (Continue s)
  | x :: rest =>
      match body s x with
      | Ok (Continue s') => for_each body rest s'
      | other => other
      end
  end.

(** The body of [for _ in range(self.num_epochs)]: a permutation, the
    minibatch loop, and then the two [return] statements, which sit inside
    the epoch loop. *)
Definition epoch_body (data : buffer_data F) (normalized_states : list (list F))
    (final_state : list F) (current_batch_size : Z)
    (st : agent * totals) (_ : Z) : result (flow (agent * totals) (pyret * agent)) :=
  let '(ag, tot) := st in
  let '(indices, r) := randperm (rng ag) (buffer_len (buffer ag)) in
  let ag := set_rng ag r in
  match py_range (Z.of_nat (buffer_len (buffer ag))) current_batch_size with
  | Raise e => Raise e
  | Ok starts =>
      let '(ag, tot) :=
        fold_left (minibatch_body data normalized_states final_state
                                  current_batch_size indices)
                  starts (ag, tot) in
      if update_count tot =? 0
      then Ok (Return (Some (zero_metrics ag current_batch_size), ag))
      else Ok (Return (Some (averaged_metrics ag tot current_batch_size), ag))
  end.

Definition _perform_update (ag : agent) (final_state : list F) (current_batch_size : Z)
    : result (pyret * agent) :=
  let data := buffer_get (buffer ag) in
  let states := d_states data in
  let normalized_states := map (normalizer_normalize (state_normalizer ag)) states in
  match for_each (epoch_body data normalized_states final_state current_batch_size)
                 (range_list (num_epochs (cfg ag)) 1) (ag, totals_init) with
  | Raise e => Raise e
  | Ok (Return r) => Ok r
  | Ok (Continue (ag, _)) => Ok (None, ag)
  end.

(** ** [update_networks] *)

Definition step_schedulers (ag : agent) : agent :=
  let '(sa, oa) := scheduler_step (actor_scheduler ag) (actor_optimizer ag) in
  let '(sc, oc) := scheduler_step (critic_scheduler ag) (critic_optimizer ag) in
  Agent (cfg ag) (state_normalizer ag) (actor ag) (critic ag) oa oc sa sc
        (buffer ag) (rng ag).

Definition update_networks (ag : agent) (final_state : list F) : result (pyret * agent) :=
  if Z.of_nat (buffer_len (buffer ag)) <? minimum_required_samples ag
  then Ok (Some (insufficient_data_metrics (buffer_len (buffer ag))), ag)
  else
    let adjusted_batch_size :=
      Z.min (batch_size (cfg ag)) (Z.of_nat (buffer_len (buffer ag))) in
    match _perform_update ag final_state adjusted_batch_size with
    | Raise e => Raise e
    | Ok (metrics, ag) =>
        let ag := step_schedulers ag in
        let ag := set_buffer ag (buffer_clear (buffer ag)) in
        Ok (metrics, ag)
    end.

(** ** [update] *)

(** The [with torch.no_grad()] block of [PPOAgent.update]: the transition
    handed to [buffer.store] and the agent just before the call. *)
Definition prepare_transition (ag : agent) (state : list F) (act_taken : action F)
    (reward : F) (done : bool) : transition F * agent :=
  let state_tensor := state in
  let ag := set_state_normalizer ag
              (normalizer_update (state_normalizer ag) [state_tensor]) in
  let normalized_state := normalizer_normalize (state_normalizer ag) state_tensor in
  let value := critic_forward (critic ag) normalized_state in
  let action_tensor :=
    match act_taken with ActScalar x => [x] | ActArray xs => xs end in
  let '(_, log_prob, r) := get_action_and_log_prob (actor ag) (rng ag) normalized_state in
  let ag := set_rng ag r in
  (Transition state act_taken reward value log_prob done, ag).

Definition update (ag : agent) (state : list F) (act_taken : action F) (reward : F)
    (next_state : list F) (done : bool) : result (pyret * agent) :=
  let '(t, ag) := prepare_transition ag state act_taken reward done in
  match buffer_store (buffer ag) t with
  | Raise e => Raise e
  | Ok b =>
      let ag := set_buffer ag b in
      if done && (minimum_required_samples ag <=? Z.of_nat (buffer_len (buffer ag)))
      then update_networks ag next_state
      else Ok (Some ∅, ag)
  end.

(** ** [save] and [load] *)





(** ** Specification-level definitions

    The quantities the properties below are about, written position by
    position from the specification's formulas, to be compared with what
    the tensor code above computes. *)

(** [counted len bs start]: the minibatch starting at [start] is not
    skipped. *)
Definition counted (len current_batch_size start : Z) : bool :=
  negb (too_small (Z.min (start + current_batch_size) len - start) current_batch_size).

(** The starts of the minibatches of one pass that take a gradient step. *)
Definition counted_starts (len current_batch_size : Z) : list Z :=
  List.filter (counted len current_batch_size) (range_list len current_batch_size).

(** The minibatches one pass goes through, in order, each evaluated with
    the parameters the preceding steps left. *)
Fixpoint minibatch_trace (data : buffer_data F) (normalized_states : list (list F))
    (final_state : list F) (current_batch_size : Z) (indices : list nat)
    (starts : list Z) (ag : agent) : list (minibatch F) :=
  match starts with
  | [] => []
  | start :: rest =>
      let len := Z.of_nat (buffer_len (buffer ag)) in
      let end_ := Z.min (start + current_batch_size) len in
      if too_small (end_ - start) current_batch_size
      then minibatch_trace data normalized_states final_state current_batch_size
                           indices rest ag
      else
        let mb :=
          minibatch_forward ag data normalized_states final_state
                            (slice indices (Z.to_nat start) (Z.to_nat end_)) in
        mb :: minibatch_trace data normalized_states final_state current_batch_size
                              indices rest (optimize ag mb)
  end.

(** The minibatches of the first pass of [_perform_update ag final_state
    current_batch_size]. *)
Definition first_pass (ag : agent) (final_state : list F) (current_batch_size : Z)
    : list (minibatch F) :=
  let data := buffer_get (buffer ag) in
  let normalized_states :=
    map (normalizer_normalize (state_normalizer ag)) (d_states data) in
  let '(indices, r) := randperm (rng ag) (buffer_len (buffer ag)) in
  minibatch_trace data normalized_states final_state current_batch_size indices
                  (range_list (Z.of_nat (buffer_len (buffer ag))) current_batch_size)
                  (set_rng ag r).

(** "min(ratio * advantage, clip(ratio, 1-eps, 1+eps) * advantage), where
    ratio = exp(new_log_prob - old_log_prob)" *)
Definition surrogate (eps new_log_prob old_log_prob advantage : F) : F :=
  let ratio := f_exp (f_sub new_log_prob old_log_prob) in
  f_min (f_mul ratio advantage)
        (f_mul (f_clamp ratio (f_sub f_one eps) (f_add f_one eps)) advantage).

(** "-mean(min(ratio * advantage, clip(ratio, 1-eps, 1+eps) * advantage))" *)
Definition spec_policy_loss (eps : F) (new_log_probs old_log_probs advantages : list F)
    : F :=
  f_neg (t_mean (map (fun i => surrogate eps (nth i new_log_probs f_zero)
                                         (nth i old_log_probs f_zero)
                                         (nth i advantages f_zero))
                     (seq 0 (length advantages)))).

(** "max((V - return)^2, (clip(V - V_old, -eps, eps) + V_old - return)^2)" *)
Definition clipped_value_error (eps v v_old ret : F) : F :=
  f_max (f_sq (f_sub v ret))
        (f_sq (f_sub (f_add (f_clamp (f_sub v v_old) (f_neg eps) eps) v_old) ret)).

(** "0.5 * mean(max(...))" *)
Definition spec_value_loss (eps : F) (values old_values returns : list F) : F :=
  f_mul (f_dec 1 2)
        (t_mean (map (fun i => clipped_value_error eps (nth i values f_zero)
                                                   (nth i old_values f_zero)
                                                   (nth i returns f_zero))
                     (seq 0 (length values)))).

(** "policy_loss + vf_coef * value_loss - ent_coef * entropy" *)
Definition spec_total_loss (c : config F) (policy_loss value_loss entropy : F) : F :=
  f_sub (f_add policy_loss (f_mul (vf_coef c) value_loss)) (f_mul (ent_coef c) entropy).

(** One step of the GAE recursion at position [t], given the advantage
    [gae_next] already computed for position [t+1] (zero past the end) and
    the array of next-step values. *)
Definition gae_at (gam lam : F) (rewards values next_values : list F)
    (dones : list bool) (gae_next : F) (t : nat) : F :=
  let mask := if nth t dones false then f_zero else f_one in
  let delta :=
    f_sub (f_add (nth t rewards f_zero)
                 (f_mul (f_mul gam (nth t next_values f_zero)) mask))
          (nth t values f_zero) in
  f_add delta (f_mul (f_mul (f_mul gam lam) mask) gae_next).

(** The next-step value the recursion of [compute_gae] reads at [t]. *)
Definition gae_next_value (values : list F) (next_value : F) (T t : nat) : F :=
  if (t =? T - 1)%nat then next_value else nth (t + 1) values f_zero.

(** The advantage the recursion carries into position [t]. *)
Definition gae_carry (advantages : list F) (T t : nat) : F :=
  if (t + 1 <? T)%nat then nth (t + 1) advantages f_zero else f_zero.

(** What holds of the loop state once positions [k], ..., [T-1] are done. *)
Definition gae_invariant (rewards values : list F) (dones : list bool)
    (next_value gam lam : F) (T k : nat) (st : F * list F * list F) : Prop :=
  let '(gae, advantages, returns) := st in
  length advantages = T /\ length returns = T /\
  gae = (if (k <? T)%nat then nth k advantages f_zero else f_zero) /\
  forall t, (k <= t < T)%nat ->
    nth t advantages f_zero
    = f_add (f_sub (f_add (nth t rewards f_zero)
                          (f_mul (f_mul gam (gae_next_value values next_value T t))
                                 (if nth t dones false then f_zero else f_one)))
                   (nth t values f_zero))
            (f_mul (f_mul (f_mul gam lam) (if nth t dones false then f_zero else f_one))
                   (gae_carry advantages T t))
    /\ nth t returns f_zero = f_add (nth t advantages f_zero) (nth t values f_zero).

(** The two agents agree on everything a minibatch step must leave alone. *)
Definition same_frame (a b : agent) : Prop :=
  cfg a = cfg b /\
  state_normalizer a = state_normalizer b /\
  actor_scheduler a = actor_scheduler b /\
  critic_scheduler a = critic_scheduler b /\
  opt_lr (actor_optimizer a) = opt_lr (actor_optimizer b) /\
  opt_lr (critic_optimizer a) = opt_lr (critic_optimizer b) /\
  buffer a = buffer b.

End Agent.

(** * The trainer: [src/trainings/agent_trainer.py]

    What [AgentTrainer] needs around the agent: the environment wrapper
    ([src/enviroments/environment.py]) and [Agent.reset] of the base class
    ([src/agents/agent.py]), neither among the sources.  The environment
    here is one whose calls return; [env.step] also yields an [info]
    dictionary, which [_run_episode] discards. *)
Class Surroundings (F : Type) `{Collaborators F} : Type := {
  Env : Type;
  Results : Type;
  env_reset : Env -> list F * Env;
  env_step : Env -> action F -> (list F * F * bool * bool) * Env;
  env_get_results : Env -> Results;
  agent_reset : agent -> agent
}.

Section Trainer.
Context {F : Type} `{Scalar F} `{Collaborators F} `{!Surroundings F}.

(** The attributes of [AgentTrainer] the methods below read or write. *)
Record trainer : Type := Trainer {
  trainer_agent : agent;
  trainer_env : Env;
  max_steps_per_episode : Z;
  train_steps : Z;
  avg_metrics : gmap string (list (value F))
}.

(** [if metrics:] is false for [None] and for the empty dictionary. *)
Definition truthy (metrics : @pyret F) : bool :=
  match metrics with
  | Some d => negb (size d =? 0)%nat
  | None => false
  end.

(** [isinstance(value, (int, float))] *)
Definition is_number (v : value F) : bool :=
  match v with
  | VStr _ => false
  | _ => true
  end.

Definition to_float (v : value F) : F :=
  match v with
  | VFloat x => x
  | VInt z => f_of_Z z
  | VStr _ => f_zero
  end.

(** [a + v] on numbers: two ints give an int, anything else a float.
    Strings never get here. *)
Definition value_add (a v : value F) : value F :=
  match a, v with
  | VInt x, VInt y => VInt (x + y)
  | _, _ => VFloat (f_add (to_float a) (to_float v))
  end.

(** The loop [for key, value in metrics.items(): if isinstance(...):
    accumulated_metrics[key] = accumulated_metrics.get(key, 0) + value],
    key by key. *)
Definition accumulate_metrics (accumulated metrics : gmap string (value F))
    : gmap string (value F) :=
  merge (fun a m =>
           match m with
           | Some v =>
               if is_number v then Some (value_add (default (VInt 0) a) v) else a
           | None => a
           end)
        accumulated metrics.

(** The local variables of [_run_episode] that live across steps. *)
Record episode_state : Type := EpisodeState {
  ep_trainer : trainer;
  ep_state : list F;
  ep_return : F;
  ep_accumulated : gmap string (value F);
  ep_num_updates : Z
}.

(** The body of [for step in range(self.max_steps_per_episode)]; [Return]
    is the [break]. *)
Definition episode_step (training : bool) (st : episode_state) (_ : Z)
    : result (flow episode_state episode_state) :=
  let tr := ep_trainer st in
  let state := ep_state st in
  let '(action, ag) := act (trainer_agent tr) state in
  let '((next_state, reward, terminated, truncated), env) :=
    env_step (trainer_env tr) action in
  let done := terminated || truncated in
  let updated :=
    if training then
      match update ag state action reward next_state done with
      | Raise e => Raise e
      | Ok (metrics, ag) =>
          let steps := train_steps tr + 1 in
          if truthy metrics
          then Ok (ag, steps,
                   accumulate_metrics (ep_accumulated st) (default ∅ metrics),
                   ep_num_updates st + 1)
          else Ok (ag, steps, ep_accumulated st, ep_num_updates st)
      end
    else Ok (ag, train_steps tr, ep_accumulated st, ep_num_updates st) in
  match updated with
  | Raise e => Raise e
  | Ok (ag, steps, accumulated, num_updates) =>
      let st :=
        EpisodeState
          (Trainer ag env (max_steps_per_episode tr) steps (avg_metrics tr))
          next_state (f_add (ep_return st) reward) accumulated num_updates in
      if done then Ok (@Return _ _ st) else Ok (@Continue _ _ st)
  end.

(** [AgentTrainer._run_episode]: the episode return, the averaged metrics
    and, when asked for, the environment's results.  The method is called
    from [train] and [evaluate], which set [verbosity_level]; what it
    prints is left out. *)
Definition _run_episode (tr : trainer) (training return_results : bool)
    : result ((F * gmap string (value F) * option Results) * trainer) :=
  let '(state, env) := env_reset (trainer_env tr) in
  let ag := agent_reset (trainer_agent tr) in
  let st :=
    EpisodeState
      (Trainer ag env (max_steps_per_episode tr) (train_steps tr) (avg_metrics tr))
      state f_zero ∅ 0 in
  match for_each (episode_step training)
                 (range_list (max_steps_per_episode tr) 1) st with
  | Raise e => Raise e
  | Ok (@Continue _ _ st) | Ok (@Return _ _ st) =>
      let avg_metrics :=
        if 0 <? ep_num_updates st
        then (fun v => VFloat (f_div (to_float v) (f_of_Z (ep_num_updates st))))
             <$> ep_accumulated st
        else ∅ in
      Ok ((ep_return st, avg_metrics,
           if return_results
           then Some (env_get_results (trainer_env (ep_trainer st)))
           else None),
          ep_trainer st)
  end.

(** [AgentTrainer._update_avg_metrics]: every key of the episode's metrics
    gets its value appended to its history, a new key starts one. *)
Definition _update_avg_metrics (tr : trainer) (episode_metrics : gmap string (value F))
    : trainer :=
  Trainer (trainer_agent tr) (trainer_env tr) (max_steps_per_episode tr)
          (train_steps tr)
          (merge (fun history v =>
                    match v with
                    | Some x =>
                        match history with
                        | Some h => Some (h ++ [x])
                        | None => Some [x]
                        end
                    | None => history
                    end)
                 (avg_metrics tr) episode_metrics).

(** [b] is [a] but for the state of the random generator. *)
Definition only_rng (a b : agent) : Prop := exists r, b = set_rng a r.

(** Between two points of an episode nothing moved but the agent's random
    state, the environment and the episode's own state and return. *)
Definition evaluation_frame (st st' : episode_state) : Prop :=
  only_rng (trainer_agent (ep_trainer st)) (trainer_agent (ep_trainer st')) /\
  max_steps_per_episode (ep_trainer st') = max_steps_per_episode (ep_trainer st) /\
  train_steps (ep_trainer st') = train_steps (ep_trainer st) /\
  avg_metrics (ep_trainer st') = avg_metrics (ep_trainer st) /\
  ep_accumulated st' = ep_accumulated st /\
  ep_num_updates st' = ep_num_updates st.

(** No network update has happened in the episode so far. *)
Definition no_update_yet (st : episode_state) : Prop :=
  ep_num_updates st = 0 /\ ep_accumulated st = ∅.

(** The episode has just had its one network update: a call of [update],
    on a transition that ends the episode and with the action [act] chose,
    returned the metrics [m] and the agent the episode now holds. *)
Definition just_updated (m : gmap string (value F)) (st : episode_state) : Prop :=
  ep_num_updates st = 1 /\
  ep_accumulated st = accumulate_metrics ∅ m /\
  (size m =? 0)%nat = false /\
  buf_data (buffer (trainer_agent (ep_trainer st))) = [] /\
  exists (ag : agent) (state : list F) (reward : F) (next_state : list F),
    update (snd (act ag state)) state (fst (act ag state)) reward next_state true
    = Ok (Some m, trainer_agent (ep_trainer st)).

End Trainer.

(** [AgentTrainer.get_checkpoint_paths]: a path is the list of its
    components, [p / "agents"] appends one, and [f"agent_ep{episode}.pt"]
    prints the episode in decimal. *)
Definition get_checkpoint_paths (save_dir : list string) (episode : Z)
    : list string * list string * list string :=
  (save_dir ++ ["agents"; "agent_ep" +:+ pretty episode +:+ ".pt"],
   save_dir ++ ["environments"; "agent_ep" +:+ pretty episode +:+ ".pt"],
   save_dir ++ ["trainings"; "agent_ep" +:+ pretty episode +:+ ".pt"]).

(** ** A concrete world

    Real-valued scalars and the simplest collaborators: a critic that
    answers 1 everywhere, a policy with a single action, the identity
    permutation, a normalizer that only counts. *)
Module Demo.

#[export] Instance R_scalar : Scalar R := {|
  f_of_Z := IZR;
  f_add := Rplus;
  f_sub := Rminus;
  f_mul := Rmult;
  f_div := Rdiv;
  f_neg := Ropp;
  f_exp := exp;
  f_sqrt := sqrt;
  f_min := Rmin;
  f_max := Rmax
|}.

#[export] Instance plain : Collaborators R := {|
  ActorP := unit;
  CriticP := unit;
  Dist := unit;
  Rng := unit;
  get_distribution := fun _ _ => tt;
  dist_log_prob := fun _ _ => 0%R;
  dist_entropy := fun _ => 0%R;
  dist_sample := fun _ r => (ActScalar 0%R, r);
  critic_forward := fun _ _ => 1%R;
  randperm := fun r n => (seq 0 n, r);
  normalizer_update := fun n batch =>
    Normalizer (rn_count n + Z.of_nat (length batch)) (rn_mean n) (rn_var n);
  normalizer_normalize := fun _ s => s;
  normalize_rewards := fun rs => rs;
  backward_step := fun _ _ _ a c _ => (a, c)
|}.

(** A stored transition with reward 1 and value 1. *)
Definition step1 : transition R :=
  Transition [] (ActScalar 0%R) 1%R 1%R 0%R false.

Definition demo_config (epochs bs : Z) : config R :=
  Config 0%R (f_dec 2 10) 0%R (f_dec 1 2) 1%R epochs bs.

(** An agent with [n] stored transitions in a buffer of size [size]. *)
Definition demo_agent (n size : nat) (epochs bs : Z) : agent :=
  Agent (demo_config epochs bs) (Normalizer 0 [] []) tt tt
        (Optimizer (f_dec 3 10000) 0) (Optimizer (f_dec 3 10000) 0)
        (Scheduler 0) (Scheduler 0)
        (Buffer size (replicate n step1)) tt.


End Demo.

(** An environment whose episodes end after two steps, with reward 1 at
    every step, and the base class's [reset] doing nothing. *)
Module DemoWorld.
Import Demo.

#[export] Instance arena : Surroundings R := {|
  Env := nat;
  Results := nat;
  env_reset := fun _ => ([], 0%nat);
  env_step := fun e _ => (([], 1%R, (2 <=? S e)%nat, false), S e);
  env_get_results := fun e => e;
  agent_reset := fun ag => ag
|}.

(** A trainer around [demo_agent], empty buffer of size 8. *)
Definition demo_trainer (max_steps epochs bs : Z) : trainer :=
  Trainer (demo_agent 0 8 epochs bs) 0%nat max_steps 0 ∅.

(** An environment that never signals the end of an episode. *)
Definition endless : Surroundings R := {|
  Env := nat;
  Results := nat;
  env_reset := fun _ => ([], 0%nat);
  env_step := fun e _ => (([], 1%R, false, false), S e);
  env_get_results := fun e => e;
  agent_reset := fun ag => ag
|}.

Definition endless_trainer (max_steps epochs bs : Z) : @trainer R plain endless :=
  @Trainer R plain endless (demo_agent 0 8 epochs bs) 0%nat max_steps 0 ∅.

End DemoWorld.

(** * Properties *)

Section Properties.
Context {F : Type} `{Scalar F} `{Collaborators F}.

(** ** Elementwise tensor operations, position by position *)

Lemma length_gather {A : Type} (d : A) (t : list A) (idx : list nat) :
  length (gather d t idx) = length idx.
Proof. unfold gather. apply length_map. Qed.

(** ** The minibatch loop *)

Lemma same_frame_refl (a : agent) : same_frame a a.
Proof. repeat split. Qed.

Lemma same_frame_trans (a b c : agent) :
  same_frame a b -> same_frame b c -> same_frame a c.
Proof.
  unfold same_frame. intros (?&?&?&?&?&?&?) (?&?&?&?&?&?&?).
  repeat split; congruence.
Qed.

Lemma same_frame_optimize (ag : agent) (mb : minibatch F) :
  same_frame ag (optimize ag mb).
Proof.
  unfold optimize. destruct (backward_step _ _ _ _ _ _) as [a c].
  repeat split.
Qed.

Lemma same_frame_set_rng (ag : agent) (r : Rng) : same_frame ag (set_rng ag r).
Proof. repeat split. Qed.

Lemma optimize_rng (ag : agent) (mb : minibatch F) : rng (optimize ag mb) = rng ag.
Proof. unfold optimize. destruct (backward_step _ _ _ _ _ _). reflexivity. Qed.

Lemma optimize_buffer (ag : agent) (mb : minibatch F) :
  buffer (optimize ag mb) = buffer ag.
Proof. unfold optimize. destruct (backward_step _ _ _ _ _ _). reflexivity. Qed.

(** The loop over the starts computes the trace's running sums and keeps
    the frame. *)
Lemma minibatch_loop_trace (data : buffer_data F) (ns : list (list F))
    (fs : list F) (bs : Z) (indices : list nat) (starts : list Z) :
  forall (ag : agent) (tot : totals),
  exists ag',
    fold_left (minibatch_body data ns fs bs indices) starts (ag, tot)
    = (ag', fold_left accumulate (minibatch_trace data ns fs bs indices starts ag) tot)
    /\ same_frame ag ag' /\ rng ag' = rng ag.
Proof.
  induction starts as [|start rest IH]; intros ag tot; simpl.
  - exists ag. split; [reflexivity|]. split; [apply same_frame_refl|reflexivity].
  - destruct (too_small _ _) eqn:Hsmall.
    + apply IH.
    + destruct (IH (optimize ag
                     (minibatch_forward ag data ns fs
                        (slice indices (Z.to_nat start)
                           (Z.to_nat (Z.min (start + bs)
                              (Z.of_nat (buffer_len (buffer ag))))))))
                   (accumulate tot
                     (minibatch_forward ag data ns fs
                        (slice indices (Z.to_nat start)
                           (Z.to_nat (Z.min (start + bs)
                              (Z.of_nat (buffer_len (buffer ag)))))))))
        as (ag' & Hfold & Hframe & Hrng).
      exists ag'. split; [exact Hfold|]. split.
      * eapply same_frame_trans; [apply same_frame_optimize|exact Hframe].
      * rewrite Hrng. apply optimize_rng.
Qed.

Lemma update_count_accumulate (tr : list (minibatch F)) :
  forall tot : totals,
  update_count (fold_left accumulate tr tot) = update_count tot + Z.of_nat (length tr).
Proof.
  induction tr as [|mb tr IH]; intros tot.
  - simpl. lia.
  - cbn [fold_left length]. rewrite IH. unfold accumulate. cbn [update_count]. lia.
Qed.

(** The trace has one minibatch per counted start. *)
Lemma length_minibatch_trace (data : buffer_data F) (ns : list (list F))
    (fs : list F) (bs : Z) (indices : list nat) (starts : list Z) :
  forall ag : agent,
  length (minibatch_trace data ns fs bs indices starts ag)
  = length (List.filter (counted (Z.of_nat (buffer_len (buffer ag))) bs) starts).
Proof.
  induction starts as [|start rest IH]; intros ag; simpl; [reflexivity|].
  unfold counted at 1.
  destruct (too_small _ _); simpl.
  - apply IH.
  - rewrite IH, optimize_buffer. reflexivity.
Qed.

Lemma length_first_pass (ag : agent) (fs : list F) (bs : Z) :
  length (first_pass ag fs bs)
  = length (counted_starts (Z.of_nat (buffer_len (buffer ag))) bs).
Proof.
  unfold first_pass, counted_starts.
  destruct (randperm _ _) as [indices r].
  rewrite length_minibatch_trace. reflexivity.
Qed.

Lemma range_list_epochs (n : Z) :
  1 <= n -> exists rest, range_list n 1 = 0 :: rest.
Proof.
  intros Hn. unfold range_list. simpl.
  replace ((n + 1 - 1) / 1) with n by (rewrite Z.div_1_r; lia).
  destruct (Z.to_nat n) as [|k] eqn:Hk; [lia|].
  simpl. eauto.
Qed.

Lemma range_list_no_epochs (n : Z) : n <= 0 -> range_list n 1 = [].
Proof.
  intros Hn. unfold range_list. simpl.
  replace ((n + 1 - 1) / 1) with n by (rewrite Z.div_1_r; lia).
  replace (Z.to_nat n) with 0%nat by lia. reflexivity.
Qed.

(** With at least one epoch configured and a non-zero batch size,
    [_perform_update] returns after the first pass, with the metrics of
    that pass alone. *)
Lemma perform_update_first_pass (ag : agent) (fs : list F) (bs : Z) :
  1 <= num_epochs (cfg ag) -> bs <> 0 ->
  exists ag',
    _perform_update ag fs bs
    = Ok (Some (if update_count (fold_left accumulate (first_pass ag fs bs) totals_init) =? 0
                then zero_metrics ag' bs
                else averaged_metrics ag'
                       (fold_left accumulate (first_pass ag fs bs) totals_init) bs),
          ag')
    /\ same_frame ag ag'.
Proof.
  intros Hep Hbs. unfold _perform_update, first_pass.
  destruct (range_list_epochs _ Hep) as [rest ->].
  cbn [for_each]. unfold epoch_body.
  destruct (randperm (rng ag) (buffer_len (buffer ag))) as [indices r].
  unfold py_range. destruct (Z.eqb_spec bs 0) as [|_]; [contradiction|].
  cbn [buffer set_rng].
  destruct (minibatch_loop_trace (buffer_get (buffer ag))
              (map (normalizer_normalize (state_normalizer ag))
                   (d_states (buffer_get (buffer ag))))
              fs bs indices (range_list (Z.of_nat (buffer_len (buffer ag))) bs)
              (set_rng ag r) totals_init) as (ag' & Hfold & Hframe & _).
  rewrite Hfold. exists ag'. split.
  - destruct (update_count _ =? 0); reflexivity.
  - eapply same_frame_trans; [apply same_frame_set_rng|exact Hframe].
Qed.

(** Without epochs the loop body never runs and the function falls off its
    end. *)
Lemma perform_update_no_epochs (ag : agent) (fs : list F) (bs : Z) :
  num_epochs (cfg ag) <= 0 -> _perform_update ag fs bs = Ok (None, ag).
Proof.
  intros Hep. unfold _perform_update. rewrite range_list_no_epochs by exact Hep.
  reflexivity.
Qed.

(** ** Generalised advantage estimation *)

Lemma nth_insert_eq {A : Type} (l : list A) (i : nat) (x d : A) :
  (i < length l)%nat -> nth i (<[i := x]> l) d = x.
Proof.
  intros Hi. rewrite nth_lookup, list_lookup_insert_eq by exact Hi. reflexivity.
Qed.

Lemma nth_insert_ne {A : Type} (l : list A) (i j : nat) (x d : A) :
  i <> j -> nth j (<[i := x]> l) d = nth j l d.
Proof.
  intros Hij. rewrite !nth_lookup, list_lookup_insert_ne by exact Hij. reflexivity.
Qed.

Lemma gae_loop_invariant (rewards values : list F) (dones : list bool)
    (next_value gam lam : F) (T : nat) :
  forall n k, (k + n = T)%nat ->
  gae_invariant rewards values dones next_value gam lam T k
    (fold_left (gae_step rewards values dones next_value gam lam T)
               (rev (seq k n))
               (f_zero, replicate T f_zero, replicate T f_zero)).
Proof.
  induction n as [|n IH]; intros k Hk.
  - simpl. rewrite !length_replicate. repeat split.
    + destruct (Nat.ltb_spec k T); [lia|reflexivity].
    + lia.
    + lia.
  - cbn [seq rev]. rewrite fold_left_app. cbn [fold_left].
    specialize (IH (S k) ltac:(lia)).
    destruct (fold_left _ (rev (seq (S k) n)) _) as [[gae advantages] returns].
    destruct IH as (Hla & Hlr & Hgae & Hrec).
    unfold gae_step, gae_invariant.
    rewrite !length_insert. split; [exact Hla|]. split; [exact Hlr|].
    assert (Hkt : (k < T)%nat) by lia.
    split.
    + destruct (Nat.ltb_spec k T); [|lia].
      rewrite nth_insert_eq by lia. reflexivity.
    + intros t Ht. destruct (Nat.eq_dec t k) as [->|Hne].
      * rewrite !nth_insert_eq by lia. split; [|reflexivity].
        unfold gae_next_value, gae_carry.
        replace (k + 1)%nat with (S k) by lia. subst gae.
        destruct (Nat.ltb_spec (S k) T) as [Hlt|Hge].
        -- rewrite nth_insert_ne by lia. reflexivity.
        -- reflexivity.
      * rewrite !(nth_insert_ne _ k t) by lia.
        destruct (Hrec t ltac:(lia)) as [Hadv Hret].
        split; [|exact Hret].
        rewrite Hadv. unfold gae_carry.
        destruct (Nat.ltb_spec (t + 1) T); [|reflexivity].
        rewrite nth_insert_ne by lia. reflexivity.
Qed.

Lemma compute_gae_lambda_spec (rewards values : list F) (dones : list bool)
    (next_value gam lam : F) :
  exists gae,
    gae_invariant rewards values dones next_value gam lam (length rewards) 0
      (gae, fst (compute_gae_lambda rewards values dones next_value gam lam),
            snd (compute_gae_lambda rewards values dones next_value gam lam)).
Proof.
  pose proof (gae_loop_invariant rewards values dones next_value gam lam
                (length rewards) (length rewards) 0 ltac:(lia)) as Hinv.
  unfold compute_gae_lambda.
  destruct (fold_left _ _ _) as [[gae advantages] returns].
  exists gae. exact Hinv.
Qed.

Lemma length_compute_gae (rewards values : list F) (dones : list bool)
    (next_value gam : F) :
  length (fst (compute_gae rewards values dones next_value gam)) = length rewards /\
  length (snd (compute_gae rewards values dones next_value gam)) = length rewards.
Proof.
  destruct (compute_gae_lambda_spec rewards values dones next_value gam f_one)
    as (gae & Hla & Hlr & _).
  split; assumption.
Qed.

(** The array [next_values] built in the minibatch body holds, at [t], the
    value the recursion reads as next-step value at [t]. *)
Lemma next_values_shift (values : list F) (final_value : F) (t : nat) :
  (t < length values)%nat ->
  nth t (<[(length values - 1)%nat := final_value]>
           (drop 1 values
            ++ drop (length values - 1) (replicate (length values) f_zero)))
        f_zero
  = gae_next_value values final_value (length values) t.
Proof.
  intros Ht. unfold gae_next_value.
  assert (Hlen : length (drop 1 values
                  ++ drop (length values - 1) (replicate (length values) f_zero))
                 = length values).
  { rewrite length_app, !length_drop, length_replicate. lia. }
  destruct (Nat.eqb_spec t (length values - 1)) as [->|Hne].
  - apply nth_insert_eq. rewrite Hlen. lia.
  - rewrite nth_insert_ne by lia.
    rewrite app_nth1 by (rewrite length_drop; lia).
    rewrite !nth_lookup, lookup_drop. f_equal. f_equal. lia.
Qed.

(** C2: in every minibatch the advantages and returns are the result of the
    GAE backward recursion over that minibatch's rewards, current values
    and dones, bootstrapped with the critic's value of the (normalized)
    final state; the next-step value at [t] is the entry of the shifted
    array [next_values], that is the minibatch's value at [t+1], and the
    bootstrap value at the last position. *)
Theorem C2_gae_over_minibatch (ag : agent) (data : buffer_data F)
    (ns : list (list F)) (fs : list F) (idx : list nat) :
  let mb := minibatch_forward ag data ns fs idx in
  let T := length idx in
  mb_rewards mb = gather f_zero (d_normalized_rewards data) idx /\
  mb_values mb = map (critic_forward (critic ag)) (gather [] ns idx) /\
  mb_dones mb = gather false (d_dones data) idx /\
  mb_final_value mb
  = critic_forward (critic ag) (normalizer_normalize (state_normalizer ag) fs) /\
  (mb_advantages mb, mb_returns mb)
  = compute_gae (mb_rewards mb) (mb_values mb) (mb_dones mb) (mb_final_value mb)
                (gamma (cfg ag)) /\
  length (mb_advantages mb) = T /\
  length (mb_returns mb) = T /\
  forall t, (t < T)%nat ->
    nth t (mb_next_values mb) f_zero
    = (if (t =? T - 1)%nat then mb_final_value mb
       else nth (t + 1) (mb_values mb) f_zero) /\
    nth t (mb_advantages mb) f_zero
    = gae_at (gamma (cfg ag)) f_one (mb_rewards mb) (mb_values mb)
             (mb_next_values mb) (mb_dones mb)
             (gae_carry (mb_advantages mb) T t) t /\
    nth t (mb_returns mb) f_zero
    = f_add (nth t (mb_advantages mb) f_zero) (nth t (mb_values mb) f_zero).
Proof.
  intros mb T. subst mb. unfold minibatch_forward.
  set (rewards := gather f_zero (d_normalized_rewards data) idx).
  set (values := map (critic_forward (critic ag)) (gather [] ns idx)).
  set (dones := gather false (d_dones data) idx).
  set (fv := critic_forward (critic ag) (normalizer_normalize (state_normalizer ag) fs)).
  assert (Hlr : length rewards = T) by apply length_gather.
  assert (Hlv : length values = T).
  { subst values. rewrite length_map. apply length_gather. }
  destruct (compute_gae_lambda_spec rewards values dones fv (gamma (cfg ag)) f_one)
    as (gae & Hla & Hlret & _ & Hrec).
  fold (compute_gae rewards values dones fv (gamma (cfg ag))) in Hla, Hlret, Hrec.
  destruct (compute_gae rewards values dones fv (gamma (cfg ag)))
    as [advantages returns] eqn:Hgae.
  cbn [fst snd] in Hla, Hlret, Hrec.
  cbn [mb_rewards mb_values mb_dones mb_final_value mb_advantages mb_returns
       mb_next_values].
  repeat (split; [reflexivity || congruence|]).
  intros t Ht.
  assert (Hnv : nth t (<[(length values - 1)%nat := fv]>
                         (drop 1 values
                          ++ drop (length values - 1)
                               (replicate (length values) f_zero))) f_zero
                = gae_next_value values fv T t).
  { rewrite next_values_shift by lia. rewrite Hlv. reflexivity. }
  destruct (Hrec t ltac:(lia)) as [Hadv Hret].
  split; [exact Hnv|]. split; [|exact Hret].
  unfold gae_at. rewrite Hnv, Hadv, Hlr. reflexivity.
Qed.

(** ** The two losses *)

Lemma policy_terms_pointwise (lo hi : F) (advantages : list F) :
  forall log_probs old_log_probs : list F,
  length log_probs = length advantages ->
  length old_log_probs = length advantages ->
  t_min (t_mul (t_exp (t_sub log_probs old_log_probs)) advantages)
        (t_mul (t_clamp (t_exp (t_sub log_probs old_log_probs)) lo hi) advantages)
  = map (fun i =>
           f_min (f_mul (f_exp (f_sub (nth i log_probs f_zero)
                                      (nth i old_log_probs f_zero)))
                        (nth i advantages f_zero))
                 (f_mul (f_clamp (f_exp (f_sub (nth i log_probs f_zero)
                                               (nth i old_log_probs f_zero)))
                                 lo hi)
                        (nth i advantages f_zero)))
        (seq 0 (length advantages)).
Proof.
  induction advantages as [|a advantages IH];
    intros [|l log_probs] [|o old_log_probs] Hl Ho; simpl in Hl, Ho; try lia.
  - reflexivity.
  - cbn [length seq map]. rewrite <- seq_shift, map_map.
    cbn [nth]. rewrite <- IH by lia. reflexivity.
Qed.

Lemma value_terms_pointwise (eps : F) (values : list F) :
  forall old_values returns : list F,
  length old_values = length values ->
  length returns = length values ->
  t_max (t_pow2 (t_sub values returns))
        (t_pow2 (t_sub (t_add old_values
                              (t_clamp (t_sub values old_values) (f_neg eps) eps))
                       returns))
  = map (fun i =>
           f_max (f_sq (f_sub (nth i values f_zero) (nth i returns f_zero)))
                 (f_sq (f_sub (f_add (nth i old_values f_zero)
                                     (f_clamp (f_sub (nth i values f_zero)
                                                     (nth i old_values f_zero))
                                              (f_neg eps) eps))
                              (nth i returns f_zero))))
        (seq 0 (length values)).
Proof.
  induction values as [|v values IH];
    intros [|o old_values] [|r returns] Ho Hr; simpl in Ho, Hr; try lia.
  - reflexivity.
  - cbn [length seq map]. rewrite <- seq_shift, map_map.
    cbn [nth]. rewrite <- IH by lia. reflexivity.
Qed.

Lemma minibatch_lengths (ag : agent) (data : buffer_data F) (ns : list (list F))
    (fs : list F) (idx : list nat) :
  let mb := minibatch_forward ag data ns fs idx in
  length (mb_log_probs mb) = length idx /\
  length (mb_old_log_probs mb) = length idx /\
  length (mb_values mb) = length idx /\
  length (mb_old_values mb) = length idx /\
  length (mb_advantages mb) = length idx /\
  length (mb_returns mb) = length idx.
Proof.
  intros mb. subst mb. unfold minibatch_forward.
  pose proof (length_compute_gae
                (gather f_zero (d_normalized_rewards data) idx)
                (map (critic_forward (critic ag)) (gather [] ns idx))
                (gather false (d_dones data) idx)
                (critic_forward (critic ag)
                   (normalizer_normalize (state_normalizer ag) fs))
                (gamma (cfg ag))) as [Ha Hr].
  destruct (compute_gae _ _ _ _ _) as [advantages returns].
  cbn [fst snd] in Ha, Hr. rewrite length_gather in Ha, Hr.
  cbn [mb_log_probs mb_old_log_probs mb_values mb_old_values mb_advantages
       mb_returns].
  rewrite length_zip_with, !length_map, !length_gather.
  repeat split; try assumption; lia.
Qed.

Lemma nth_gather {A : Type} (d : A) (t : list A) (idx : list nat) (i : nat) :
  (i < length idx)%nat -> nth i (gather d t idx) d = nth (nth i idx 0%nat) t d.
Proof.
  revert i. induction idx as [|j idx IH]; intros [|i] Hi; simpl in Hi; try lia.
  - reflexivity.
  - cbn [gather map nth]. apply IH. lia.
Qed.

Lemma nth_map_in {A B : Type} (f : A -> B) (l : list A) (da : A) (db : B) (i : nat) :
  (i < length l)%nat -> nth i (map f l) db = f (nth i l da).
Proof.
  revert i. induction l as [|x l IH]; intros [|i] Hi; simpl in Hi; try lia.
  - reflexivity.
  - cbn [map nth]. apply IH. lia.
Qed.

Lemma nth_zip_with_in {A B C : Type} (f : A -> B -> C) (da : A) (db : B) (dc : C) :
  forall (a : list A) (b : list B) (i : nat),
  (i < length a)%nat -> (i < length b)%nat ->
  nth i (zip_with f a b) dc = f (nth i a da) (nth i b db).
Proof.
  induction a as [|x a IH]; intros [|y b] [|i] Ha Hb; simpl in Ha, Hb; try lia.
  - reflexivity.
  - cbn [zip_with nth]. apply IH; lia.
Qed.

(** Every tensor of a minibatch, traced back to what the forward pass reads:
    the stored columns at the sampled indices, the two networks on the
    sampled states, and the GAE recursion over them. *)
Lemma minibatch_forward_fields (ag : agent) (data : buffer_data F) (ns : list (list F))
    (fs : list F) (idx : list nat) :
  let mb := minibatch_forward ag data ns fs idx in
  let states := gather [] ns idx in
  let gae :=
    compute_gae (gather f_zero (d_normalized_rewards data) idx)
                (map (critic_forward (critic ag)) states)
                (gather false (d_dones data) idx)
                (critic_forward (critic ag)
                   (normalizer_normalize (state_normalizer ag) fs))
                (gamma (cfg ag)) in
  mb_log_probs mb
  = zip_with dist_log_prob (map (get_distribution (actor ag)) states)
             (gather (ActArray []) (d_actions data) idx) /\
  mb_old_log_probs mb = gather f_zero (d_log_probs data) idx /\
  mb_values mb = map (critic_forward (critic ag)) states /\
  mb_old_values mb = gather f_zero (d_values data) idx /\
  mb_advantages mb = fst gae /\
  mb_returns mb = snd gae /\
  mb_entropy mb = t_mean (map dist_entropy (map (get_distribution (actor ag)) states)).
Proof.
  intros mb states gae. subst mb gae states. unfold minibatch_forward.
  destruct (compute_gae _ _ _ _ _) as [advantages returns].
  repeat split.
Qed.

Lemma minibatch_forward_losses (ag : agent) (data : buffer_data F) (ns : list (list F))
    (fs : list F) (idx : list nat) :
  let mb := minibatch_forward ag data ns fs idx in
  mb_policy_loss mb
  = f_neg (t_mean (t_min
      (t_mul (t_exp (t_sub (mb_log_probs mb) (mb_old_log_probs mb)))
             (mb_advantages mb))
      (t_mul (t_clamp (t_exp (t_sub (mb_log_probs mb) (mb_old_log_probs mb)))
                      (f_sub f_one (clip_range (cfg ag)))
                      (f_add f_one (clip_range (cfg ag))))
             (mb_advantages mb)))) /\
  mb_value_loss mb
  = f_mul (f_dec 1 2)
      (t_mean (t_max
         (t_pow2 (t_sub (mb_values mb) (mb_returns mb)))
         (t_pow2 (t_sub
            (t_add (mb_old_values mb)
               (t_clamp (t_sub (mb_values mb) (mb_old_values mb))
                        (f_neg (clip_range (cfg ag)))
                        (clip_range (cfg ag))))
            (mb_returns mb))))) /\
  mb_loss mb
  = f_sub (f_add (mb_policy_loss mb) (f_mul (vf_coef (cfg ag)) (mb_value_loss mb)))
          (f_mul (ent_coef (cfg ag)) (mb_entropy mb)).
Proof.
  intros mb. subst mb. unfold minibatch_forward.
  destruct (compute_gae _ _ _ _ _) as [advantages returns]. repeat split.
Qed.

(** C5: the policy loss of a minibatch is the negated mean, over the sampled
    transitions, of the clipped surrogate.  At each position the ratio is
    taken between the log-probability the current policy gives to the
    stored action in the sampled (normalized) state and the log-probability
    stored with the transition, and the advantage is the one the GAE
    recursion yields over the minibatch's normalized rewards, the critic's
    current values and the dones, bootstrapped with the critic's value of
    the normalized final state. *)
Theorem C5_policy_loss_formula (ag : agent) (data : buffer_data F)
    (ns : list (list F)) (fs : list F) (idx : list nat) :
  let mb := minibatch_forward ag data ns fs idx in
  let eps := clip_range (cfg ag) in
  let states := gather [] ns idx in
  let new_log_probs :=
    zip_with dist_log_prob (map (get_distribution (actor ag)) states)
             (gather (ActArray []) (d_actions data) idx) in
  let old_log_probs := gather f_zero (d_log_probs data) idx in
  let advantages :=
    fst (compute_gae (gather f_zero (d_normalized_rewards data) idx)
                     (map (critic_forward (critic ag)) states)
                     (gather false (d_dones data) idx)
                     (critic_forward (critic ag)
                        (normalizer_normalize (state_normalizer ag) fs))
                     (gamma (cfg ag))) in
  mb_policy_loss mb
  = f_neg (t_mean (map (fun i => surrogate eps (nth i new_log_probs f_zero)
                                           (nth i old_log_probs f_zero)
                                           (nth i advantages f_zero))
                       (seq 0 (length idx)))) /\
  mb_policy_loss mb = spec_policy_loss eps new_log_probs old_log_probs advantages /\
  mb_policy_loss mb
  = spec_policy_loss eps (mb_log_probs mb) (mb_old_log_probs mb) (mb_advantages mb) /\
  mb_log_probs mb = new_log_probs /\
  mb_old_log_probs mb = old_log_probs /\
  mb_advantages mb = advantages /\
  length new_log_probs = length idx /\
  length old_log_probs = length idx /\
  length advantages = length idx /\
  forall i, (i < length idx)%nat ->
    nth i new_log_probs f_zero
    = dist_log_prob (get_distribution (actor ag) (nth (nth i idx 0%nat) ns []))
                    (nth (nth i idx 0%nat) (d_actions data) (ActArray [])) /\
    nth i old_log_probs f_zero = nth (nth i idx 0%nat) (d_log_probs data) f_zero.
Proof.
  intros mb eps states new_log_probs old_log_probs advantages.
  destruct (minibatch_lengths ag data ns fs idx) as (Hlp & Holp & _ & _ & Hadv & _).
  destruct (minibatch_forward_fields ag data ns fs idx)
    as (Hnew & Hold & _ & _ & Ha & _).
  destruct (minibatch_forward_losses ag data ns fs idx) as (Hloss & _).
  fold mb in Hlp, Holp, Hadv, Hnew, Hold, Ha, Hloss.
  fold states in Hnew, Ha. fold new_log_probs in Hnew. fold old_log_probs in Hold.
  fold advantages in Ha.
  assert (Hspec : mb_policy_loss mb
                  = spec_policy_loss eps (mb_log_probs mb) (mb_old_log_probs mb)
                                     (mb_advantages mb)).
  { rewrite Hloss. unfold spec_policy_loss, surrogate.
    rewrite policy_terms_pointwise by congruence. reflexivity. }
  assert (Hexplicit : mb_policy_loss mb
                      = spec_policy_loss eps new_log_probs old_log_probs advantages).
  { rewrite Hspec, Hnew, Hold, Ha. reflexivity. }
  split.
  { rewrite Hexplicit. unfold spec_policy_loss.
    replace (length advantages) with (length idx) by congruence. reflexivity. }
  split; [exact Hexplicit|]. split; [exact Hspec|].
  split; [exact Hnew|]. split; [exact Hold|]. split; [exact Ha|].
  split; [congruence|]. split; [congruence|]. split; [congruence|].
  intros i Hi. split.
  - subst new_log_probs states.
    rewrite (nth_zip_with_in dist_log_prob (get_distribution (actor ag) [])
                             (ActArray []))
      by (rewrite ?length_map, length_gather; exact Hi).
    rewrite (nth_map_in (get_distribution (actor ag)) _ [])
      by (rewrite length_gather; exact Hi).
    rewrite !nth_gather by exact Hi. reflexivity.
  - subst old_log_probs. apply nth_gather. exact Hi.
Qed.

(** C6: the value loss of a minibatch is half the mean, over the sampled
    transitions, of the larger of the plain and the clipped squared error,
    where V is the critic's current value of the sampled (normalized)
    state, V_old the value stored with the transition and the return the
    one of the GAE recursion over the minibatch; the entropy is the mean
    entropy of the current policy over the sampled states; and the loss of
    the minibatch the loop hands to the backward pass is policy loss plus
    [vf_coef] times value loss minus [ent_coef] times entropy.  The source
    adds [V_old] on the left of the clipped difference, the formula on the
    right: the two agree as soon as addition commutes. *)
Theorem C6_value_and_total_loss (ag : agent) (data : buffer_data F)
    (ns : list (list F)) (fs : list F) (idx : list nat) :
  (forall x y : F, f_add x y = f_add y x) ->
  let mb := minibatch_forward ag data ns fs idx in
  let eps := clip_range (cfg ag) in
  let states := gather [] ns idx in
  let distributions := map (get_distribution (actor ag)) states in
  let new_log_probs :=
    zip_with dist_log_prob distributions (gather (ActArray []) (d_actions data) idx) in
  let old_log_probs := gather f_zero (d_log_probs data) idx in
  let values := map (critic_forward (critic ag)) states in
  let old_values := gather f_zero (d_values data) idx in
  let gae :=
    compute_gae (gather f_zero (d_normalized_rewards data) idx) values
                (gather false (d_dones data) idx)
                (critic_forward (critic ag)
                   (normalizer_normalize (state_normalizer ag) fs))
                (gamma (cfg ag)) in
  let entropy := t_mean (map dist_entropy distributions) in
  let policy_loss := spec_policy_loss eps new_log_probs old_log_probs (fst gae) in
  let value_loss :=
    f_mul (f_dec 1 2)
          (t_mean (map (fun i => clipped_value_error eps (nth i values f_zero)
                                                     (nth i old_values f_zero)
                                                     (nth i (snd gae) f_zero))
                       (seq 0 (length idx)))) in
  mb_value_loss mb = value_loss /\
  mb_value_loss mb = spec_value_loss eps values old_values (snd gae) /\
  mb_value_loss mb
  = spec_value_loss eps (mb_values mb) (mb_old_values mb) (mb_returns mb) /\
  mb_values mb = values /\
  mb_old_values mb = old_values /\
  mb_returns mb = snd gae /\
  mb_entropy mb = entropy /\
  mb_policy_loss mb = policy_loss /\
  length values = length idx /\
  length old_values = length idx /\
  length (snd gae) = length idx /\
  (forall i, (i < length idx)%nat ->
     nth i values f_zero = critic_forward (critic ag) (nth (nth i idx 0%nat) ns []) /\
     nth i old_values f_zero = nth (nth i idx 0%nat) (d_values data) f_zero) /\
  mb_loss mb = spec_total_loss (cfg ag) policy_loss value_loss entropy /\
  mb_loss mb
  = spec_total_loss (cfg ag) (mb_policy_loss mb) (mb_value_loss mb) (mb_entropy mb) /\
  (actor (optimize ag mb), critic (optimize ag mb))
  = backward_step (max_grad_norm (cfg ag)) (opt_lr (actor_optimizer ag))
                  (opt_lr (critic_optimizer ag)) (actor ag) (critic ag) mb /\
  forall (current_batch_size : Z) (indices : list nat) (tot : totals) (start : Z),
    let end_ :=
      Z.min (start + current_batch_size) (Z.of_nat (buffer_len (buffer ag))) in
    idx = slice indices (Z.to_nat start) (Z.to_nat end_) ->
    too_small (end_ - start) current_batch_size = false ->
    minibatch_body data ns fs current_batch_size indices (ag, tot) start
    = (optimize ag mb, accumulate tot mb).
Proof.
  intros Hcomm mb eps states distributions new_log_probs old_log_probs values
         old_values gae entropy policy_loss value_loss.
  destruct (minibatch_lengths ag data ns fs idx)
    as (Hlp & Holp & Hv & Hov & Hadv & Hret).
  destruct (minibatch_forward_fields ag data ns fs idx)
    as (Hnew & Hold & Hvalues & Hold_values & Ha & Hr & Hent).
  destruct (minibatch_forward_losses ag data ns fs idx) as (Hploss & Hvalue & Htotal).
  fold mb in Hlp, Holp, Hv, Hov, Hadv, Hret, Hnew, Hold, Hvalues, Hold_values, Ha, Hr,
             Hent, Hploss, Hvalue, Htotal.
  fold states in Hnew, Hvalues, Ha, Hr, Hent.
  fold distributions in Hnew, Hent. fold new_log_probs in Hnew.
  fold old_log_probs in Hold. fold values in Hvalues, Ha, Hr.
  fold old_values in Hold_values. fold gae in Ha, Hr. fold entropy in Hent.
  assert (Hspec : mb_value_loss mb
                  = spec_value_loss eps (mb_values mb) (mb_old_values mb)
                                    (mb_returns mb)).
  { rewrite Hvalue. unfold spec_value_loss, clipped_value_error.
    rewrite value_terms_pointwise by congruence.
    f_equal. f_equal. apply map_ext. intros i.
    rewrite (Hcomm (nth i (mb_old_values mb) f_zero)). reflexivity. }
  assert (Hexplicit : mb_value_loss mb = spec_value_loss eps values old_values (snd gae)).
  { rewrite Hspec, Hvalues, Hold_values, Hr. reflexivity. }
  assert (Hvl : mb_value_loss mb = value_loss).
  { rewrite Hexplicit. unfold spec_value_loss. subst value_loss.
    replace (length values) with (length idx) by congruence. reflexivity. }
  assert (Hpl : mb_policy_loss mb = policy_loss).
  { rewrite Hploss. subst policy_loss. unfold spec_policy_loss, surrogate.
    rewrite policy_terms_pointwise by congruence.
    rewrite Hnew, Hold, Ha. reflexivity. }
  split; [exact Hvl|]. split; [exact Hexplicit|]. split; [exact Hspec|].
  split; [exact Hvalues|]. split; [exact Hold_values|]. split; [exact Hr|].
  split; [exact Hent|]. split; [exact Hpl|].
  split; [congruence|]. split; [congruence|]. split; [congruence|].
  split.
  { intros i Hi. split.
    - subst values states.
      rewrite (nth_map_in (critic_forward (critic ag)) _ [])
        by (rewrite length_gather; exact Hi).
      rewrite nth_gather by exact Hi. reflexivity.
    - subst old_values. apply nth_gather. exact Hi. }
  split.
  { rewrite Htotal, Hvl, Hpl, Hent. reflexivity. }
  split; [exact Htotal|].
  split.
  { unfold optimize. destruct (backward_step _ _ _ _ _ _) as [a c]. reflexivity. }
  intros bs indices tot start end_ Hidx Hbig.
  unfold minibatch_body. fold end_. rewrite Hbig. subst mb. rewrite Hidx. reflexivity.
Qed.

(** ** Running sums and averages *)

Lemma totals_are_sums (tr : list (minibatch F)) :
  forall tot : totals,
  let tot' := fold_left accumulate tr tot in
  total_policy_loss tot'
  = fold_left f_add (map mb_policy_loss tr) (total_policy_loss tot) /\
  total_value_loss tot'
  = fold_left f_add (map mb_value_loss tr) (total_value_loss tot) /\
  total_entropy tot'
  = fold_left f_add (map mb_entropy tr) (total_entropy tot) /\
  total_value_mean tot'
  = fold_left f_add (map (fun mb => t_mean (mb_values mb)) tr) (total_value_mean tot) /\
  total_value_std tot'
  = fold_left f_add (map (fun mb => t_std (mb_values mb)) tr) (total_value_std tot) /\
  total_advantage_mean tot'
  = fold_left f_add (map (fun mb => t_mean (mb_advantages mb)) tr)
              (total_advantage_mean tot) /\
  total_advantage_std tot'
  = fold_left f_add (map (fun mb => t_std (mb_advantages mb)) tr)
              (total_advantage_std tot).
Proof.
  induction tr as [|mb tr IH]; intros tot.
  - repeat split.
  - cbn [fold_left map]. apply (IH (accumulate tot mb)).
Qed.

(** The averaged dictionary, entry by entry, over a non-empty trace: every
    entry is the mean of its own per-minibatch quantity, except
    ['advantage_mean'], which is the mean of the per-minibatch value
    means. *)
Lemma averaged_metrics_entries (ag : agent) (tr : list (minibatch F)) (bs : Z) :
  let m := averaged_metrics ag (fold_left accumulate tr totals_init) bs in
  m !! "policy_loss" = Some (VFloat (t_mean (map mb_policy_loss tr))) /\
  m !! "value_loss" = Some (VFloat (t_mean (map mb_value_loss tr))) /\
  m !! "entropy" = Some (VFloat (t_mean (map mb_entropy tr))) /\
  m !! "value_mean"
  = Some (VFloat (t_mean (map (fun mb => t_mean (mb_values mb)) tr))) /\
  m !! "value_std"
  = Some (VFloat (t_mean (map (fun mb => t_std (mb_values mb)) tr))) /\
  m !! "advantage_mean"
  = Some (VFloat (t_mean (map (fun mb => t_mean (mb_values mb)) tr))) /\
  m !! "advantage_std"
  = Some (VFloat (t_mean (map (fun mb => t_std (mb_advantages mb)) tr))) /\
  m !! "updates_performed" = Some (VInt (Z.of_nat (length tr))) /\
  m !! "batch_size_used" = Some (VInt bs) /\
  m !! "learning_rate" = Some (VFloat (opt_lr (actor_optimizer ag))) /\
  m !! "skipped_reason" = None.
Proof.
  intros m. subst m.
  destruct (totals_are_sums tr totals_init) as (Hp & Hv & He & Hvm & Hvs & _ & Has).
  pose proof (update_count_accumulate tr totals_init) as Hc.
  cbn [totals_init update_count Z.add] in Hc.
  unfold averaged_metrics, t_mean, t_sum. rewrite !length_map.
  rewrite Hp, Hv, He, Hvm, Hvs, Has, Hc.
  repeat split.
Qed.

(** ** [_perform_update] and [update_networks] as a whole *)

(** A zero batch size makes [range] raise as soon as the first pass starts. *)
Lemma perform_update_zero_batch (ag : agent) (fs : list F) :
  1 <= num_epochs (cfg ag) -> _perform_update ag fs 0 = Raise ValueError.
Proof.
  intros Hep. unfold _perform_update.
  destruct (range_list_epochs _ Hep) as [rest ->].
  cbn [for_each]. unfold epoch_body.
  destruct (randperm (rng ag) (buffer_len (buffer ag))) as [indices r].
  reflexivity.
Qed.

Lemma perform_update_returns (ag : agent) (fs : list F) (bs : Z) :
  bs <> 0 ->
  exists m ag', _perform_update ag fs bs = Ok (m, ag') /\ same_frame ag ag'.
Proof.
  intros Hbs. destruct (Z_le_gt_dec (num_epochs (cfg ag)) 0) as [Hep|Hep].
  - exists None, ag. split; [apply perform_update_no_epochs, Hep|apply same_frame_refl].
  - destruct (perform_update_first_pass ag fs bs ltac:(lia) Hbs) as (ag' & Hrun & Hframe).
    eauto.
Qed.

(** Whatever [_perform_update] returns, it has kept the frame. *)
Lemma perform_update_frame (ag : agent) (fs : list F) (bs : Z)
    (m : pyret) (ag' : agent) :
  _perform_update ag fs bs = Ok (m, ag') -> same_frame ag ag'.
Proof.
  intros Hrun. destruct (Z.eq_dec bs 0) as [->|Hbs].
  - destruct (Z_le_gt_dec (num_epochs (cfg ag)) 0) as [Hep|Hep].
    + rewrite perform_update_no_epochs in Hrun by exact Hep.
      injection Hrun as _ <-. apply same_frame_refl.
    + rewrite perform_update_zero_batch in Hrun by lia. discriminate.
  - destruct (perform_update_returns ag fs bs Hbs) as (m0 & ag0 & Hrun0 & Hframe).
    rewrite Hrun0 in Hrun. injection Hrun as _ <-. exact Hframe.
Qed.

Lemma adjusted_batch_size_nonzero (bs : Z) (len : nat) :
  bs * 2 <= Z.of_nat len -> bs <> 0 -> Z.min bs (Z.of_nat len) <> 0.
Proof. lia. Qed.

(** With enough samples and a non-zero batch size, [update_networks] runs
    [_perform_update], then steps both schedulers and clears the buffer. *)
Lemma update_networks_enough (ag : agent) (fs : list F) :
  minimum_required_samples ag <= Z.of_nat (buffer_len (buffer ag)) ->
  batch_size (cfg ag) <> 0 ->
  exists m mid,
    _perform_update ag fs (Z.min (batch_size (cfg ag))
                                 (Z.of_nat (buffer_len (buffer ag))))
    = Ok (m, mid)
    /\ same_frame ag mid
    /\ update_networks ag fs
       = Ok (m, set_buffer (step_schedulers mid)
                           (buffer_clear (buffer (step_schedulers mid)))).
Proof.
  intros Hlen Hbs. unfold minimum_required_samples in Hlen.
  pose proof (adjusted_batch_size_nonzero _ _ Hlen Hbs) as Hadj.
  destruct (perform_update_returns ag fs _ Hadj) as (m & mid & Hrun & Hframe).
  exists m, mid. split; [exact Hrun|]. split; [exact Hframe|].
  unfold update_networks, minimum_required_samples.
  destruct (Z.ltb_spec (Z.of_nat (buffer_len (buffer ag))) (batch_size (cfg ag) * 2));
    [lia|].
  rewrite Hrun. reflexivity.
Qed.

Lemma step_schedulers_fields (ag : agent) :
  (actor_scheduler (step_schedulers ag), actor_optimizer (step_schedulers ag))
  = scheduler_step (actor_scheduler ag) (actor_optimizer ag) /\
  (critic_scheduler (step_schedulers ag), critic_optimizer (step_schedulers ag))
  = scheduler_step (critic_scheduler ag) (critic_optimizer ag) /\
  state_normalizer (step_schedulers ag) = state_normalizer ag /\
  buffer (step_schedulers ag) = buffer ag.
Proof.
  unfold step_schedulers.
  destruct (scheduler_step (actor_scheduler ag) _) as [sa oa].
  destruct (scheduler_step (critic_scheduler ag) _) as [sc oc].
  repeat split.
Qed.


(** C3: with fewer than [2 * batch_size] stored transitions,
    [update_networks] raises nothing, returns the agent exactly as it was
    (no optimizer step, no scheduler step, the buffer not cleared) and
    reports ['skipped_reason'] = ['insufficient_data']. *)
Theorem C3_insufficient_data_is_a_noop (ag : agent) (fs : list F) :
  Z.of_nat (buffer_len (buffer ag)) < 2 * batch_size (cfg ag) ->
  minimum_required_samples ag = 2 * batch_size (cfg ag) /\
  exists m,
    update_networks ag fs = Ok (Some m, ag) /\
    m !! "skipped_reason" = Some (VStr "insufficient_data") /\
    m !! "available_samples" = Some (VInt (Z.of_nat (buffer_len (buffer ag)))) /\
    m !! "policy_loss" = Some (VFloat f_zero) /\
    m !! "value_loss" = Some (VFloat f_zero) /\
    m !! "entropy" = Some (VFloat f_zero).
Proof.
  intros Hlen. split; [unfold minimum_required_samples; lia|].
  exists (insufficient_data_metrics (buffer_len (buffer ag))).
  split.
  - unfold update_networks, minimum_required_samples.
    destruct (Z.ltb_spec (Z.of_nat (buffer_len (buffer ag))) (batch_size (cfg ag) * 2));
      [reflexivity|lia].
  - unfold insufficient_data_metrics. repeat split.
Qed.

(** C4, amended: when a pass counts no minibatch,
    [_perform_update] returns the zero-filled record (losses and statistics
    0.0, [updates_performed] 0, with the batch size used and the learning
    rate), and that record has no ['skipped_reason'] entry. *)
Theorem C4_zero_minibatches_zero_metrics (ag : agent) (fs : list F) (bs : Z) :
  1 <= num_epochs (cfg ag) ->
  bs <> 0 ->
  counted_starts (Z.of_nat (buffer_len (buffer ag))) bs = [] ->
  exists m ag',
    _perform_update ag fs bs = Ok (Some m, ag') /\
    same_frame ag ag' /\
    m !! "policy_loss" = Some (VFloat f_zero) /\
    m !! "value_loss" = Some (VFloat f_zero) /\
    m !! "entropy" = Some (VFloat f_zero) /\
    m !! "updates_performed" = Some (VInt 0) /\
    m !! "value_mean" = Some (VFloat f_zero) /\
    m !! "value_std" = Some (VFloat f_zero) /\
    m !! "advantage_mean" = Some (VFloat f_zero) /\
    m !! "advantage_std" = Some (VFloat f_zero) /\
    m !! "batch_size_used" = Some (VInt bs) /\
    m !! "learning_rate" = Some (VFloat (opt_lr (actor_optimizer ag))) /\
    m !! "skipped_reason" = None.
Proof.
  intros Hep Hbs Hnone.
  destruct (perform_update_first_pass ag fs bs Hep Hbs) as (ag' & Hrun & Hframe).
  assert (Htrace : first_pass ag fs bs = []).
  { apply length_zero_iff_nil. rewrite length_first_pass, Hnone. reflexivity. }
  rewrite Htrace in Hrun. cbn [fold_left totals_init update_count Z.eqb] in Hrun.
  exists (zero_metrics ag' bs), ag'.
  split; [exact Hrun|]. split; [exact Hframe|].
  destruct Hframe as (_ & _ & _ & _ & Hlr & _).
  unfold zero_metrics. rewrite <- Hlr. repeat split.
Qed.

(** C7: with at least [minimum_required_samples] transitions stored (and a
    batch size that is not zero), [update_networks] returns; the minibatch
    epochs leave both schedulers and both learning rates as they were,
    after them each scheduler is stepped exactly once, and the buffer comes
    back empty. *)
Theorem C7_schedulers_once_then_buffer_cleared (ag : agent) (fs : list F) :
  minimum_required_samples ag <= Z.of_nat (buffer_len (buffer ag)) ->
  batch_size (cfg ag) <> 0 ->
  exists m mid ag',
    _perform_update ag fs (Z.min (batch_size (cfg ag))
                                 (Z.of_nat (buffer_len (buffer ag))))
    = Ok (m, mid) /\
    update_networks ag fs = Ok (m, ag') /\
    actor_scheduler mid = actor_scheduler ag /\
    critic_scheduler mid = critic_scheduler ag /\
    opt_lr (actor_optimizer mid) = opt_lr (actor_optimizer ag) /\
    opt_lr (critic_optimizer mid) = opt_lr (critic_optimizer ag) /\
    (actor_scheduler ag', actor_optimizer ag')
    = scheduler_step (actor_scheduler mid) (actor_optimizer mid) /\
    (critic_scheduler ag', critic_optimizer ag')
    = scheduler_step (critic_scheduler mid) (critic_optimizer mid) /\
    last_epoch (actor_scheduler ag') = last_epoch (actor_scheduler ag) + 1 /\
    last_epoch (critic_scheduler ag') = last_epoch (critic_scheduler ag) + 1 /\
    buffer_len (buffer ag') = 0%nat /\
    buf_data (buffer ag') = [].
Proof.
  intros Hlen Hbs.
  destruct (update_networks_enough ag fs Hlen Hbs) as (m & mid & Hrun & Hframe & Hupd).
  exists m, mid, (set_buffer (step_schedulers mid)
                             (buffer_clear (buffer (step_schedulers mid)))).
  destruct Hframe as (_ & _ & Hsa & Hsc & Hla & Hlc & _).
  destruct (step_schedulers_fields mid) as (Hstepa & Hstepc & _ & _).
  split; [exact Hrun|]. split; [exact Hupd|].
  repeat (split; [congruence|]).
  cbn [set_buffer actor_scheduler critic_scheduler actor_optimizer critic_optimizer
       buffer buffer_clear buffer_len buf_data length].
  split; [exact Hstepa|]. split; [exact Hstepc|].
  split; [|split; [|split; reflexivity]].
  - rewrite Hsa. apply (f_equal fst) in Hstepa. cbn [fst] in Hstepa.
    rewrite Hstepa. reflexivity.
  - rewrite Hsc. apply (f_equal fst) in Hstepc. cbn [fst] in Hstepc.
    rewrite Hstepc. reflexivity.
Qed.

(** ** [act], [update] and the normalizer *)


(** What the [no_grad] block of [update] computes. *)
Lemma prepare_transition_spec (ag : agent) (s : list F) (a : action F) (r : F)
    (d : bool) :
  let norm' := normalizer_update (state_normalizer ag) [s] in
  let dist := get_distribution (actor ag) (normalizer_normalize norm' s) in
  prepare_transition ag s a r d
  = (Transition s a r
       (critic_forward (critic ag) (normalizer_normalize norm' s))
       (dist_log_prob dist (fst (dist_sample dist (rng ag)))) d,
     set_rng (set_state_normalizer ag norm') (snd (dist_sample dist (rng ag)))).
Proof.
  unfold prepare_transition, get_action_and_log_prob.
  cbn [set_state_normalizer state_normalizer critic actor rng].
  destruct (dist_sample _ _) as [sampled r']. reflexivity.
Qed.

Lemma update_unfold (ag : agent) (s : list F) (a : action F) (r : F)
    (ns : list F) (d : bool) :
  (buffer_len (buffer ag) < buf_size (buffer ag))%nat ->
  let t := fst (prepare_transition ag s a r d) in
  let ag1 := snd (prepare_transition ag s a r d) in
  let ag2 := set_buffer ag1 (Buffer (buf_size (buffer ag)) (buf_data (buffer ag) ++ [t])) in
  buffer_store (buffer ag1) t
  = Ok (Buffer (buf_size (buffer ag)) (buf_data (buffer ag) ++ [t])) /\
  update ag s a r ns d
  = if d && (minimum_required_samples ag2 <=? Z.of_nat (buffer_len (buffer ag2)))
    then update_networks ag2 ns
    else Ok (Some ∅, ag2).
Proof.
  intros Hroom t ag1 ag2. subst t ag1 ag2. unfold update.
  rewrite prepare_transition_spec. cbn [fst snd set_rng set_state_normalizer buffer].
  unfold buffer_store.
  destruct (Nat.ltb_spec (buffer_len (buffer ag)) (buf_size (buffer ag))); [|lia].
  split; reflexivity.
Qed.




(** C10: the log-probability [update] stores with a transition is that of
    an action freshly drawn from the current policy at the normalized
    state; the stored action is the [action] argument, and the stored
    log-probability does not depend on that argument at all. *)
Theorem C10_stored_log_prob_is_of_a_fresh_sample (ag : agent) (s : list F)
    (a : action F) (r : F) (ns : list F) (d : bool) :
  (buffer_len (buffer ag) < buf_size (buffer ag))%nat ->
  let norm' := normalizer_update (state_normalizer ag) [s] in
  let dist := get_distribution (actor ag) (normalizer_normalize norm' s) in
  let fresh := fst (dist_sample dist (rng ag)) in
  let t := fst (prepare_transition ag s a r d) in
  let ag1 := snd (prepare_transition ag s a r d) in
  let ag2 := set_buffer ag1 (Buffer (buf_size (buffer ag)) (buf_data (buffer ag) ++ [t])) in
  tr_log_prob t = dist_log_prob dist fresh /\
  tr_action t = a /\
  (forall a' : action F,
     tr_log_prob (fst (prepare_transition ag s a' r d)) = tr_log_prob t) /\
  buffer_store (buffer ag1) t
  = Ok (Buffer (buf_size (buffer ag)) (buf_data (buffer ag) ++ [t])) /\
  update ag s a r ns d
  = (if d && (minimum_required_samples ag2 <=? Z.of_nat (buffer_len (buffer ag2)))
     then update_networks ag2 ns
     else Ok (Some ∅, ag2)).
Proof.
  intros Hroom norm' dist fresh t ag1 ag2.
  destruct (update_unfold ag s a r ns d Hroom) as [Hstore Hupd].
  split; [|split; [|split; [|split]]].
  - subst t. rewrite prepare_transition_spec. reflexivity.
  - subst t. rewrite prepare_transition_spec. reflexivity.
  - intros a'. subst t. rewrite !prepare_transition_spec. reflexivity.
  - exact Hstore.
  - exact Hupd.
Qed.

(** Every minibatch of a pass is [minibatch_forward] on some slice of the
    permutation, at an agent that differs from the initial one by
    optimizer steps only. *)
Lemma minibatch_trace_forward (data : buffer_data F) (ns : list (list F))
    (fs : list F) (bs : Z) (indices : list nat) (starts : list Z) :
  forall (ag : agent) (mb : minibatch F),
  In mb (minibatch_trace data ns fs bs indices starts ag) ->
  exists ag' idx,
    same_frame ag ag' /\ mb = minibatch_forward ag' data ns fs idx.
Proof.
  induction starts as [|start rest IH]; intros ag mb Hin; simpl in Hin; [contradiction|].
  destruct (too_small _ _).
  - apply IH. exact Hin.
  - destruct Hin as [<-|Hin].
    + eexists ag, _. split; [apply same_frame_refl|reflexivity].
    + destruct (IH _ _ Hin) as (ag' & idx & Hframe & ->).
      exists ag', idx. split; [|reflexivity].
      eapply same_frame_trans; [apply same_frame_optimize|exact Hframe].
Qed.

Lemma first_pass_forward (ag : agent) (fs : list F) (bs : Z) (mb : minibatch F) :
  In mb (first_pass ag fs bs) ->
  exists ag' idx,
    same_frame ag ag' /\
    mb = minibatch_forward ag' (buffer_get (buffer ag))
           (map (normalizer_normalize (state_normalizer ag))
                (d_states (buffer_get (buffer ag))))
           fs idx.
Proof.
  unfold first_pass. destruct (randperm _ _) as [indices r]. intros Hin.
  destruct (minibatch_trace_forward _ _ _ _ _ _ _ _ Hin) as (ag' & idx & Hframe & ->).
  exists ag', idx. split; [|reflexivity].
  eapply same_frame_trans; [apply same_frame_set_rng|exact Hframe].
Qed.

(** With a positive batch size that fits the buffer, the first minibatch of
    a pass is full and therefore counted. *)
Lemma first_start_counted (len bs : Z) :
  0 < bs <= len -> exists rest, counted_starts len bs = 0 :: rest.
Proof.
  intros Hbs. unfold counted_starts, range_list.
  destruct (Z.ltb_spec bs 0) as [|_]; [lia|].
  assert (Hq : 1 <= (len + bs - 1) / bs).
  { apply Z.div_le_lower_bound; lia. }
  destruct (Z.to_nat ((len + bs - 1) / bs)) as [|k] eqn:Hk; [lia|].
  cbn [seq map List.filter]. unfold counted at 1, too_small.
  replace (Z.min (Z.of_nat 0 * bs + bs) len - Z.of_nat 0 * bs) with bs by lia.
  destruct (Z.ltb_spec (5 * bs) (4 * bs)) as [|_]; [lia|].
  cbn [negb]. change (Z.of_nat 0 * bs) with 0. eauto.
Qed.

(** With enough samples, at least one epoch and at least one counted
    minibatch, [update_networks] returns the averages of the first pass. *)
Lemma update_networks_first_pass (ag : agent) (fs : list F) :
  minimum_required_samples ag <= Z.of_nat (buffer_len (buffer ag)) ->
  batch_size (cfg ag) <> 0 ->
  1 <= num_epochs (cfg ag) ->
  let adjusted := Z.min (batch_size (cfg ag)) (Z.of_nat (buffer_len (buffer ag))) in
  counted_starts (Z.of_nat (buffer_len (buffer ag))) adjusted <> [] ->
  exists mid ag',
    update_networks ag fs
    = Ok (Some (averaged_metrics mid
                  (fold_left accumulate (first_pass ag fs adjusted) totals_init)
                  adjusted), ag') /\
    length (first_pass ag fs adjusted)
    = length (counted_starts (Z.of_nat (buffer_len (buffer ag))) adjusted).
Proof.
  intros Hlen Hbs Hep adjusted Hcounted.
  destruct (update_networks_enough ag fs Hlen Hbs) as (m & mid & Hrun & _ & Hupd).
  fold adjusted in Hrun.
  assert (Hadj : adjusted <> 0).
  { apply adjusted_batch_size_nonzero; assumption. }
  destruct (perform_update_first_pass ag fs adjusted Hep Hadj) as (mid' & Hrun' & _).
  rewrite Hrun in Hrun'.
  pose proof (update_count_accumulate (first_pass ag fs adjusted) totals_init) as Hc.
  pose proof (length_first_pass ag fs adjusted) as Hl.
  cbn [totals_init update_count Z.add] in Hc.
  destruct (update_count _ =? 0) eqn:Hzero.
  - exfalso. apply Z.eqb_eq in Hzero. apply Hcounted.
    apply length_zero_iff_nil. lia.
  - injection Hrun' as -> ->.
    eexists _, _. split; [exact Hupd|exact Hl].
Qed.

(** For a positive batch size the number of updates reported is the number
    of counted minibatches of one pass, whatever [num_epochs] is (as long
    as it is at least 1). *)
Lemma update_networks_updates_performed (ag : agent) (fs : list F) :
  0 < batch_size (cfg ag) ->
  minimum_required_samples ag <= Z.of_nat (buffer_len (buffer ag)) ->
  1 <= num_epochs (cfg ag) ->
  exists m ag',
    update_networks ag fs = Ok (Some m, ag') /\
    m !! "updates_performed"
    = Some (VInt (Z.of_nat (length (counted_starts (Z.of_nat (buffer_len (buffer ag)))
                                                   (batch_size (cfg ag)))))).
Proof.
  intros Hbs Hlen Hep.
  assert (Hadj : Z.min (batch_size (cfg ag)) (Z.of_nat (buffer_len (buffer ag)))
                 = batch_size (cfg ag)).
  { unfold minimum_required_samples in Hlen. lia. }
  destruct (update_networks_first_pass ag fs Hlen ltac:(lia) Hep)
    as (mid & ag' & Hupd & Hl).
  - rewrite Hadj.
    destruct (first_start_counted (Z.of_nat (buffer_len (buffer ag)))
                (batch_size (cfg ag))) as [rest ->]; [|discriminate].
    unfold minimum_required_samples in Hlen. lia.
  - cbv zeta in Hupd, Hl. rewrite Hadj in Hupd, Hl.
    eexists _, ag'. split; [exact Hupd|].
    destruct (averaged_metrics_entries mid
                (first_pass ag fs (batch_size (cfg ag))) (batch_size (cfg ag)))
      as (_ & _ & _ & _ & _ & _ & _ & Hcount & _).
    cbv zeta in Hcount. rewrite Hcount, Hl. reflexivity.
Qed.

End Properties.

(** * Further properties of the agent *)

Section Coverage.
Context {F : Type} `{Scalar F} `{Collaborators F}.

(** ** How a pass cuts the buffer into minibatches *)

Lemma range_list_positive (len bs : Z) :
  0 < bs ->
  range_list len bs
  = map (fun k => Z.of_nat k * bs) (seq 0 (Z.to_nat ((len + bs - 1) / bs))).
Proof.
  intros Hbs. unfold range_list.
  destruct (Z.ltb_spec bs 0); [lia|reflexivity].
Qed.

(** The number of starts is the quotient, plus one for a remainder. *)
Lemma range_list_rounds_up (len bs : Z) :
  0 < bs -> 0 <= len ->
  (len + bs - 1) / bs = len / bs + (if len mod bs =? 0 then 0 else 1).
Proof.
  intros Hbs Hlen.
  pose proof (Z.div_mod len bs ltac:(lia)) as Hdm.
  pose proof (Z.mod_pos_bound len bs Hbs) as Hr.
  destruct (Z.eqb_spec (len mod bs) 0) as [Hz|Hnz].
  - symmetry. apply (Z.div_unique _ _ _ (bs - 1)); lia.
  - symmetry. apply (Z.div_unique _ _ _ (len mod bs - 1)); lia.
Qed.

Lemma length_filter_map {A B : Type} (p : B -> bool) (f : A -> B) (l : list A) :
  length (List.filter p (map f l)) = length (List.filter (fun x => p (f x)) l).
Proof.
  induction l as [|x l IH]; simpl; [reflexivity|].
  destruct (p (f x)); simpl; rewrite IH; reflexivity.
Qed.

Lemma length_filter_all {A : Type} (p : A -> bool) (l : list A) :
  (forall x, In x l -> p x = true) -> length (List.filter p l) = length l.
Proof.
  induction l as [|x l IH]; intros Hall; simpl; [reflexivity|].
  rewrite (Hall x) by (left; reflexivity). simpl. f_equal.
  apply IH. intros y Hy. apply Hall. right. exact Hy.
Qed.

(** A minibatch that lies wholly inside the buffer is counted. *)
Lemma counted_full (len bs : Z) (k : nat) :
  0 < bs -> (Z.of_nat k + 1) * bs <= len -> counted len bs (Z.of_nat k * bs) = true.
Proof.
  intros Hbs Hk. unfold counted, too_small.
  replace (Z.min (Z.of_nat k * bs + bs) len - Z.of_nat k * bs) with bs by lia.
  destruct (Z.ltb_spec (5 * bs) (4 * bs)); [lia|reflexivity].
Qed.

(** The last, shorter minibatch is counted when it holds at least 80% of a
    batch. *)
Lemma counted_tail (len bs : Z) :
  0 < bs -> 0 <= len -> len mod bs <> 0 ->
  counted len bs (Z.of_nat (Z.to_nat (len / bs)) * bs)
  = negb (5 * (len mod bs) <? 4 * bs).
Proof.
  intros Hbs Hlen Hr.
  pose proof (Z.div_mod len bs ltac:(lia)) as Hdm.
  pose proof (Z.mod_pos_bound len bs Hbs) as Hb.
  pose proof (Z.div_pos len bs Hlen Hbs) as Hq.
  unfold counted, too_small. rewrite Z2Nat.id by exact Hq.
  replace (Z.min (len / bs * bs + bs) len - len / bs * bs) with (len mod bs) by lia.
  reflexivity.
Qed.

(** The number of counted minibatches of a pass. *)
Lemma counted_starts_count (len bs : Z) :
  0 < bs -> 0 <= len ->
  Z.of_nat (length (counted_starts len bs))
  = len / bs
    + (if (len mod bs =? 0) || (5 * (len mod bs) <? 4 * bs) then 0 else 1).
Proof.
  intros Hbs Hlen.
  pose proof (Z.div_pos len bs Hlen Hbs) as Hq.
  unfold counted_starts. rewrite range_list_positive by exact Hbs.
  rewrite length_filter_map, range_list_rounds_up by assumption.
  destruct (Z.eqb_spec (len mod bs) 0) as [Hz|Hnz]; cbn [orb].
  - rewrite Z.add_0_r. rewrite length_filter_all.
    + rewrite length_seq. lia.
    + intros k Hk. apply in_seq in Hk. apply counted_full; [exact Hbs|].
      pose proof (Z.div_mod len bs ltac:(lia)) as Hdm. nia.
  - replace (Z.to_nat (len / bs + 1)) with (Z.to_nat (len / bs) + 1)%nat by lia.
    rewrite seq_app, List.filter_app, length_app. cbn [seq List.filter Nat.add].
    rewrite length_filter_all.
    + rewrite length_seq, counted_tail by assumption.
      destruct (5 * (len mod bs) <? 4 * bs); cbn [negb length]; lia.
    + intros k Hk. apply in_seq in Hk. apply counted_full; [exact Hbs|].
      pose proof (Z.div_mod len bs ltac:(lia)) as Hdm.
      pose proof (Z.mod_pos_bound len bs Hbs) as Hb. nia.
Qed.

(** X1: with a positive batch size, at least [2 * batch_size] stored
    transitions and at least one epoch, [update_networks] reports as
    [updates_performed] the number of full minibatches, plus one when the
    remainder is not empty and holds at least 80% of a batch. *)
Theorem X1_updates_performed_formula (ag : agent) (fs : list F) :
  0 < batch_size (cfg ag) ->
  minimum_required_samples ag <= Z.of_nat (buffer_len (buffer ag)) ->
  1 <= num_epochs (cfg ag) ->
  let len := Z.of_nat (buffer_len (buffer ag)) in
  let bs := batch_size (cfg ag) in
  exists m ag',
    update_networks ag fs = Ok (Some m, ag') /\
    m !! "updates_performed"
    = Some (VInt (len / bs
                  + (if (len mod bs =? 0) || (5 * (len mod bs) <? 4 * bs)
                     then 0 else 1))).
Proof.
  intros Hbs Hlen Hep len bs.
  destruct (update_networks_updates_performed ag fs Hbs Hlen Hep)
    as (m & ag' & Hupd & Hcount).
  exists m, ag'. split; [exact Hupd|].
  rewrite Hcount, counted_starts_count by lia. reflexivity.
Qed.

(** X2: the index ranges [start:end] of one pass, counted or skipped, lie
    end to end: put together they give back the permutation, so every
    stored transition falls into exactly one of them. *)
Theorem X2_minibatch_slices_partition (indices : list nat) (bs : Z) :
  0 < bs ->
  concat (map (fun start =>
                 slice indices (Z.to_nat start)
                       (Z.to_nat (Z.min (start + bs) (Z.of_nat (length indices)))))
              (range_list (Z.of_nat (length indices)) bs))
  = indices.
Proof.
  intros Hbs. rewrite range_list_positive by exact Hbs. rewrite map_map.
  set (b := Z.to_nat bs).
  assert (Hslice : forall k : nat,
            slice indices (Z.to_nat (Z.of_nat k * bs))
                  (Z.to_nat (Z.min (Z.of_nat k * bs + bs) (Z.of_nat (length indices))))
            = take b (drop (k * b) indices)).
  { intros k. unfold slice.
    replace (Z.to_nat (Z.of_nat k * bs)) with (k * b)%nat by (subst b; nia).
    destruct (Z.le_ge_cases (Z.of_nat k * bs + bs) (Z.of_nat (length indices))).
    - f_equal. subst b. nia.
    - rewrite !take_ge; [reflexivity| |]; rewrite length_drop; subst b; nia. }
  rewrite (map_ext _ _ Hslice).
  assert (Hcat : forall c : nat,
            concat (map (fun k => take b (drop (k * b) indices)) (seq 0 c))
            = take (c * b) indices).
  { induction c as [|c IH]; [reflexivity|].
    rewrite seq_S, map_app, concat_app, IH. cbn [map concat Nat.add].
    rewrite app_nil_r, take_take_drop. f_equal. lia. }
  rewrite Hcat. apply take_ge.
  pose proof (range_list_rounds_up (Z.of_nat (length indices)) bs Hbs ltac:(lia)) as Hc.
  pose proof (Z.div_mod (Z.of_nat (length indices)) bs ltac:(lia)) as Hdm.
  pose proof (Z.mod_pos_bound (Z.of_nat (length indices)) bs Hbs) as Hb.
  rewrite Hc. subst b.
  destruct (Z.eqb_spec (Z.of_nat (length indices) mod bs) 0); nia.
Qed.

(** ** What a pass does to the optimizers *)

Lemma optimize_steps (ag : agent) (mb : minibatch F) :
  opt_steps (actor_optimizer (optimize ag mb)) = S (opt_steps (actor_optimizer ag)) /\
  opt_steps (critic_optimizer (optimize ag mb)) = S (opt_steps (critic_optimizer ag)).
Proof.
  unfold optimize. destruct (backward_step _ _ _ _ _ _) as [a c].
  split; reflexivity.
Qed.

Lemma minibatch_loop_steps (data : buffer_data F) (ns : list (list F))
    (fs : list F) (bs : Z) (indices : list nat) (starts : list Z) :
  forall (ag : agent) (tot : totals),
  let ag' := fst (fold_left (minibatch_body data ns fs bs indices) starts (ag, tot)) in
  let n := length (minibatch_trace data ns fs bs indices starts ag) in
  opt_steps (actor_optimizer ag') = (opt_steps (actor_optimizer ag) + n)%nat /\
  opt_steps (critic_optimizer ag') = (opt_steps (critic_optimizer ag) + n)%nat.
Proof.
  induction starts as [|start rest IH]; intros ag tot; cbn zeta.
  - simpl. split; lia.
  - simpl. destruct (too_small _ _).
    + apply IH.
    + match goal with
      | |- context [fold_left _ rest (optimize ag ?m, ?t)] =>
          destruct (IH (optimize ag m) t) as [Ha Hc];
          destruct (optimize_steps ag m) as [Hsa Hsc]
      end.
      cbn zeta in Ha, Hc. rewrite Ha, Hc, Hsa, Hsc. cbn [length]. split; lia.
Qed.

(** Every minibatch of the first pass costs each optimizer one step. *)
Lemma perform_update_steps (ag : agent) (fs : list F) (bs : Z)
    (m : pyret) (ag' : agent) :
  1 <= num_epochs (cfg ag) -> bs <> 0 ->
  _perform_update ag fs bs = Ok (m, ag') ->
  opt_steps (actor_optimizer ag')
  = (opt_steps (actor_optimizer ag) + length (first_pass ag fs bs))%nat /\
  opt_steps (critic_optimizer ag')
  = (opt_steps (critic_optimizer ag) + length (first_pass ag fs bs))%nat.
Proof.
  intros Hep Hbs. unfold _perform_update, first_pass.
  destruct (range_list_epochs _ Hep) as [rest ->].
  cbn [for_each]. unfold epoch_body.
  destruct (randperm (rng ag) (buffer_len (buffer ag))) as [indices r].
  unfold py_range. destruct (Z.eqb_spec bs 0) as [|_]; [contradiction|].
  cbn [buffer set_rng].
  pose proof (minibatch_loop_steps (buffer_get (buffer ag))
                (map (normalizer_normalize (state_normalizer ag))
                     (d_states (buffer_get (buffer ag))))
                fs bs indices (range_list (Z.of_nat (buffer_len (buffer ag))) bs)
                (set_rng ag r) totals_init) as Hsteps.
  cbn zeta in Hsteps.
  destruct (fold_left _ _ _) as [ag1 tot1]. cbn [fst] in Hsteps.
  destruct (update_count tot1 =? 0); intros [= _ <-]; exact Hsteps.
Qed.

Lemma step_schedulers_steps (ag : agent) :
  opt_steps (actor_optimizer (step_schedulers ag)) = opt_steps (actor_optimizer ag) /\
  opt_steps (critic_optimizer (step_schedulers ag)) = opt_steps (critic_optimizer ag) /\
  actor (step_schedulers ag) = actor ag /\
  critic (step_schedulers ag) = critic ag /\
  cfg (step_schedulers ag) = cfg ag /\
  rng (step_schedulers ag) = rng ag.
Proof.
  unfold step_schedulers, scheduler_step.
  destruct (_ =? 0); destruct (_ =? 0); repeat split.
Qed.

(** X3: each update reported is one step of each optimizer: with a positive
    batch size, enough samples and at least one epoch, [update_networks]
    reports some [n] under [updates_performed] and leaves both optimizers
    exactly [n] steps further. *)
Theorem X3_one_optimizer_step_per_update (ag : agent) (fs : list F) :
  0 < batch_size (cfg ag) ->
  minimum_required_samples ag <= Z.of_nat (buffer_len (buffer ag)) ->
  1 <= num_epochs (cfg ag) ->
  exists m ag' n,
    update_networks ag fs = Ok (Some m, ag') /\
    m !! "updates_performed" = Some (VInt (Z.of_nat n)) /\
    opt_steps (actor_optimizer ag') = (opt_steps (actor_optimizer ag) + n)%nat /\
    opt_steps (critic_optimizer ag') = (opt_steps (critic_optimizer ag) + n)%nat.
Proof.
  intros Hbs Hlen Hep.
  assert (Hadj : Z.min (batch_size (cfg ag)) (Z.of_nat (buffer_len (buffer ag)))
                 = batch_size (cfg ag)).
  { unfold minimum_required_samples in Hlen. lia. }
  destruct (update_networks_enough ag fs Hlen ltac:(lia)) as (m & mid & Hrun & _ & Hupd).
  rewrite Hadj in Hrun.
  destruct (perform_update_steps ag fs (batch_size (cfg ag)) m mid Hep ltac:(lia) Hrun)
    as [Hsa Hsc].
  destruct (update_networks_updates_performed ag fs Hbs Hlen Hep)
    as (m' & ag' & Hupd' & Hcount).
  rewrite Hupd in Hupd'. injection Hupd' as -> <-.
  destruct (step_schedulers_steps mid) as (Hssa & Hssc & _).
  eexists m', _, (length (first_pass ag fs (batch_size (cfg ag)))).
  split; [exact Hupd|]. split.
  - rewrite Hcount, length_first_pass. reflexivity.
  - cbn [set_buffer actor_optimizer critic_optimizer].
    rewrite Hssa, Hssc. split; assumption.
Qed.

(** ** The size of a minibatch *)

Lemma length_slice {A : Type} (l : list A) (start stop : nat) :
  (start <= stop <= length l)%nat -> length (slice l start stop) = (stop - start)%nat.
Proof.
  intros Hb. unfold slice. rewrite length_take, length_drop. lia.
Qed.

Lemma minibatch_trace_sizes (data : buffer_data F) (ns : list (list F))
    (fs : list F) (bs : Z) (indices : list nat) (starts : list Z) :
  0 < bs -> Forall (fun start => 0 <= start) starts ->
  forall ag : agent,
  length indices = buffer_len (buffer ag) ->
  Forall (fun mb =>
            4 * bs <= 5 * Z.of_nat (length (mb_advantages mb)) /\
            Z.of_nat (length (mb_advantages mb)) <= bs)
         (minibatch_trace data ns fs bs indices starts ag).
Proof.
  intros Hbs Hpos. induction Hpos as [|start rest Hstart _ IH]; intros ag Hlen.
  - constructor.
  - cbn [minibatch_trace].
    destruct (too_small _ _) eqn:Hsmall; [apply IH, Hlen|].
    constructor.
    + destruct (minibatch_lengths ag data ns fs
                  (slice indices (Z.to_nat start)
                     (Z.to_nat (Z.min (start + bs)
                        (Z.of_nat (buffer_len (buffer ag)))))))
        as (_ & _ & _ & _ & Hadv & _).
      unfold too_small in Hsmall. apply Z.ltb_ge in Hsmall.
      cbv zeta in Hadv. rewrite Hadv, length_slice by lia. lia.
    + apply IH. rewrite optimize_buffer. exact Hlen.
Qed.

Lemma range_list_nonnegative (len bs : Z) :
  Forall (fun start => 0 <= start) (range_list len bs).
Proof.
  unfold range_list. destruct (Z.ltb_spec bs 0); [constructor|].
  apply Forall_forall. intros x Hx. apply list_elem_of_In in Hx.
  apply in_map_iff in Hx as (k & <- & _). lia.
Qed.

(** X4: no gradient step is taken on a sliver: when [randperm(n)] returns
    [n] indices, every minibatch the first pass works on has at least 80%
    of [current_batch_size] transitions and at most [current_batch_size]. *)
Theorem X4_minibatch_sizes (ag : agent) (fs : list F) (bs : Z) :
  (forall r n, length (fst (randperm r n)) = n) ->
  0 < bs ->
  Forall (fun mb =>
            4 * bs <= 5 * Z.of_nat (length (mb_advantages mb)) /\
            Z.of_nat (length (mb_advantages mb)) <= bs)
         (first_pass ag fs bs).
Proof.
  intros Hperm Hbs. unfold first_pass.
  pose proof (Hperm (rng ag) (buffer_len (buffer ag))) as Hlen.
  destruct (randperm (rng ag) (buffer_len (buffer ag))) as [indices r].
  cbn [fst] in Hlen.
  apply minibatch_trace_sizes;
    [exact Hbs|apply range_list_nonnegative|exact Hlen].
Qed.

(** ** What [update_networks] reports and leaves behind *)

Lemma perform_update_some (ag : agent) (fs : list F) (bs : Z)
    (m : gmap string (value F)) (ag' : agent) :
  _perform_update ag fs bs = Ok (Some m, ag') ->
  same_frame ag ag' /\
  m !! "learning_rate" = Some (VFloat (opt_lr (actor_optimizer ag))) /\
  m !! "batch_size_used" = Some (VInt bs) /\
  m !! "skipped_reason" = None /\
  (size m =? 0)%nat = false.
Proof.
  intros Hrun.
  pose proof (perform_update_frame _ _ _ _ _ Hrun) as Hframe.
  split; [exact Hframe|].
  destruct (Z_le_gt_dec (num_epochs (cfg ag)) 0) as [Hep|Hep].
  { rewrite perform_update_no_epochs in Hrun by exact Hep. discriminate. }
  destruct (Z.eq_dec bs 0) as [->|Hbs].
  { rewrite perform_update_zero_batch in Hrun by lia. discriminate. }
  destruct (perform_update_first_pass ag fs bs ltac:(lia) Hbs) as (mid & Hrun' & _).
  rewrite Hrun in Hrun'. injection Hrun' as Hm <-.
  destruct Hframe as (_ & _ & _ & _ & Hlr & _).
  destruct (update_count _ =? 0).
  - subst m. unfold zero_metrics. rewrite <- Hlr. repeat split.
  - destruct (averaged_metrics_entries ag' (first_pass ag fs bs) bs)
      as (Hp & _ & _ & _ & _ & _ & _ & _ & Hb & Hl & Hs).
    cbv zeta in Hp, Hb, Hl, Hs. rewrite <- Hm in Hp, Hb, Hl, Hs.
    rewrite Hlr. repeat split; try assumption.
    apply Nat.eqb_neq. intros Hsize. apply map_size_empty_iff in Hsize.
    rewrite Hsize, lookup_empty in Hp. discriminate.
Qed.

(** X5: the learning rate in the metrics is the one the update ran with.
    [update_networks] builds the metrics before it steps the schedulers,
    so on the cycle on which [StepLR] multiplies the rate by 0.7 (every
    hundredth) the dictionary still shows the rate before the decay.  The
    scheduler's counter is at 0 once it is constructed and only grows. *)
Theorem X5_learning_rate_is_reported_before_the_decay (ag : agent) (fs : list F) :
  minimum_required_samples ag <= Z.of_nat (buffer_len (buffer ag)) ->
  batch_size (cfg ag) <> 0 ->
  1 <= num_epochs (cfg ag) ->
  0 <= last_epoch (actor_scheduler ag) ->
  exists m ag',
    update_networks ag fs = Ok (Some m, ag') /\
    m !! "learning_rate" = Some (VFloat (opt_lr (actor_optimizer ag))) /\
    opt_lr (actor_optimizer ag')
    = (if (last_epoch (actor_scheduler ag) + 1) mod 100 =? 0
       then f_mul (opt_lr (actor_optimizer ag)) (f_dec 7 10)
       else opt_lr (actor_optimizer ag)).
Proof.
  intros Hlen Hbs Hep _.
  destruct (update_networks_enough ag fs Hlen Hbs) as (m & mid & Hrun & Hframe & Hupd).
  pose proof (adjusted_batch_size_nonzero _ _ Hlen Hbs) as Hadj.
  destruct (perform_update_first_pass ag fs _ Hep Hadj) as (mid' & Hrun' & _).
  rewrite Hrun in Hrun'. injection Hrun' as Hm _.
  match type of Hm with _ = Some ?x => set (m0 := x) in Hm end.
  clearbody m0. subst m.
  destruct (perform_update_some _ _ _ _ _ Hrun) as (_ & Hlr & _).
  exists m0, (set_buffer (step_schedulers mid)
                         (buffer_clear (buffer (step_schedulers mid)))).
  split; [exact Hupd|]. split; [exact Hlr|].
  destruct Hframe as (_ & _ & Hsa & _ & Hla & _).
  destruct (step_schedulers_fields mid) as (Hstep & _).
  cbn [set_buffer actor_optimizer].
  apply (f_equal snd) in Hstep. cbn [snd] in Hstep. rewrite Hstep.
  unfold scheduler_step. cbn [snd]. rewrite <- Hsa.
  destruct ((last_epoch (actor_scheduler ag) + 1) mod 100 =? 0);
    cbn [opt_lr]; rewrite Hla; reflexivity.
Qed.

(** X6: with no epoch configured ([num_epochs <= 0]) and enough samples,
    [update_networks] returns [None] instead of a dictionary; it still
    steps both schedulers and empties the buffer, so the stored transitions
    are dropped without a single gradient step. *)
Theorem X6_no_epochs_drops_the_buffer_untrained (ag : agent) (fs : list F) :
  minimum_required_samples ag <= Z.of_nat (buffer_len (buffer ag)) ->
  num_epochs (cfg ag) <= 0 ->
  exists ag',
    update_networks ag fs = Ok (None, ag') /\
    buf_data (buffer ag') = [] /\
    actor ag' = actor ag /\
    critic ag' = critic ag /\
    opt_steps (actor_optimizer ag') = opt_steps (actor_optimizer ag) /\
    opt_steps (critic_optimizer ag') = opt_steps (critic_optimizer ag) /\
    last_epoch (actor_scheduler ag') = last_epoch (actor_scheduler ag) + 1 /\
    last_epoch (critic_scheduler ag') = last_epoch (critic_scheduler ag) + 1.
Proof.
  intros Hlen Hep.
  exists (set_buffer (step_schedulers ag) (buffer_clear (buffer (step_schedulers ag)))).
  split.
  - unfold update_networks.
    destruct (Z.ltb_spec (Z.of_nat (buffer_len (buffer ag)))
                         (minimum_required_samples ag)); [lia|].
    rewrite perform_update_no_epochs by exact Hep. reflexivity.
  - destruct (step_schedulers_steps ag) as (Ha & Hc & Hact & Hcr & _).
    destruct (step_schedulers_fields ag) as (Hsa & Hsc & _).
    apply (f_equal fst) in Hsa, Hsc. cbn [fst scheduler_step] in Hsa, Hsc.
    cbn [set_buffer buffer buffer_clear buf_data actor critic actor_optimizer
         critic_optimizer actor_scheduler critic_scheduler].
    rewrite Hsa, Hsc. repeat split; assumption.
Qed.

Lemma update_networks_zero_batch (ag : agent) (fs : list F) :
  batch_size (cfg ag) = 0 -> 1 <= num_epochs (cfg ag) ->
  update_networks ag fs = Raise ValueError.
Proof.
  intros Hbs Hep. unfold update_networks, minimum_required_samples. rewrite Hbs.
  destruct (Z.ltb_spec (Z.of_nat (buffer_len (buffer ag))) (0 * 2)); [lia|].
  replace (Z.min 0 (Z.of_nat (buffer_len (buffer ag)))) with 0 by lia.
  rewrite perform_update_zero_batch by exact Hep. reflexivity.
Qed.

(** X7: a batch size of zero with at least one epoch makes every network
    update fail: [update_networks] raises [ValueError] (from
    [range(0, n, 0)]) whatever the buffer holds, and so does [update] on
    every transition that ends an episode. *)
Theorem X7_zero_batch_size_raises (ag : agent) (fs : list F) :
  batch_size (cfg ag) = 0 ->
  1 <= num_epochs (cfg ag) ->
  update_networks ag fs = Raise ValueError /\
  forall (s : list F) (a : action F) (r : F) (ns : list F),
    (buffer_len (buffer ag) < buf_size (buffer ag))%nat ->
    update ag s a r ns true = Raise ValueError.
Proof.
  intros Hbs Hep. split; [apply update_networks_zero_batch; assumption|].
  intros s a r ns Hroom.
  destruct (update_unfold ag s a r ns true Hroom) as [_ ->].
  rewrite prepare_transition_spec. cbn [fst snd andb].
  unfold minimum_required_samples at 1. cbn [set_buffer cfg set_rng set_state_normalizer].
  rewrite Hbs.
  match goal with
  | |- (if 0 * 2 <=? ?len then _ else _) = _ =>
      destruct (Z.leb_spec (0 * 2) len); [|lia]
  end.
  apply update_networks_zero_batch; [exact Hbs|exact Hep].
Qed.

(** ** [update], call by call *)

(** The agent [update] hands on once the transition is in the buffer. *)
Lemma update_stored_agent (ag : agent) (s : list F) (a : action F) (r : F)
    (d : bool) :
  let t := fst (prepare_transition ag s a r d) in
  let ag2 :=
    set_buffer (snd (prepare_transition ag s a r d))
               (Buffer (buf_size (buffer ag)) (buf_data (buffer ag) ++ [t])) in
  cfg ag2 = cfg ag /\
  actor ag2 = actor ag /\
  critic ag2 = critic ag /\
  actor_optimizer ag2 = actor_optimizer ag /\
  critic_optimizer ag2 = critic_optimizer ag /\
  actor_scheduler ag2 = actor_scheduler ag /\
  critic_scheduler ag2 = critic_scheduler ag /\
  state_normalizer ag2 = normalizer_update (state_normalizer ag) [s] /\
  buffer_len (buffer ag2) = S (buffer_len (buffer ag)).
Proof.
  cbv zeta. rewrite prepare_transition_spec. cbn [fst snd].
  repeat split. unfold buffer_len. cbn [set_buffer buffer buf_data].
  rewrite length_app. cbn [length]. lia.
Qed.

(** When [update] only stores. *)
Lemma update_only_stores (ag : agent) (s : list F) (a : action F) (r : F)
    (ns : list F) (d : bool) :
  (buffer_len (buffer ag) < buf_size (buffer ag))%nat ->
  d = false \/ Z.of_nat (buffer_len (buffer ag)) + 1 < 2 * batch_size (cfg ag) ->
  exists ag',
    update ag s a r ns d = Ok (Some ∅, ag') /\
    buf_data (buffer ag')
    = buf_data (buffer ag) ++ [fst (prepare_transition ag s a r d)] /\
    actor ag' = actor ag /\
    critic ag' = critic ag /\
    actor_optimizer ag' = actor_optimizer ag /\
    critic_optimizer ag' = critic_optimizer ag /\
    actor_scheduler ag' = actor_scheduler ag /\
    critic_scheduler ag' = critic_scheduler ag /\
    buf_size (buffer ag') = buf_size (buffer ag).
Proof.
  intros Hroom Hquiet.
  destruct (update_unfold ag s a r ns d Hroom) as [_ Hupd].
  destruct (update_stored_agent ag s a r d)
    as (Hcfg & Ha & Hc & Hoa & Hoc & Hsa & Hsc & _ & Hlen).
  cbv zeta in Hupd, Hcfg, Ha, Hc, Hoa, Hoc, Hsa, Hsc, Hlen.
  eexists. split.
  - rewrite Hupd. unfold minimum_required_samples. rewrite Hcfg, Hlen.
    destruct Hquiet as [->|Hshort]; [reflexivity|].
    destruct (Z.leb_spec (batch_size (cfg ag) * 2)
                         (Z.of_nat (S (buffer_len (buffer ag))))); [lia|].
    rewrite andb_false_r. reflexivity.
  - repeat split; assumption.
Qed.

(** X8: as long as the episode goes on, or the buffer with the new
    transition still holds fewer than [2 * batch_size], [update] only
    stores: it returns the empty dictionary, the buffer is the old one with
    exactly one transition appended, and parameters, optimizers and
    schedulers are untouched.  A finished episode that is too short stays
    in the buffer. *)
Theorem X8_update_only_stores (ag : agent) (s : list F) (a : action F) (r : F)
    (ns : list F) (d : bool) :
  (buffer_len (buffer ag) < buf_size (buffer ag))%nat ->
  d = false \/ Z.of_nat (buffer_len (buffer ag)) + 1 < 2 * batch_size (cfg ag) ->
  exists ag',
    update ag s a r ns d = Ok (Some ∅, ag') /\
    buf_data (buffer ag')
    = buf_data (buffer ag) ++ [fst (prepare_transition ag s a r d)] /\
    actor ag' = actor ag /\
    critic ag' = critic ag /\
    actor_optimizer ag' = actor_optimizer ag /\
    critic_optimizer ag' = critic_optimizer ag /\
    actor_scheduler ag' = actor_scheduler ag /\
    critic_scheduler ag' = critic_scheduler ag.
Proof.
  intros Hroom Hquiet.
  destruct (update_only_stores ag s a r ns d Hroom Hquiet)
    as (ag' & Hupd & Hdata & Ha & Hc & Hoa & Hoc & Hsa & Hsc & _).
  exists ag'. split; [exact Hupd|]. split; [exact Hdata|].
  repeat split; assumption.
Qed.

Lemma update_networks_some (ag : agent) (fs : list F)
    (m : gmap string (value F)) (ag' : agent) :
  minimum_required_samples ag <= Z.of_nat (buffer_len (buffer ag)) ->
  update_networks ag fs = Ok (Some m, ag') ->
  m !! "skipped_reason" = None /\ buf_data (buffer ag') = [].
Proof.
  intros Hlen. unfold update_networks.
  destruct (Z.ltb_spec (Z.of_nat (buffer_len (buffer ag)))
                       (minimum_required_samples ag)); [lia|].
  destruct (_perform_update ag fs _) as [[m0 mid]|e] eqn:Hrun; [|discriminate].
  intros [= -> <-].
  destruct (perform_update_some _ _ _ _ _ Hrun) as (_ & _ & _ & Hskip & _).
  split; [exact Hskip|reflexivity].
Qed.

(** X9: the ['skipped_reason'] record of [update_networks] never comes out
    of [update]: [update] asks for a network update only when the buffer
    is long enough, so whatever dictionary it returns has no
    ['skipped_reason'] entry. *)
Theorem X9_update_never_reports_skipped_reason (ag : agent) (s : list F)
    (a : action F) (r : F) (ns : list F) (d : bool)
    (m : gmap string (value F)) (ag' : agent) :
  update ag s a r ns d = Ok (Some m, ag') ->
  m !! "skipped_reason" = None.
Proof.
  destruct (Nat.ltb_spec (buffer_len (buffer ag)) (buf_size (buffer ag)))
    as [Hroom|Hfull].
  - destruct (update_unfold ag s a r ns d Hroom) as [_ ->].
    destruct (d && _) eqn:Htrigger.
    + apply andb_true_iff in Htrigger as [_ Hen]. apply Z.leb_le in Hen.
      intros Hupd. exact (proj1 (update_networks_some _ _ _ _ Hen Hupd)).
    + intros [= <- _]. apply lookup_empty.
  - unfold update. rewrite prepare_transition_spec.
    cbn [set_rng set_state_normalizer buffer]. unfold buffer_store.
    destruct (Nat.ltb_spec (buffer_len (buffer ag)) (buf_size (buffer ag))); [lia|].
    discriminate.
Qed.

(** X10: what [update] leaves in the buffer.  With room in the buffer and
    a non-zero batch size [update] returns, and the buffer afterwards is
    empty when the transition ended an episode and brought the buffer to
    [2 * batch_size], one longer than before otherwise; only in the first
    case can the dictionary returned be non-empty. *)
Theorem X10_buffer_after_update (ag : agent) (s : list F) (a : action F) (r : F)
    (ns : list F) (d : bool) :
  (buffer_len (buffer ag) < buf_size (buffer ag))%nat ->
  batch_size (cfg ag) <> 0 ->
  let trained :=
    d && (2 * batch_size (cfg ag) <=? Z.of_nat (buffer_len (buffer ag)) + 1) in
  exists m ag',
    update ag s a r ns d = Ok (m, ag') /\
    buffer_len (buffer ag')
    = (if trained then 0%nat else S (buffer_len (buffer ag))) /\
    (trained = false -> m = Some ∅).
Proof.
  intros Hroom Hbs trained.
  destruct (update_unfold ag s a r ns d Hroom) as [_ Hupd].
  destruct (update_stored_agent ag s a r d)
    as (Hcfg & _ & _ & _ & _ & _ & _ & _ & Hlen).
  cbv zeta in Hupd, Hcfg, Hlen.
  assert (Htrig : d && (minimum_required_samples
                          (set_buffer (snd (prepare_transition ag s a r d))
                             (Buffer (buf_size (buffer ag))
                                (buf_data (buffer ag)
                                 ++ [fst (prepare_transition ag s a r d)])))
                        <=? Z.of_nat (buffer_len (buffer
                          (set_buffer (snd (prepare_transition ag s a r d))
                             (Buffer (buf_size (buffer ag))
                                (buf_data (buffer ag)
                                 ++ [fst (prepare_transition ag s a r d)]))))))
                  = trained).
  { subst trained. unfold minimum_required_samples. rewrite Hcfg, Hlen.
    f_equal. destruct (Z.leb_spec (batch_size (cfg ag) * 2)
                                  (Z.of_nat (S (buffer_len (buffer ag)))));
      destruct (Z.leb_spec (2 * batch_size (cfg ag))
                           (Z.of_nat (buffer_len (buffer ag)) + 1));
      try reflexivity; lia. }
  rewrite Htrig in Hupd. rewrite Hupd.
  destruct trained eqn:Htrained.
  - apply andb_true_iff in Htrig as [_ Hen]. apply Z.leb_le in Hen.
    destruct (update_networks_enough _ ns Hen ltac:(rewrite Hcfg; exact Hbs))
      as (m & mid & _ & _ & Hnet).
    eexists _, _. split; [exact Hnet|]. split; [reflexivity|discriminate].
  - eexists _, _. split; [reflexivity|]. split; [exact Hlen|reflexivity].
Qed.

(** ** When [update] returns *)

Lemma update_networks_returns_some (ag : agent) (fs : list F) :
  minimum_required_samples ag <= Z.of_nat (buffer_len (buffer ag)) ->
  batch_size (cfg ag) <> 0 ->
  1 <= num_epochs (cfg ag) ->
  exists m ag', update_networks ag fs = Ok (Some m, ag').
Proof.
  intros Hlen Hbs Hep.
  destruct (update_networks_enough ag fs Hlen Hbs) as (m & mid & Hrun & _ & Hupd).
  pose proof (adjusted_batch_size_nonzero _ _ Hlen Hbs) as Hadj.
  destruct (perform_update_first_pass ag fs _ Hep Hadj) as (mid' & Hrun' & _).
  rewrite Hrun in Hrun'. injection Hrun' as -> _. eauto.
Qed.

Lemma update_returns_some (ag : agent) (s : list F) (a : action F) (r : F)
    (ns : list F) (d : bool) :
  (buffer_len (buffer ag) < buf_size (buffer ag))%nat ->
  batch_size (cfg ag) <> 0 ->
  1 <= num_epochs (cfg ag) ->
  exists m ag', update ag s a r ns d = Ok (Some m, ag').
Proof.
  intros Hroom Hbs Hep.
  destruct (update_unfold ag s a r ns d Hroom) as [_ ->].
  destruct (update_stored_agent ag s a r d) as (Hcfg & _).
  cbv zeta in Hcfg.
  destruct (d && _) eqn:Htrigger; [|eauto].
  apply andb_true_iff in Htrigger as [_ Hen]. apply Z.leb_le in Hen.
  apply update_networks_returns_some; [exact Hen|rewrite Hcfg..]; assumption.
Qed.

(** [update] returns whenever there is room and the batch size is not
    zero; the buffer grows by one at most and keeps its capacity. *)
Lemma update_returns_bounded (ag : agent) (s : list F) (a : action F) (r : F)
    (ns : list F) (d : bool) :
  (buffer_len (buffer ag) < buf_size (buffer ag))%nat ->
  batch_size (cfg ag) <> 0 ->
  exists m ag',
    update ag s a r ns d = Ok (m, ag') /\
    (buffer_len (buffer ag') <= S (buffer_len (buffer ag)))%nat /\
    buf_size (buffer ag') = buf_size (buffer ag) /\
    cfg ag' = cfg ag.
Proof.
  intros Hroom Hbs.
  destruct (update_unfold ag s a r ns d Hroom) as [_ ->].
  destruct (update_stored_agent ag s a r d)
    as (Hcfg & _ & _ & _ & _ & _ & _ & _ & Hlen).
  cbv zeta in Hcfg, Hlen.
  match goal with
  | |- context [update_networks ?x ns] => set (ag2 := x) in *
  end.
  assert (Hsize : buf_size (buffer ag2) = buf_size (buffer ag)) by reflexivity.
  destruct (d && _) eqn:Htrigger.
  - apply andb_true_iff in Htrigger as [_ Hen]. apply Z.leb_le in Hen.
    destruct (update_networks_enough ag2 ns Hen ltac:(rewrite Hcfg; exact Hbs))
      as (m & mid & _ & Hframe & Hnet).
    destruct Hframe as (Hc & _ & _ & _ & _ & _ & Hb).
    destruct (step_schedulers_fields mid) as (_ & _ & _ & Hsb).
    destruct (step_schedulers_steps mid) as (_ & _ & _ & _ & Hsc & _).
    eexists _, _. split; [exact Hnet|].
    cbn [set_buffer buffer buffer_clear buf_size cfg]. unfold buffer_len at 1.
    rewrite Hsb, Hsc, <- Hb, <- Hc. cbn [buffer_clear buf_data buf_size length].
    split; [lia|]. split; assumption.
  - eexists _, _. split; [reflexivity|]. split; [lia|]. split; assumption.
Qed.

(** ** The losses of a minibatch, unfolded *)

Lemma minibatch_losses (ag : agent) (data : buffer_data F) (ns : list (list F))
    (fs : list F) (idx : list nat) :
  let mb := minibatch_forward ag data ns fs idx in
  let ratio := t_exp (t_sub (mb_log_probs mb) (mb_old_log_probs mb)) in
  mb_policy_loss mb
  = f_neg (t_mean (t_min (t_mul ratio (mb_advantages mb))
                         (t_mul (t_clamp ratio (f_sub f_one (clip_range (cfg ag)))
                                         (f_add f_one (clip_range (cfg ag))))
                                (mb_advantages mb)))) /\
  mb_value_loss mb
  = f_mul (f_dec 1 2)
      (t_mean (t_max (t_pow2 (t_sub (mb_values mb) (mb_returns mb)))
                     (t_pow2 (t_sub (t_add (mb_old_values mb)
                                       (t_clamp (t_sub (mb_values mb) (mb_old_values mb))
                                                (f_neg (clip_range (cfg ag)))
                                                (clip_range (cfg ag))))
                                    (mb_returns mb))))).
Proof.
  cbv zeta. unfold minibatch_forward.
  destruct (compute_gae _ _ _ _ _) as [advantages returns]. split; reflexivity.
Qed.

End Coverage.

(** * Properties of the trainer *)

Section TrainerProperties.
Context {F : Type} `{Scalar F} `{Collaborators F} `{!Surroundings F}.

(** ** Loops that may [break] *)

Lemma for_each_total {A S : Type} (body : S -> A -> result (flow S S))
    (I : S -> S -> Prop) :
  (forall s, I s s) ->
  (forall a b c, I a b -> I b c -> I a c) ->
  (forall s x, exists s',
     (body s x = Ok (@Continue S S s') \/ body s x = Ok (@Return S S s')) /\ I s s') ->
  forall xs s, exists s',
    (for_each body xs s = Ok (@Continue S S s')
     \/ for_each body xs s = Ok (@Return S S s')) /\ I s s'.
Proof.
  intros Hrefl Htrans Hbody. induction xs as [|x xs IH]; intros s.
  - exists s. split; [left; reflexivity|apply Hrefl].
  - cbn [for_each]. destruct (Hbody s x) as (s1 & [Hs|Hs] & HI); rewrite Hs.
    + destruct (IH s1) as (s2 & Hfor & HI2).
      exists s2. split; [exact Hfor|]. eapply Htrans; eassumption.
    + exists s1. split; [right; reflexivity|exact HI].
Qed.

Lemma for_each_until {A S : Type} (body : S -> A -> result (flow S S))
    (P Q : S -> Prop) :
  (forall s x s', P s -> body s x = Ok (@Continue S S s') -> P s') ->
  (forall s x s', P s -> body s x = Ok (@Return S S s') -> P s' \/ Q s') ->
  forall xs s s', P s ->
    for_each body xs s = Ok (@Continue S S s')
    \/ for_each body xs s = Ok (@Return S S s') ->
    P s' \/ Q s'.
Proof.
  intros Hcont Hret. induction xs as [|x xs IH]; intros s s' HP Hfor.
  - cbn [for_each] in Hfor. destruct Hfor as [[= <-]|[=]]. left. exact HP.
  - cbn [for_each] in Hfor.
    destruct (body s x) as [[s1|s1]|e] eqn:Hbody.
    + apply (IH s1 s'); [eapply Hcont; eassumption|exact Hfor].
    + destruct Hfor as [[=]|[= <-]]. eapply Hret; eassumption.
    + destruct Hfor as [[=]|[=]].
Qed.

(** ** [act] inside an episode *)

Lemma only_rng_refl (a : agent) : only_rng a a.
Proof. exists (rng a). destruct a. reflexivity. Qed.

Lemma only_rng_trans (a b c : agent) : only_rng a b -> only_rng b c -> only_rng a c.
Proof. intros [r ->] [r' ->]. exists r'. reflexivity. Qed.

Lemma act_only_rng (ag : agent) (state : list F) : only_rng ag (snd (act ag state)).
Proof.
  unfold act, get_action_and_log_prob.
  destruct (dist_sample _ _) as [sampled r]. exists r. reflexivity.
Qed.

Lemma evaluation_frame_refl (st : episode_state) : evaluation_frame st st.
Proof. split; [apply only_rng_refl|repeat split]. Qed.

Lemma evaluation_frame_trans (a b c : episode_state) :
  evaluation_frame a b -> evaluation_frame b c -> evaluation_frame a c.
Proof.
  intros (Hr & ? & ? & ? & ? & ?) (Hr' & ? & ? & ? & ? & ?).
  split; [eapply only_rng_trans; eassumption|]. repeat split; congruence.
Qed.

Lemma episode_step_evaluation (st : episode_state) (step : Z) :
  exists st',
    (episode_step false st step = Ok (@Continue _ _ st')
     \/ episode_step false st step = Ok (@Return _ _ st'))
    /\ evaluation_frame st st'.
Proof.
  unfold episode_step.
  pose proof (act_only_rng (trainer_agent (ep_trainer st)) (ep_state st)) as Hact.
  destruct (act (trainer_agent (ep_trainer st)) (ep_state st)) as [action ag].
  destruct (env_step (trainer_env (ep_trainer st)) action)
    as [[[[next_state reward] terminated] truncated] env].
  cbn [snd] in Hact.
  destruct (terminated || truncated); eexists;
    (split; [(left; reflexivity) || (right; reflexivity)|]);
    (split; [exact Hact|repeat split]).
Qed.

(** In the model, where the environment's calls return, so does an
    evaluation episode, within the frame of its steps. *)
Lemma evaluation_episode_runs (tr : trainer) (return_results : bool) :
  exists ret res tr',
    _run_episode tr false return_results = Ok ((ret, ∅, res), tr') /\
    only_rng (agent_reset (trainer_agent tr)) (trainer_agent tr') /\
    train_steps tr' = train_steps tr /\
    avg_metrics tr' = avg_metrics tr /\
    (is_Some res <-> return_results = true).
Proof.
  unfold _run_episode.
  destruct (env_reset (trainer_env tr)) as [state env].
  match goal with
  | |- context [for_each _ ?xs ?st] =>
      destruct (for_each_total (episode_step false) evaluation_frame
                  evaluation_frame_refl evaluation_frame_trans
                  episode_step_evaluation xs st)
        as (st' & Hfor & Hframe)
  end.
  destruct Hframe as (Hrng & _ & Hsteps & Havg & Hacc & Hnum).
  cbn [ep_trainer trainer_agent train_steps avg_metrics ep_accumulated
       ep_num_updates] in Hrng, Hsteps, Havg, Hacc, Hnum.
  assert (Hres : forall x : Results,
            is_Some (if return_results then Some x else None)
            <-> return_results = true).
  { intros x. destruct return_results; split; intros Hx;
      try reflexivity; try discriminate; [eexists; reflexivity|].
    destruct Hx as [y Hy]. discriminate. }
  destruct Hfor as [-> | ->]; rewrite Hnum; cbn [Z.ltb Z.compare];
    (eexists _, _, _; split; [reflexivity|]);
    (split; [exact Hrng|]);
    repeat (split; [reflexivity || assumption|]); apply Hres.
Qed.

(** X12: an evaluation episode ([training=False]) that returns has taught
    the agent nothing.  Apart from the random generator that [act] draws
    from, the agent leaves the episode as [Agent.reset] left it (same
    buffer, parameters, optimizers, schedulers and normalizer);
    [train_steps] and the metrics history have not moved, the averaged
    metrics are empty, and results come back exactly when asked for.
    Nothing is said of an episode in which a call of the environment
    raises. *)
Theorem X12_evaluation_episode_leaves_the_agent (tr : trainer) (return_results : bool)
    (ret : F) (avg : gmap string (value F)) (res : option Results) (tr' : trainer) :
  _run_episode tr false return_results = Ok ((ret, avg, res), tr') ->
  avg = ∅ /\
  only_rng (agent_reset (trainer_agent tr)) (trainer_agent tr') /\
  buffer (trainer_agent tr') = buffer (agent_reset (trainer_agent tr)) /\
  actor (trainer_agent tr') = actor (agent_reset (trainer_agent tr)) /\
  critic (trainer_agent tr') = critic (agent_reset (trainer_agent tr)) /\
  actor_optimizer (trainer_agent tr') = actor_optimizer (agent_reset (trainer_agent tr)) /\
  critic_optimizer (trainer_agent tr')
  = critic_optimizer (agent_reset (trainer_agent tr)) /\
  actor_scheduler (trainer_agent tr') = actor_scheduler (agent_reset (trainer_agent tr)) /\
  critic_scheduler (trainer_agent tr')
  = critic_scheduler (agent_reset (trainer_agent tr)) /\
  state_normalizer (trainer_agent tr')
  = state_normalizer (agent_reset (trainer_agent tr)) /\
  train_steps tr' = train_steps tr /\
  avg_metrics tr' = avg_metrics tr /\
  (is_Some res <-> return_results = true).
Proof.
  intros Hrun.
  destruct (evaluation_episode_runs tr return_results)
    as (ret0 & res0 & tr0 & Hrun0 & Hrng & Hsteps & Havg & Hres).
  rewrite Hrun0 in Hrun. injection Hrun as <- <- <- <-.
  split; [reflexivity|]. split; [exact Hrng|].
  destruct Hrng as [r ->].
  repeat (split; [reflexivity || assumption|]). exact Hres.
Qed.

(** ** A training episode *)

Lemma update_truthy (ag : agent) (s : list F) (a : action F) (r : F)
    (ns : list F) (d : bool) (m : pyret) (ag' : agent) :
  update ag s a r ns d = Ok (m, ag') ->
  truthy m = true ->
  d = true /\
  exists m0, m = Some m0 /\ (size m0 =? 0)%nat = false /\ buf_data (buffer ag') = [].
Proof.
  intros Hupd Htruthy.
  destruct m as [m0|]; [|discriminate].
  cbn [truthy] in Htruthy. apply negb_true_iff in Htruthy.
  destruct (Nat.ltb_spec (buffer_len (buffer ag)) (buf_size (buffer ag)))
    as [Hroom|Hfull].
  - destruct (update_unfold ag s a r ns d Hroom) as [_ Hunfold].
    rewrite Hunfold in Hupd.
    destruct (d && _) eqn:Htrigger.
    + apply andb_true_iff in Htrigger as [-> Hen]. apply Z.leb_le in Hen.
      split; [reflexivity|]. exists m0. split; [reflexivity|]. split; [exact Htruthy|].
      exact (proj2 (update_networks_some _ _ _ _ Hen Hupd)).
    + injection Hupd as <- _. rewrite map_size_empty in Htruthy. discriminate.
  - unfold update in Hupd. rewrite prepare_transition_spec in Hupd.
    cbn [set_rng set_state_normalizer buffer] in Hupd. unfold buffer_store in Hupd.
    destruct (Nat.ltb_spec (buffer_len (buffer ag)) (buf_size (buffer ag))); [lia|].
    discriminate.
Qed.

Lemma episode_step_training (st : episode_state) (step : Z) :
  no_update_yet st ->
  (forall st', episode_step true st step = Ok (@Continue _ _ st') -> no_update_yet st') /\
  (forall st', episode_step true st step = Ok (@Return _ _ st') ->
     no_update_yet st' \/ exists m, just_updated m st').
Proof.
  intros [Hnum Hacc]. unfold episode_step.
  destruct (act (trainer_agent (ep_trainer st)) (ep_state st)) as [action ag] eqn:Hact.
  destruct (env_step (trainer_env (ep_trainer st)) action)
    as [[[[next_state reward] terminated] truncated] env].
  destruct (update ag (ep_state st) action reward next_state (terminated || truncated))
    as [[metrics ag']|e] eqn:Hupd; [|split; intros st'; discriminate].
  destruct (truthy metrics) eqn:Htruthy.
  - destruct (update_truthy _ _ _ _ _ _ _ _ Hupd Htruthy)
      as (Hdone & m0 & -> & Hsize & Hempty).
    rewrite Hdone in *. split; intros st'; [discriminate|].
    intros [= <-]. right. exists m0.
    unfold just_updated. cbn [ep_num_updates ep_accumulated ep_trainer trainer_agent
                               default].
    rewrite Hnum, Hacc.
    split; [reflexivity|]. split; [reflexivity|]. split; [exact Hsize|].
    split; [exact Hempty|].
    exists (trainer_agent (ep_trainer st)), (ep_state st), reward, next_state.
    rewrite Hact. exact Hupd.
  - split; intros st'; destruct (terminated || truncated); try discriminate;
      intros [= <-]; [|left]; split; assumption.
Qed.

(** What the episode's average keeps of an update's dictionary: the numbers,
    as floats, each divided by the number of updates, which is one. *)
Lemma averaged_once_lookup (m : gmap string (value F)) (k : string) :
  ((fun v => VFloat (f_div (to_float v) (f_of_Z 1))) <$> accumulate_metrics ∅ m) !! k
  = match m !! k with
    | Some (VFloat x) => Some (VFloat (f_div (f_add (f_of_Z 0) x) (f_of_Z 1)))
    | Some (VInt z) => Some (VFloat (f_div (f_of_Z (0 + z)) (f_of_Z 1)))
    | Some (VStr _) | None => None
    end.
Proof.
  rewrite lookup_fmap. unfold accumulate_metrics.
  rewrite lookup_merge, lookup_empty.
  destruct (m !! k) as [[x|z|s]|]; reflexivity.
Qed.

(** X13: an episode has at most one network update, and it is the last
    thing that happens in it.  Whenever a training episode returns
    averaged metrics that are not empty, there is one call of
    [Agent.update], on a transition that ends the episode and with the
    action [act] chose in that state, that returned a non-empty dictionary
    together with the very agent the episode ends with; the averaged
    metrics are the numeric entries of that dictionary, as floats, each
    divided by one, its strings are dropped, and the agent's buffer is
    empty. *)
Theorem X13_episode_metrics_come_from_one_final_update (tr : trainer)
    (return_results : bool) (ret : F) (avg : gmap string (value F))
    (res : option Results) (tr' : trainer) :
  _run_episode tr true return_results = Ok ((ret, avg, res), tr') ->
  avg = ∅ \/
  exists (m : gmap string (value F)) (ag : agent) (state : list F) (reward : F)
         (next_state : list F),
    update (snd (act ag state)) state (fst (act ag state)) reward next_state true
    = Ok (Some m, trainer_agent tr') /\
    (size m =? 0)%nat = false /\
    avg = (fun v => VFloat (f_div (to_float v) (f_of_Z 1))) <$> accumulate_metrics ∅ m /\
    (forall k : string,
       avg !! k
       = match m !! k with
         | Some (VFloat x) => Some (VFloat (f_div (f_add (f_of_Z 0) x) (f_of_Z 1)))
         | Some (VInt z) => Some (VFloat (f_div (f_of_Z (0 + z)) (f_of_Z 1)))
         | Some (VStr _) | None => None
         end) /\
    buf_data (buffer (trainer_agent tr')) = [].
Proof.
  unfold _run_episode.
  destruct (env_reset (trainer_env tr)) as [state env].
  match goal with
  | |- context [for_each _ ?xs ?st] =>
      pose proof (for_each_until (episode_step true) no_update_yet
                    (fun s => exists m, just_updated m s)
                    (fun s x s' HP => proj1 (episode_step_training s x HP) s')
                    (fun s x s' HP => proj2 (episode_step_training s x HP) s')
                    xs st) as Huntil;
      destruct (for_each (episode_step true) xs st) as [[st'|st']|e] eqn:Hfor
  end; [| |discriminate].
  - destruct (Huntil st' ltac:(split; reflexivity) ltac:(left; reflexivity))
      as [[Hnum _]|(m & Hnum & Hacc & Hsize & Hempty & ag & s & r & ns & Hupd)];
      rewrite Hnum; cbn [Z.ltb Z.compare]; intros [= _ <- _ <-].
    + left. reflexivity.
    + right. exists m, ag, s, r, ns. rewrite Hacc.
      split; [exact Hupd|]. split; [exact Hsize|]. split; [reflexivity|].
      split; [apply averaged_once_lookup|exact Hempty].
  - destruct (Huntil st' ltac:(split; reflexivity) ltac:(right; reflexivity))
      as [[Hnum _]|(m & Hnum & Hacc & Hsize & Hempty & ag & s & r & ns & Hupd)];
      rewrite Hnum; cbn [Z.ltb Z.compare]; intros [= _ <- _ <-].
    + left. reflexivity.
    + right. exists m, ag, s, r, ns. rewrite Hacc.
      split; [exact Hupd|]. split; [exact Hsize|]. split; [reflexivity|].
      split; [apply averaged_once_lookup|exact Hempty].
Qed.

(** ** When a training episode runs to its end *)

Lemma for_each_counted {A S : Type} (body : S -> A -> result (flow S S))
    (J : nat -> S -> Prop) :
  (forall n s x, J (Datatypes.S n) s ->
     exists s',
       (body s x = Ok (@Continue S S s') \/ body s x = Ok (@Return S S s'))
       /\ J n s') ->
  forall xs s, J (length xs) s ->
  exists s' n,
    (for_each body xs s = Ok (@Continue S S s')
     \/ for_each body xs s = Ok (@Return S S s')) /\ J n s'.
Proof.
  intros Hbody. induction xs as [|x xs IH]; intros s HJ.
  - exists s, 0%nat. split; [left; reflexivity|exact HJ].
  - cbn [for_each]. destruct (Hbody _ s x HJ) as (s1 & [Hs|Hs] & HJ1); rewrite Hs.
    + apply IH. exact HJ1.
    + exists s1, (length xs). split; [right; reflexivity|exact HJ1].
Qed.

Lemma length_range_list_1 (n : Z) : length (range_list n 1) = Z.to_nat n.
Proof.
  unfold range_list. cbn [Z.ltb Z.compare]. rewrite length_map, length_seq.
  f_equal. rewrite Z.div_1_r. lia.
Qed.

Lemma episode_step_returns (t0 total : Z) (n : nat) (st : episode_state) (step : Z) :
  let room k s :=
    (buffer_len (buffer (trainer_agent (ep_trainer s))) + k
     <= buf_size (buffer (trainer_agent (ep_trainer s))))%nat /\
    batch_size (cfg (trainer_agent (ep_trainer s))) <> 0 /\
    t0 <= train_steps (ep_trainer s) /\
    train_steps (ep_trainer s) + Z.of_nat k <= t0 + total in
  room (S n) st ->
  exists st',
    (episode_step true st step = Ok (@Continue _ _ st')
     \/ episode_step true st step = Ok (@Return _ _ st'))
    /\ room n st'.
Proof.
  intros room (Hroom & Hbs & Hlow & Hhigh). unfold episode_step.
  destruct (act_only_rng (trainer_agent (ep_trainer st)) (ep_state st)) as [rg Hact].
  destruct (act (trainer_agent (ep_trainer st)) (ep_state st)) as [action ag].
  cbn [snd] in Hact. subst ag.
  destruct (env_step (trainer_env (ep_trainer st)) action)
    as [[[[next_state reward] terminated] truncated] env].
  destruct (update_returns_bounded
              (set_rng (trainer_agent (ep_trainer st)) rg) (ep_state st) action
              reward next_state (terminated || truncated))
    as (m & ag' & Hupd & Hlen & Hsize & Hcfg).
  { cbn [set_rng buffer]. lia. }
  { exact Hbs. }
  rewrite Hupd. cbn [set_rng buffer cfg] in Hlen, Hsize, Hcfg.
  destruct (truthy m); destruct (terminated || truncated); eexists;
    (split; [(left; reflexivity) || (right; reflexivity)|]);
    subst room; cbn [ep_trainer trainer_agent train_steps];
    rewrite Hsize, Hcfg; (split; [lia|]; split; [assumption|]; split; lia).
Qed.

(** A training episode returns when the buffer has room for all its steps. *)
Lemma training_episode_returns (tr : trainer) (return_results : bool) :
  (buffer_len (buffer (agent_reset (trainer_agent tr)))
   + Z.to_nat (max_steps_per_episode tr)
   <= buf_size (buffer (agent_reset (trainer_agent tr))))%nat ->
  batch_size (cfg (agent_reset (trainer_agent tr))) <> 0 ->
  exists ret avg res tr',
    _run_episode tr true return_results = Ok ((ret, avg, res), tr') /\
    train_steps tr <= train_steps tr'
    <= train_steps tr + Z.max 0 (max_steps_per_episode tr).
Proof.
  intros Hroom Hbs. unfold _run_episode.
  destruct (env_reset (trainer_env tr)) as [state env].
  match goal with
  | |- context [for_each _ ?xs ?st] =>
      destruct (for_each_counted (episode_step true) _
                  (episode_step_returns (train_steps tr)
                     (Z.max 0 (max_steps_per_episode tr)))
                  xs st)
        as (st' & n & Hfor & _ & _ & Hlow & Hhigh)
  end.
  { rewrite length_range_list_1.
    cbn [ep_trainer trainer_agent train_steps].
    split; [assumption|]. split; [assumption|]. split; lia. }
  destruct Hfor as [-> | ->]; eexists _, _, _, _; (split; [reflexivity|lia]).
Qed.

(** X16: a training episode runs to its end, with no [BufferFullError]
    from the buffer and no [ValueError] from the update, whenever the
    batch size is not zero and the buffer, as [Agent.reset] leaves it, has
    room for [max_steps_per_episode] more transitions; [train_steps] then
    grows by at most [max_steps_per_episode]. *)
Theorem X16_training_episode_returns (tr : trainer) (return_results : bool) :
  (buffer_len (buffer (agent_reset (trainer_agent tr)))
   + Z.to_nat (max_steps_per_episode tr)
   <= buf_size (buffer (agent_reset (trainer_agent tr))))%nat ->
  batch_size (cfg (agent_reset (trainer_agent tr))) <> 0 ->
  exists ret avg res tr',
    _run_episode tr true return_results = Ok ((ret, avg, res), tr') /\
    train_steps tr <= train_steps tr'
    <= train_steps tr + Z.max 0 (max_steps_per_episode tr).
Proof.
  intros Hroom Hbs.
  destruct (training_episode_returns tr return_results Hroom Hbs)
    as (ret & avg & res & tr' & Hrun & Hsteps).
  exists ret, avg, res, tr'. split; [exact Hrun|exact Hsteps].
Qed.

(** ** An episode that is only cut short *)

Lemma for_each_continue {A S : Type} (body : S -> A -> result (flow S S))
    (J : nat -> S -> Prop) :
  (forall n s x, J (Datatypes.S n) s ->
     exists s', body s x = Ok (@Continue S S s') /\ J n s') ->
  forall xs s, J (length xs) s ->
  exists s', for_each body xs s = Ok (@Continue S S s') /\ J 0%nat s'.
Proof.
  intros Hbody. induction xs as [|x xs IH]; intros s HJ.
  - exists s. split; [reflexivity|exact HJ].
  - cbn [for_each]. destruct (Hbody _ s x HJ) as (s1 & -> & HJ1).
    apply IH. exact HJ1.
Qed.

(** X17: a network update can only happen on a step the environment
    reports as terminated or truncated.  With an environment that never
    does, a training episode runs all its [max_steps_per_episode] steps
    and trains nothing: no metrics, actor, critic, optimizers and
    schedulers as [Agent.reset] left them, and every transition of the
    episode still in the buffer. *)
Theorem X17_no_update_without_done (tr : trainer) (return_results : bool) :
  (forall e a, snd (fst (fst (env_step e a))) || snd (fst (env_step e a)) = false) ->
  (buffer_len (buffer (agent_reset (trainer_agent tr)))
   + Z.to_nat (max_steps_per_episode tr)
   <= buf_size (buffer (agent_reset (trainer_agent tr))))%nat ->
  exists ret res tr',
    _run_episode tr true return_results = Ok ((ret, ∅, res), tr') /\
    buffer_len (buffer (trainer_agent tr'))
    = (buffer_len (buffer (agent_reset (trainer_agent tr)))
       + Z.to_nat (max_steps_per_episode tr))%nat /\
    actor (trainer_agent tr') = actor (agent_reset (trainer_agent tr)) /\
    critic (trainer_agent tr') = critic (agent_reset (trainer_agent tr)) /\
    actor_optimizer (trainer_agent tr')
    = actor_optimizer (agent_reset (trainer_agent tr)) /\
    critic_optimizer (trainer_agent tr')
    = critic_optimizer (agent_reset (trainer_agent tr)) /\
    actor_scheduler (trainer_agent tr')
    = actor_scheduler (agent_reset (trainer_agent tr)) /\
    critic_scheduler (trainer_agent tr')
    = critic_scheduler (agent_reset (trainer_agent tr)) /\
    train_steps tr' = train_steps tr + Z.max 0 (max_steps_per_episode tr).
Proof.
  intros Hnever Hroom. unfold _run_episode.
  destruct (env_reset (trainer_env tr)) as [state env].
  set (ag0 := agent_reset (trainer_agent tr)) in *.
  set (total := Z.to_nat (max_steps_per_episode tr)) in *.
  set (J := fun (n : nat) (st : episode_state) =>
              let ag := trainer_agent (ep_trainer st) in
              (buffer_len (buffer ag) + n
               = buffer_len (buffer ag0) + total)%nat /\
              buf_size (buffer ag) = buf_size (buffer ag0) /\
              actor ag = actor ag0 /\ critic ag = critic ag0 /\
              actor_optimizer ag = actor_optimizer ag0 /\
              critic_optimizer ag = critic_optimizer ag0 /\
              actor_scheduler ag = actor_scheduler ag0 /\
              critic_scheduler ag = critic_scheduler ag0 /\
              train_steps (ep_trainer st) + Z.of_nat n
              = train_steps tr + Z.of_nat total /\
              no_update_yet st).
  assert (Hstep : forall n st x, J (S n) st ->
            exists st', episode_step true st x = Ok (@Continue _ _ st') /\ J n st').
  { intros n st x (Hlen & Hsize & Ha & Hc & Hoa & Hoc & Hsa & Hsc & Hts & Hnum & Hacc).
    unfold episode_step.
    destruct (act_only_rng (trainer_agent (ep_trainer st)) (ep_state st)) as [rg Hact].
    destruct (act (trainer_agent (ep_trainer st)) (ep_state st)) as [action ag].
    cbn [snd] in Hact. subst ag.
    pose proof (Hnever (trainer_env (ep_trainer st)) action) as Hdone.
    destruct (env_step (trainer_env (ep_trainer st)) action)
      as [[[[next_state reward] terminated] truncated] env'].
    cbn [fst snd] in Hdone. rewrite Hdone.
    destruct (update_only_stores (set_rng (trainer_agent (ep_trainer st)) rg) (ep_state st)
                action reward next_state false)
      as (ag' & Hupd & Hdata & Ha' & Hc' & Hoa' & Hoc' & Hsa' & Hsc' & Hsize').
    { cbn [set_rng buffer]. lia. }
    { left. reflexivity. }
    rewrite Hupd. cbn [truthy]. rewrite map_size_empty. cbn [Nat.eqb negb].
    eexists. split; [reflexivity|].
    subst J. cbn [ep_trainer trainer_agent train_steps].
    cbn [set_rng buffer actor critic actor_optimizer critic_optimizer
         actor_scheduler critic_scheduler] in Hdata, Ha', Hc', Hoa', Hoc', Hsa', Hsc',
         Hsize'.
    unfold buffer_len in *. rewrite Hdata, length_app. cbn [length].
    split; [lia|]. split; [congruence|].
    repeat (split; [congruence|]). split; [lia|]. split; assumption. }
  match goal with
  | |- context [for_each _ ?xs ?st] =>
      destruct (for_each_continue (episode_step true) J Hstep xs st)
        as (st' & -> & Hfinal)
  end.
  { rewrite length_range_list_1. subst J. cbn [ep_trainer trainer_agent train_steps].
    split; [reflexivity|]. repeat (split; [reflexivity|]). split; reflexivity. }
  destruct Hfinal as (Hlen & _ & Ha & Hc & Hoa & Hoc & Hsa & Hsc & Hts & Hnum & _).
  rewrite Hnum. cbn [Z.ltb Z.compare].
  eexists _, _, _. split; [reflexivity|].
  split; [lia|]. repeat (split; [assumption|]). subst total. lia.
Qed.

(** ** The metrics history *)

Lemma update_avg_metrics_lookup (tr : trainer) (d : gmap string (value F))
    (k : string) :
  avg_metrics (_update_avg_metrics tr d) !! k
  = match d !! k with
    | Some x => Some (default [] (avg_metrics tr !! k) ++ [x])
    | None => avg_metrics tr !! k
    end.
Proof.
  unfold _update_avg_metrics. cbn [avg_metrics]. rewrite lookup_merge.
  destruct (avg_metrics tr !! k), (d !! k); reflexivity.
Qed.

(** X14: the history [_update_avg_metrics] keeps for a metric is the list
    of the values the episodes reported for it, in order, after whatever
    was there before.  An episode that does not report the metric leaves
    no entry, so the histories of two metrics need not have the same
    length, and a metric never reported has no history at all. *)
Theorem X14_metrics_history (ds : list (gmap string (value F))) (tr : trainer)
    (k : string) :
  avg_metrics (fold_left _update_avg_metrics ds tr) !! k
  = match avg_metrics tr !! k, omap (fun d : gmap string (value F) => d !! k) ds with
    | None, [] => None
    | before, reported => Some (default [] before ++ reported)
    end.
Proof.
  revert tr. induction ds as [|d ds IH]; intros tr.
  - cbn [fold_left omap list_omap].
    destruct (avg_metrics tr !! k) as [h|]; [|reflexivity].
    unfold default. cbn [from_option]. unfold Datatypes.id.
    rewrite app_nil_r. reflexivity.
  - cbn [fold_left omap list_omap]. rewrite IH, update_avg_metrics_lookup.
    destruct (d !! k) as [x|].
    + destruct (avg_metrics tr !! k) as [h|]; unfold default; cbn [from_option];
        unfold Datatypes.id; rewrite <- ?app_assoc; reflexivity.
    + reflexivity.
Qed.

End TrainerProperties.

(** * Checkpoint paths *)

Lemma string_length_app (s1 s2 : string) :
  String.length (s1 +:+ s2) = (String.length s1 + String.length s2)%nat.
Proof.
  induction s1 as [|a s1 IH]; [reflexivity|].
  change (String a s1 +:+ s2) with (String a (s1 +:+ s2)).
  cbn [String.length]. rewrite IH. reflexivity.
Qed.

Lemma string_app_inv_tail (t : string) :
  forall s1 s2 : string, s1 +:+ t = s2 +:+ t -> s1 = s2.
Proof.
  induction s1 as [|a s1 IH]; intros [|b s2] Heq.
  - reflexivity.
  - apply (f_equal String.length) in Heq.
    rewrite !string_length_app in Heq. cbn [String.length] in Heq. lia.
  - apply (f_equal String.length) in Heq.
    rewrite !string_length_app in Heq. cbn [String.length] in Heq. lia.
  - change (String a (s1 +:+ t) = String b (s2 +:+ t)) in Heq.
    injection Heq as -> Heq. f_equal. apply IH. exact Heq.
Qed.

Lemma checkpoint_file_name_inj (e1 e2 : Z) :
  "agent_ep" +:+ pretty e1 +:+ ".pt" = "agent_ep" +:+ pretty e2 +:+ ".pt" -> e1 = e2.
Proof.
  intros Heq. apply (inj (String.append "agent_ep")) in Heq.
  apply string_app_inv_tail in Heq. apply (inj pretty) in Heq. exact Heq.
Qed.

(** X15: checkpoint files never collide.  The agent, environment and
    training-state paths of a checkpoint lie in three different
    directories under [save_dir], so no two files of different kinds
    share a path, whatever their episodes; and two files of the same kind
    share a path only when the episode is the same. *)
Theorem X15_checkpoint_paths_never_collide (save_dir : list string) (e1 e2 : Z) :
  let p1 := get_checkpoint_paths save_dir e1 in
  let p2 := get_checkpoint_paths save_dir e2 in
  p1.1.1 <> p2.1.2 /\
  p1.1.1 <> p2.2 /\
  p1.1.2 <> p2.2 /\
  (p1.1.1 = p2.1.1 -> e1 = e2) /\
  (p1.1.2 = p2.1.2 -> e1 = e2) /\
  (p1.2 = p2.2 -> e1 = e2).
Proof.
  cbv zeta. unfold get_checkpoint_paths. cbn [fst snd].
  repeat split; intros Heq; apply app_inv_head in Heq;
    try discriminate;
    apply (f_equal (fun path => nth 1 path EmptyString)) in Heq;
    apply checkpoint_file_name_inj; exact Heq.
Qed.


(** * The properties at concrete inputs *)

Import Demo.

(** Evaluate everything but the operations on the reals. *)
Ltac real_eval :=
  cbv -[Rplus Rminus Rmult Rdiv Rinv Ropp IZR Rmin Rmax exp sqrt].

(** [range] and the 80% rule on small inputs. *)
Example range_40_16 : py_range 40 16 = Ok [0; 16; 32].
Proof. reflexivity. Qed.

Example range_zero_step : py_range 40 0 = Raise ValueError.
Proof. reflexivity. Qed.

Example range_negative_step : py_range 0 (-1) = Ok [].
Proof. reflexivity. Qed.

Example too_small_8_of_16 : too_small 8 16 = true /\ too_small 13 16 = false.
Proof. split; reflexivity. Qed.

Example too_small_at_the_threshold : too_small 4 5 = false /\ too_small 3 5 = true.
Proof. split; reflexivity. Qed.

(** The recursion of [compute_gae] on two steps of one episode. *)
Example compute_gae_two_steps :
  compute_gae [1%R; 2%R] [0%R; 0%R] [false; true] 5%R 1%R = ([3%R; 2%R], [3%R; 2%R]).
Proof. real_eval. f_equal; repeat f_equal; lra. Qed.

(** C1: forty stored transitions and batch size 16.  One pass counts the
    minibatches starting at 0 and 16 and skips the one of size 8;
    whatever number of epochs is configured, [update_networks] reports 2
    updates, the count of that one pass: with four epochs, 2 and not
    4 * 2. *)
Theorem C1_update_returns_after_first_pass :
  counted_starts 40 16 = [0; 16] /\
  (forall epochs : Z, 1 <= epochs ->
   exists m ag',
     update_networks (demo_agent 40 64 epochs 16) [] = Ok (Some m, ag') /\
     m !! "updates_performed" = Some (VInt 2)) /\
  exists m ag',
    update_networks (demo_agent 40 64 4 16) [] = Ok (Some m, ag') /\
    m !! "updates_performed" = Some (VInt 2) /\
    m !! "updates_performed" <> Some (VInt (4 * 2)).
Proof.
  assert (Hgen : forall epochs : Z, 1 <= epochs ->
            exists m ag',
              update_networks (demo_agent 40 64 epochs 16) [] = Ok (Some m, ag') /\
              m !! "updates_performed" = Some (VInt 2)).
  { intros epochs Hep.
    destruct (update_networks_updates_performed (demo_agent 40 64 epochs 16) [])
      as (m & ag' & Hupd & Hcount).
    - reflexivity.
    - apply Z.leb_le. vm_compute. reflexivity.
    - exact Hep.
    - exists m, ag'. split; [exact Hupd|]. rewrite Hcount. reflexivity. }
  split; [reflexivity|]. split; [exact Hgen|].
  destruct (Hgen 4 ltac:(lia)) as (m & ag' & Hupd & Hcount).
  exists m, ag'. split; [exact Hupd|]. split; [exact Hcount|].
  rewrite Hcount. discriminate.
Qed.

(** C9: two stored transitions with reward 1 and value 1, batch size 1,
    discount 0.  Both minibatches have value mean 1 and advantage mean 0;
    the dictionary reports 1 under ['advantage_mean'], the average of the
    value means, where the average of the advantage means is 0. *)
Theorem C9_advantage_mean_reports_the_value_mean :
  t_mean (map (fun mb => t_mean (mb_advantages mb))
              (first_pass (demo_agent 2 64 1 1) [] 1)) = 0%R /\
  t_mean (map (fun mb => t_mean (mb_values mb))
              (first_pass (demo_agent 2 64 1 1) [] 1)) = 1%R /\
  exists m ag',
    update_networks (demo_agent 2 64 1 1) [] = Ok (Some m, ag') /\
    m !! "updates_performed" = Some (VInt 2) /\
    m !! "value_mean" = Some (VFloat 1%R) /\
    m !! "advantage_mean" = Some (VFloat 1%R) /\
    m !! "advantage_mean" <> Some (VFloat 0%R).
Proof.
  assert (Hadv : t_mean (map (fun mb => t_mean (mb_advantages mb))
                   (first_pass (demo_agent 2 64 1 1) [] 1)) = 0%R)
    by (real_eval; lra).
  assert (Hval : t_mean (map (fun mb => t_mean (mb_values mb))
                   (first_pass (demo_agent 2 64 1 1) [] 1)) = 1%R)
    by (real_eval; lra).
  split; [exact Hadv|]. split; [exact Hval|].
  destruct (update_networks_first_pass (demo_agent 2 64 1 1) [])
    as (mid & ag' & Hupd & Hlen).
  - vm_compute. discriminate.
  - discriminate.
  - vm_compute. discriminate.
  - vm_compute. discriminate.
  - cbv zeta in Hupd, Hlen.
    change (Z.min (batch_size (cfg (demo_agent 2 64 1 1)))
                  (Z.of_nat (buffer_len (buffer (demo_agent 2 64 1 1)))))
      with 1 in Hupd, Hlen.
    change (counted_starts (Z.of_nat (buffer_len (buffer (demo_agent 2 64 1 1)))) 1)
      with [0; 1] in Hlen.
    eexists _, ag'. split; [exact Hupd|].
    destruct (averaged_metrics_entries mid
                (first_pass (demo_agent 2 64 1 1) [] 1) 1)
      as (_ & _ & _ & Hvm & _ & Ham & _ & Hcount & _).
    cbv zeta in Hvm, Ham, Hcount.
    rewrite Hvm, Ham, Hcount, Hlen, Hval.
    repeat split. intros [= Hone]. lra.
Qed.

(** C3 at three stored transitions with batch size 16. *)
Lemma C3_witness :
  Z.of_nat (buffer_len (buffer (demo_agent 3 64 4 16)))
  < 2 * batch_size (cfg (demo_agent 3 64 4 16)) /\
  exists m,
    update_networks (demo_agent 3 64 4 16) [] = Ok (Some m, demo_agent 3 64 4 16) /\
    m !! "skipped_reason" = Some (VStr "insufficient_data").
Proof.
  assert (Hfew : Z.of_nat (buffer_len (buffer (demo_agent 3 64 4 16)))
                 < 2 * batch_size (cfg (demo_agent 3 64 4 16)))
    by (vm_compute; reflexivity).
  split; [exact Hfew|].
  destruct (C3_insufficient_data_is_a_noop (demo_agent 3 64 4 16) [] Hfew)
    as (_ & m & Hrun & Hskip & _).
  exists m. split; [exact Hrun|exact Hskip].
Defined.

(** C4, counterexample to the original wording: two stored transitions
    are enough for batch size 1, a pass with minibatch size 5 counts
    nothing, and the record returned has no ['skipped_reason'] entry;
    likewise through [update_networks] with an empty buffer and batch
    size -1. *)
Lemma C4_counterexample :
  (minimum_required_samples (demo_agent 2 64 1 1)
   <= Z.of_nat (buffer_len (buffer (demo_agent 2 64 1 1))) /\
   counted_starts 2 5 = [] /\
   _perform_update (demo_agent 2 64 1 1) [] 5
   = Ok (Some (zero_metrics (demo_agent 2 64 1 1) 5), demo_agent 2 64 1 1) /\
   zero_metrics (demo_agent 2 64 1 1) 5 !! "updates_performed" = Some (VInt 0) /\
   zero_metrics (demo_agent 2 64 1 1) 5 !! "skipped_reason" = None) /\
  (minimum_required_samples (demo_agent 0 64 1 (-1))
   <= Z.of_nat (buffer_len (buffer (demo_agent 0 64 1 (-1)))) /\
   exists m ag',
     update_networks (demo_agent 0 64 1 (-1)) [] = Ok (Some m, ag') /\
     m !! "updates_performed" = Some (VInt 0) /\
     m !! "skipped_reason" = None).
Proof.
  split.
  - split; [vm_compute; discriminate|]. repeat split.
  - split; [vm_compute; discriminate|].
    eexists _, _. split; [reflexivity|]. split; reflexivity.
Qed.

(** C4 at two stored transitions and a minibatch size of 5. *)
Lemma C4_witness :
  1 <= num_epochs (cfg (demo_agent 2 64 1 1)) /\
  5 <> 0 /\
  counted_starts (Z.of_nat (buffer_len (buffer (demo_agent 2 64 1 1)))) 5 = [] /\
  exists m ag',
    _perform_update (demo_agent 2 64 1 1) [] 5 = Ok (Some m, ag') /\
    m !! "updates_performed" = Some (VInt 0) /\
    m !! "skipped_reason" = None.
Proof.
  assert (Hep : 1 <= num_epochs (cfg (demo_agent 2 64 1 1)))
    by (apply Z.leb_le; vm_compute; reflexivity).
  assert (Hbs : 5 <> 0) by lia.
  assert (Hnone : counted_starts
                    (Z.of_nat (buffer_len (buffer (demo_agent 2 64 1 1)))) 5 = [])
    by reflexivity.
  split; [exact Hep|]. split; [exact Hbs|]. split; [exact Hnone|].
  destruct (C4_zero_minibatches_zero_metrics (demo_agent 2 64 1 1) [] 5 Hep Hbs Hnone)
    as (m & ag' & Hrun & _ & _ & _ & _ & Hcount & _ & _ & _ & _ & _ & _ & Hskip).
  exists m, ag'. split; [exact Hrun|]. split; [exact Hcount|exact Hskip].
Defined.

(** C6 over the reals, where addition commutes. *)
Lemma C6_witness :
  (forall x y : R, f_add x y = f_add y x) /\
  let mb := minibatch_forward (demo_agent 2 64 1 1)
              (buffer_get (buffer (demo_agent 2 64 1 1))) [[]; []] [] [1%nat; 0%nat] in
  mb_value_loss mb
  = spec_value_loss (clip_range (cfg (demo_agent 2 64 1 1)))
                    (mb_values mb) (mb_old_values mb) (mb_returns mb) /\
  mb_loss mb
  = spec_total_loss (cfg (demo_agent 2 64 1 1))
                    (mb_policy_loss mb) (mb_value_loss mb) (mb_entropy mb).
Proof.
  assert (Hcomm : forall x y : R, f_add x y = f_add y x)
    by (intros x y; simpl; lra).
  split; [exact Hcomm|].
  destruct (C6_value_and_total_loss (demo_agent 2 64 1 1)
              (buffer_get (buffer (demo_agent 2 64 1 1))) [[]; []] [] [1%nat; 0%nat]
              Hcomm)
    as (_ & _ & Hvalue & _ & _ & _ & _ & _ & _ & _ & _ & _ & _ & Htotal & _).
  split; [exact Hvalue|exact Htotal].
Defined.

(** C7 at forty stored transitions with batch size 16. *)
Lemma C7_witness :
  minimum_required_samples (demo_agent 40 64 4 16)
  <= Z.of_nat (buffer_len (buffer (demo_agent 40 64 4 16))) /\
  batch_size (cfg (demo_agent 40 64 4 16)) <> 0 /\
  exists m ag',
    update_networks (demo_agent 40 64 4 16) [] = Ok (m, ag') /\
    last_epoch (actor_scheduler ag') = 1 /\
    last_epoch (critic_scheduler ag') = 1 /\
    buf_data (buffer ag') = [].
Proof.
  assert (Hlen : minimum_required_samples (demo_agent 40 64 4 16)
                 <= Z.of_nat (buffer_len (buffer (demo_agent 40 64 4 16))))
    by (apply Z.leb_le; vm_compute; reflexivity).
  assert (Hbs : batch_size (cfg (demo_agent 40 64 4 16)) <> 0) by (simpl; lia).
  split; [exact Hlen|]. split; [exact Hbs|].
  destruct (C7_schedulers_once_then_buffer_cleared (demo_agent 40 64 4 16) [] Hlen Hbs)
    as (m & mid & ag' & _ & Hupd & _ & _ & _ & _ & _ & _ & Ha & Hc & _ & Hempty).
  exists m, ag'. split; [exact Hupd|]. split; [exact Ha|]. split; [exact Hc|exact Hempty].
Defined.



(** C10 at an empty buffer of size 8. *)
Lemma C10_witness :
  (buffer_len (buffer (demo_agent 0 8 1 1)) < buf_size (buffer (demo_agent 0 8 1 1)))%nat /\
  forall a' : action R,
    tr_log_prob (fst (prepare_transition (demo_agent 0 8 1 1) [] a' 1%R false))
    = tr_log_prob (fst (prepare_transition (demo_agent 0 8 1 1) []
                          (ActArray [1%R; 2%R]) 1%R false)).
Proof.
  assert (Hroom : (buffer_len (buffer (demo_agent 0 8 1 1))
                   < buf_size (buffer (demo_agent 0 8 1 1)))%nat)
    by (vm_compute; lia).
  split; [exact Hroom|].
  destruct (C10_stored_log_prob_is_of_a_fresh_sample (demo_agent 0 8 1 1) []
              (ActArray [1%R; 2%R]) 1%R [] false Hroom)
    as (_ & _ & Hindep & _).
  exact Hindep.
Defined.

(** ** The further properties at concrete inputs *)

Import DemoWorld.

(** X1 at forty stored transitions with batch size 16: two full
    minibatches, and a remainder of 8 that is skipped. *)
Lemma X1_witness :
  0 < batch_size (cfg (demo_agent 40 64 3 16)) /\
  minimum_required_samples (demo_agent 40 64 3 16)
  <= Z.of_nat (buffer_len (buffer (demo_agent 40 64 3 16))) /\
  1 <= num_epochs (cfg (demo_agent 40 64 3 16)) /\
  exists m ag',
    update_networks (demo_agent 40 64 3 16) [] = Ok (Some m, ag') /\
    m !! "updates_performed" = Some (VInt 2).
Proof.
  assert (Hbs : 0 < batch_size (cfg (demo_agent 40 64 3 16))) by (simpl; lia).
  assert (Hlen : minimum_required_samples (demo_agent 40 64 3 16)
                 <= Z.of_nat (buffer_len (buffer (demo_agent 40 64 3 16))))
    by (apply Z.leb_le; vm_compute; reflexivity).
  assert (Hep : 1 <= num_epochs (cfg (demo_agent 40 64 3 16))) by (simpl; lia).
  split; [exact Hbs|]. split; [exact Hlen|]. split; [exact Hep|].
  destruct (X1_updates_performed_formula (demo_agent 40 64 3 16) [] Hbs Hlen Hep)
    as (m & ag' & Hupd & Hcount).
  exists m, ag'. split; [exact Hupd|exact Hcount].
Defined.

(** X2 on a permutation of five indices cut into minibatches of two. *)
Lemma X2_witness :
  0 < 2 /\
  concat (map (fun start =>
                 slice [3; 0; 4; 1; 2]%nat (Z.to_nat start)
                       (Z.to_nat (Z.min (start + 2) 5)))
              (range_list 5 2))
  = [3; 0; 4; 1; 2]%nat.
Proof.
  assert (Hbs : 0 < 2) by lia.
  split; [exact Hbs|].
  exact (X2_minibatch_slices_partition [3; 0; 4; 1; 2]%nat 2 Hbs).
Defined.

(** X3 at forty stored transitions with batch size 16. *)
Lemma X3_witness :
  0 < batch_size (cfg (demo_agent 40 64 3 16)) /\
  minimum_required_samples (demo_agent 40 64 3 16)
  <= Z.of_nat (buffer_len (buffer (demo_agent 40 64 3 16))) /\
  1 <= num_epochs (cfg (demo_agent 40 64 3 16)) /\
  exists m ag' n,
    update_networks (demo_agent 40 64 3 16) [] = Ok (Some m, ag') /\
    m !! "updates_performed" = Some (VInt (Z.of_nat n)) /\
    opt_steps (actor_optimizer ag') = n /\
    opt_steps (critic_optimizer ag') = n.
Proof.
  assert (Hbs : 0 < batch_size (cfg (demo_agent 40 64 3 16))) by (simpl; lia).
  assert (Hlen : minimum_required_samples (demo_agent 40 64 3 16)
                 <= Z.of_nat (buffer_len (buffer (demo_agent 40 64 3 16))))
    by (apply Z.leb_le; vm_compute; reflexivity).
  assert (Hep : 1 <= num_epochs (cfg (demo_agent 40 64 3 16))) by (simpl; lia).
  split; [exact Hbs|]. split; [exact Hlen|]. split; [exact Hep|].
  destruct (X3_one_optimizer_step_per_update (demo_agent 40 64 3 16) [] Hbs Hlen Hep)
    as (m & ag' & n & Hupd & Hcount & Ha & Hc).
  exists m, ag', n. split; [exact Hupd|]. split; [exact Hcount|].
  split; [exact Ha|exact Hc].
Defined.

(** X4 in the concrete world, whose [randperm] is the identity
    permutation. *)
Lemma X4_witness :
  (forall (r : Rng) (n : nat), length (fst (randperm r n)) = n) /\
  0 < 16 /\
  Forall (fun mb =>
            4 * 16 <= 5 * Z.of_nat (length (mb_advantages mb)) /\
            Z.of_nat (length (mb_advantages mb)) <= 16)
         (first_pass (demo_agent 40 64 3 16) [] 16).
Proof.
  assert (Hperm : forall (r : Rng) (n : nat), length (fst (randperm r n)) = n)
    by (intros r n; simpl; apply length_seq).
  assert (Hbs : 0 < 16) by lia.
  split; [exact Hperm|]. split; [exact Hbs|].
  exact (X4_minibatch_sizes (demo_agent 40 64 3 16) [] 16 Hperm Hbs).
Defined.

(** X5 on the first update cycle, where no decay is due. *)
Lemma X5_witness :
  minimum_required_samples (demo_agent 40 64 3 16)
  <= Z.of_nat (buffer_len (buffer (demo_agent 40 64 3 16))) /\
  batch_size (cfg (demo_agent 40 64 3 16)) <> 0 /\
  1 <= num_epochs (cfg (demo_agent 40 64 3 16)) /\
  0 <= last_epoch (actor_scheduler (demo_agent 40 64 3 16)) /\
  exists m ag',
    update_networks (demo_agent 40 64 3 16) [] = Ok (Some m, ag') /\
    m !! "learning_rate" = Some (VFloat (f_dec 3 10000)) /\
    opt_lr (actor_optimizer ag') = f_dec 3 10000.
Proof.
  assert (Hlen : minimum_required_samples (demo_agent 40 64 3 16)
                 <= Z.of_nat (buffer_len (buffer (demo_agent 40 64 3 16))))
    by (apply Z.leb_le; vm_compute; reflexivity).
  assert (Hbs : batch_size (cfg (demo_agent 40 64 3 16)) <> 0) by (simpl; lia).
  assert (Hep : 1 <= num_epochs (cfg (demo_agent 40 64 3 16))) by (simpl; lia).
  assert (Hsched : 0 <= last_epoch (actor_scheduler (demo_agent 40 64 3 16)))
    by (simpl; lia).
  split; [exact Hlen|]. split; [exact Hbs|]. split; [exact Hep|]. split; [exact Hsched|].
  destruct (X5_learning_rate_is_reported_before_the_decay
              (demo_agent 40 64 3 16) [] Hlen Hbs Hep Hsched)
    as (m & ag' & Hupd & Hlr & Hafter).
  exists m, ag'. split; [exact Hupd|]. split; [exact Hlr|exact Hafter].
Defined.

(** X6 with zero epochs configured. *)
Lemma X6_witness :
  minimum_required_samples (demo_agent 40 64 0 16)
  <= Z.of_nat (buffer_len (buffer (demo_agent 40 64 0 16))) /\
  num_epochs (cfg (demo_agent 40 64 0 16)) <= 0 /\
  exists ag',
    update_networks (demo_agent 40 64 0 16) [] = Ok (None, ag') /\
    buf_data (buffer ag') = [] /\
    opt_steps (actor_optimizer ag') = 0%nat.
Proof.
  assert (Hlen : minimum_required_samples (demo_agent 40 64 0 16)
                 <= Z.of_nat (buffer_len (buffer (demo_agent 40 64 0 16))))
    by (apply Z.leb_le; vm_compute; reflexivity).
  assert (Hep : num_epochs (cfg (demo_agent 40 64 0 16)) <= 0) by (simpl; lia).
  split; [exact Hlen|]. split; [exact Hep|].
  destruct (X6_no_epochs_drops_the_buffer_untrained (demo_agent 40 64 0 16) [] Hlen Hep)
    as (ag' & Hupd & Hempty & _ & _ & Ha & _).
  exists ag'. split; [exact Hupd|]. split; [exact Hempty|exact Ha].
Defined.

(** X7 with batch size zero. *)
Lemma X7_witness :
  batch_size (cfg (demo_agent 5 64 1 0)) = 0 /\
  1 <= num_epochs (cfg (demo_agent 5 64 1 0)) /\
  update_networks (demo_agent 5 64 1 0) [] = Raise ValueError.
Proof.
  assert (Hbs : batch_size (cfg (demo_agent 5 64 1 0)) = 0) by reflexivity.
  assert (Hep : 1 <= num_epochs (cfg (demo_agent 5 64 1 0))) by (simpl; lia).
  split; [exact Hbs|]. split; [exact Hep|].
  exact (proj1 (X7_zero_batch_size_raises (demo_agent 5 64 1 0) [] Hbs Hep)).
Defined.

(** X8 on a transition that ends an episode after three steps, with batch
    size 16. *)
Lemma X8_witness :
  (buffer_len (buffer (demo_agent 2 8 1 16)) < buf_size (buffer (demo_agent 2 8 1 16)))%nat /\
  (true = false
   \/ Z.of_nat (buffer_len (buffer (demo_agent 2 8 1 16))) + 1
      < 2 * batch_size (cfg (demo_agent 2 8 1 16))) /\
  exists ag',
    update (demo_agent 2 8 1 16) [] (ActScalar 0%R) 1%R [] true = Ok (Some ∅, ag') /\
    length (buf_data (buffer ag')) = 3%nat.
Proof.
  assert (Hroom : (buffer_len (buffer (demo_agent 2 8 1 16))
                   < buf_size (buffer (demo_agent 2 8 1 16)))%nat)
    by (vm_compute; lia).
  assert (Hquiet : true = false
                   \/ Z.of_nat (buffer_len (buffer (demo_agent 2 8 1 16))) + 1
                      < 2 * batch_size (cfg (demo_agent 2 8 1 16)))
    by (right; vm_compute; reflexivity).
  split; [exact Hroom|]. split; [exact Hquiet|].
  destruct (X8_update_only_stores (demo_agent 2 8 1 16) [] (ActScalar 0%R) 1%R []
              true Hroom Hquiet) as (ag' & Hupd & Hdata & _).
  exists ag'. split; [exact Hupd|]. rewrite Hdata. reflexivity.
Defined.

(** X10 on the transition that brings the buffer to [2 * batch_size] at the
    end of an episode. *)
Lemma X10_witness :
  (buffer_len (buffer (demo_agent 1 8 1 1)) < buf_size (buffer (demo_agent 1 8 1 1)))%nat /\
  batch_size (cfg (demo_agent 1 8 1 1)) <> 0 /\
  exists m ag',
    update (demo_agent 1 8 1 1) [] (ActScalar 0%R) 1%R [] true = Ok (m, ag') /\
    buffer_len (buffer ag') = 0%nat.
Proof.
  assert (Hroom : (buffer_len (buffer (demo_agent 1 8 1 1))
                   < buf_size (buffer (demo_agent 1 8 1 1)))%nat)
    by (vm_compute; lia).
  assert (Hbs : batch_size (cfg (demo_agent 1 8 1 1)) <> 0) by (simpl; lia).
  split; [exact Hroom|]. split; [exact Hbs|].
  destruct (X10_buffer_after_update (demo_agent 1 8 1 1) [] (ActScalar 0%R) 1%R []
              true Hroom Hbs) as (m & ag' & Hupd & Hlen & _).
  exists m, ag'. split; [exact Hupd|exact Hlen].
Defined.

(** X9 on the transition that triggers a network update. *)
Lemma X9_witness :
  exists m ag',
    update (demo_agent 1 8 1 1) [] (ActScalar 0%R) 1%R [] true = Ok (Some m, ag') /\
    m !! "skipped_reason" = None.
Proof.
  destruct (update_returns_some (demo_agent 1 8 1 1) [] (ActScalar 0%R) 1%R [] true)
    as (m & ag' & Hupd).
  - vm_compute. lia.
  - simpl. lia.
  - simpl. lia.
  - exists m, ag'. split; [exact Hupd|].
    exact (X9_update_never_reports_skipped_reason
             (demo_agent 1 8 1 1) [] (ActScalar 0%R) 1%R [] true m ag' Hupd).
Defined.

(** X12 on an evaluation episode of the two-step environment. *)
Lemma X12_witness :
  exists ret avg res tr',
    _run_episode (demo_trainer 5 1 1) false true = Ok ((ret, avg, res), tr') /\
    avg = ∅ /\
    buffer (trainer_agent tr') = buffer (agent_reset (trainer_agent (demo_trainer 5 1 1))) /\
    state_normalizer (trainer_agent tr')
    = state_normalizer (agent_reset (trainer_agent (demo_trainer 5 1 1))) /\
    train_steps tr' = train_steps (demo_trainer 5 1 1).
Proof.
  destruct (evaluation_episode_runs (demo_trainer 5 1 1) true)
    as (ret & res & tr' & Hrun & _).
  exists ret, ∅, res, tr'. split; [exact Hrun|].
  destruct (X12_evaluation_episode_leaves_the_agent
              (demo_trainer 5 1 1) true ret ∅ res tr' Hrun)
    as (Havg & _ & Hbuf & _ & _ & _ & _ & _ & _ & Hnorm & Hsteps & _).
  split; [exact Havg|]. split; [exact Hbuf|]. split; [exact Hnorm|exact Hsteps].
Defined.

(** X13 on an episode of the two-step environment with batch size 1. *)
Lemma X13_witness :
  exists ret avg res tr',
    _run_episode (demo_trainer 5 1 1) true false = Ok ((ret, avg, res), tr') /\
    (avg = ∅ \/
     exists (m : gmap string (value R)) (ag : agent) (state : list R) (reward : R)
            (next_state : list R),
       update (snd (act ag state)) state (fst (act ag state)) reward next_state true
       = Ok (Some m, trainer_agent tr') /\
       (size m =? 0)%nat = false /\
       avg = (fun v => VFloat (f_div (to_float v) (f_of_Z 1))) <$> accumulate_metrics ∅ m /\
       (forall k : string,
          avg !! k
          = match m !! k with
            | Some (VFloat x) => Some (VFloat (f_div (f_add (f_of_Z 0) x) (f_of_Z 1)))
            | Some (VInt z) => Some (VFloat (f_div (f_of_Z (0 + z)) (f_of_Z 1)))
            | Some (VStr _) | None => None
            end) /\
       buf_data (buffer (trainer_agent tr')) = []).
Proof.
  destruct (training_episode_returns (demo_trainer 5 1 1) false)
    as (ret & avg & res & tr' & Hrun & _).
  - vm_compute. lia.
  - simpl. lia.
  - exists ret, avg, res, tr'. split; [exact Hrun|].
    exact (X13_episode_metrics_come_from_one_final_update
             (demo_trainer 5 1 1) false ret avg res tr' Hrun).
Defined.

(** X16 on an episode of at most five steps with an empty buffer of
    size 8. *)
Lemma X16_witness :
  (buffer_len (buffer (agent_reset (trainer_agent (demo_trainer 5 1 1))))
   + Z.to_nat (max_steps_per_episode (demo_trainer 5 1 1))
   <= buf_size (buffer (agent_reset (trainer_agent (demo_trainer 5 1 1)))))%nat /\
  batch_size (cfg (agent_reset (trainer_agent (demo_trainer 5 1 1)))) <> 0 /\
  exists ret avg res tr',
    _run_episode (demo_trainer 5 1 1) true true = Ok ((ret, avg, res), tr') /\
    0 <= train_steps tr' <= 5.
Proof.
  assert (Hroom : (buffer_len (buffer (agent_reset (trainer_agent (demo_trainer 5 1 1))))
                   + Z.to_nat (max_steps_per_episode (demo_trainer 5 1 1))
                   <= buf_size (buffer (agent_reset
                                          (trainer_agent (demo_trainer 5 1 1)))))%nat)
    by (vm_compute; lia).
  assert (Hbs : batch_size (cfg (agent_reset (trainer_agent (demo_trainer 5 1 1)))) <> 0)
    by (simpl; lia).
  split; [exact Hroom|]. split; [exact Hbs|].
  destruct (X16_training_episode_returns (demo_trainer 5 1 1) true Hroom Hbs)
    as (ret & avg & res & tr' & Hrun & Hsteps).
  exists ret, avg, res, tr'. split; [exact Hrun|exact Hsteps].
Defined.

(** X17 in the environment that never ends an episode: three steps, batch
    size 1, and the three transitions are still in the buffer. *)
Lemma X17_witness :
  (forall e a,
     snd (fst (fst (env_step (Surroundings := endless) e a)))
     || snd (fst (env_step (Surroundings := endless) e a)) = false) /\
  (buffer_len (buffer (agent_reset (Surroundings := endless)
                         (trainer_agent (endless_trainer 3 1 1))))
   + Z.to_nat (max_steps_per_episode (endless_trainer 3 1 1))
   <= buf_size (buffer (agent_reset (Surroundings := endless)
                          (trainer_agent (endless_trainer 3 1 1)))))%nat /\
  exists ret res tr',
    _run_episode (endless_trainer 3 1 1) true false = Ok ((ret, ∅, res), tr') /\
    buffer_len (buffer (trainer_agent tr')) = 3%nat /\
    train_steps tr' = 3.
Proof.
  assert (Hnever : forall e a,
            snd (fst (fst (env_step (Surroundings := endless) e a)))
            || snd (fst (env_step (Surroundings := endless) e a)) = false)
    by (intros e a; reflexivity).
  assert (Hroom : (buffer_len (buffer (agent_reset (Surroundings := endless)
                                         (trainer_agent (endless_trainer 3 1 1))))
                   + Z.to_nat (max_steps_per_episode (endless_trainer 3 1 1))
                   <= buf_size (buffer (agent_reset (Surroundings := endless)
                                          (trainer_agent (endless_trainer 3 1 1)))))%nat)
    by (vm_compute; lia).
  split; [exact Hnever|]. split; [exact Hroom|].
  destruct (X17_no_update_without_done (endless_trainer 3 1 1) false Hnever Hroom)
    as (ret & res & tr' & Hrun & Hlen & _ & _ & _ & _ & _ & _ & Hsteps).
  exists ret, res, tr'. split; [exact Hrun|]. split; [exact Hlen|exact Hsteps].
Defined.

(** * The losses in exact arithmetic

    Over the real numbers, with any networks. *)

Section RealLosses.
Context `{C : Collaborators R}.

Lemma fold_left_Rplus_le (a b : list R) :
  Forall2 Rle a b ->
  forall x y : R, (x <= y)%R -> (fold_left Rplus a x <= fold_left Rplus b y)%R.
Proof.
  induction 1 as [|u v a b Huv _ IH]; intros x y Hxy; cbn [fold_left].
  - exact Hxy.
  - apply IH. lra.
Qed.

Lemma t_mean_le (a b : list R) :
  Forall2 Rle a b -> (t_mean a <= t_mean b)%R.
Proof.
  intros Hab. unfold t_mean, t_sum. cbn [f_div f_add f_zero f_of_Z R_scalar].
  rewrite <- (Forall2_length _ _ _ Hab).
  destruct a as [|u a].
  - apply Forall2_nil_inv_l in Hab. subst b. lra.
  - assert (Hn : (0 < IZR (Z.of_nat (length (u :: a))))%R).
    { apply IZR_lt. cbn [length]. lia. }
    apply Rmult_le_compat_r.
    + left. apply Rinv_0_lt_compat. exact Hn.
    + apply fold_left_Rplus_le; [exact Hab|lra].
Qed.

Lemma t_min_le_left (a b : list R) :
  length a = length b -> Forall2 Rle (t_min a b) a.
Proof.
  revert b. induction a as [|x a IH]; intros [|y b] Hlen; cbn in Hlen; try lia.
  - constructor.
  - cbn. constructor; [apply Rmin_l|apply IH; lia].
Qed.

Lemma t_max_ge_left (a b : list R) :
  length a = length b -> Forall2 Rle a (t_max a b).
Proof.
  revert b. induction a as [|x a IH]; intros [|y b] Hlen; cbn in Hlen; try lia.
  - constructor.
  - cbn. constructor; [apply Rmax_l|apply IH; lia].
Qed.

Lemma t_mean_pow2_nonneg (a : list R) : (0 <= t_mean (t_pow2 a))%R.
Proof.
  replace 0%R with (t_mean (map (fun _ => 0%R) a)).
  - apply t_mean_le. unfold t_pow2. induction a as [|x a IH]; cbn; constructor.
    + unfold f_sq. cbn. nra.
    + exact IH.
  - unfold t_mean, t_sum. cbn [f_div f_add f_zero f_of_Z R_scalar].
    assert (Hz : forall x : R, fold_left Rplus (map (fun _ => 0%R) a) x = x).
    { induction a as [|u a IH]; intros x; cbn; [reflexivity|]. rewrite IH. lra. }
    rewrite Hz. unfold Rdiv. lra.
Qed.

(** X18: in exact arithmetic the clipping only ever makes the objective
    more pessimistic.  For every minibatch, the policy loss is at least
    the unclipped surrogate loss [-mean(ratio * advantage)], and the value
    loss is at least half the mean squared error of the current values,
    hence never negative. *)
Theorem X18_clipped_losses_bound_the_plain_ones (ag : agent) (data : buffer_data R)
    (ns : list (list R)) (fs : list R) (idx : list nat) :
  let mb := minibatch_forward ag data ns fs idx in
  let ratio := t_exp (t_sub (mb_log_probs mb) (mb_old_log_probs mb)) in
  (- t_mean (t_mul ratio (mb_advantages mb)) <= mb_policy_loss mb)%R /\
  (/ 2 * t_mean (t_pow2 (t_sub (mb_values mb) (mb_returns mb))) <= mb_value_loss mb)%R /\
  (0 <= mb_value_loss mb)%R.
Proof.
  intros mb ratio.
  destruct (minibatch_losses ag data ns fs idx) as [Hpolicy Hvalue].
  destruct (minibatch_lengths ag data ns fs idx) as (Hlp & Holp & Hv & Hov & Hadv & Hret).
  fold mb in Hpolicy, Hvalue, Hlp, Holp, Hv, Hov, Hadv, Hret.
  cbv zeta in Hpolicy, Hvalue. fold ratio in Hpolicy.
  assert (Hhalf : f_dec 1 2 = (/ 2)%R).
  { unfold f_dec. cbn [f_div f_of_Z R_scalar]. lra. }
  assert (Hmse : (/ 2 * t_mean (t_pow2 (t_sub (mb_values mb) (mb_returns mb)))
                  <= mb_value_loss mb)%R).
  { rewrite Hvalue, Hhalf. cbn [f_mul R_scalar].
    apply Rmult_le_compat_l; [lra|]. apply t_mean_le, t_max_ge_left.
    unfold t_pow2, t_sub, t_add, t_clamp.
    rewrite !length_map, !length_zip_with, !length_map, !length_zip_with. lia. }
  split; [|split; [exact Hmse|]].
  - rewrite Hpolicy. cbn [f_neg R_scalar]. apply Ropp_le_contravar.
    apply t_mean_le, t_min_le_left.
    unfold t_mul, t_clamp, ratio, t_exp, t_sub.
    rewrite !length_zip_with, !length_map, !length_zip_with. lia.
  - pose proof (t_mean_pow2_nonneg (t_sub (mb_values mb) (mb_returns mb))). lra.
Qed.

End RealLosses.
